(** * collaborative-canvas: the action log, the message router and the
      adaptive draw-move sender, embedded from the JavaScript sources

    - [src/server/drawing-state.js] : [DrawingState], [DrawingStateManager],
      and (second half of the same file) [Room.generateId];
    - [src/server/server.js]        : [handleMessage] and its handlers,
      [broadcast], [isValidDrawData];
    - [src/server/server.js]        : [handleJoinRoom], [handleDisconnect],
      [sanitize], with [Room] and [RoomManager];
    - client [canvas.js]            : [CanvasManager.getAdaptiveThrottle],
      [sendDrawMoveAdaptive], [stopDrawing], [optimizePath], [rebuild];
    - client [websocket.js]         : [updateLatency], [tryReconnect].

    Conventions.  JavaScript numbers that the code uses as counters, ids
    and smoothed latencies are integers ([Z]); coordinates and
    [performance.now()] readings are rationals ([Q]).  A property that may
    be [undefined] is an [option].  [new Date()] is a clock reading handed
    to the operation as [now] (milliseconds).  [console.log] output is not
    part of the model.  Where the source repeats one body three times (the
    three scans of the action log, the three undo/redo handlers) the body
    is written once and instantiated three times. *)

From Stdlib Require Import ZArith QArith Qabs Qround Lqa Ascii String Sorted.
From stdpp Require Import gmap strings list fin_maps sorting.

Local Open Scope Z_scope.

(** ** JSON values, as produced by [JSON.parse] *)

#[warnings="-register-all"]
Inductive JsVal : Type :=
  | JNull
  | JBool (b : bool)
  | JNum (q : Q)
  | JStr (s : string)
  | JArr (vs : list JsVal)
  | JObj (fields : gmap string JsVal).

(** [typeof v === 'number'] *)
Definition is_number (v : option JsVal) : bool :=
  match v with Some (JNum _) => true | _ => false end.

(** [Array.isArray(v)] *)
Definition isArray (v : option JsVal) : bool :=
  match v with Some (JArr _) => true | _ => false end.

(** [Array.prototype.slice(start)] with a single argument: a negative start
    counts from the end, and both directions are clamped to the array. *)
Definition slice {A} (start : Z) (l : list A) : list A :=
  let len := Z.of_nat (length l) in
  let k := if start <? 0 then Z.max (len + start) 0 else Z.min start len in
  drop (Z.to_nat k) l.

(** ** drawing-state.js : DrawingState *)

Module DrawingState.

Record Payload : Type := mkPayload {
  tool : option JsVal;
  color : option JsVal;
  size : option JsVal;
  path : option JsVal;
  startX : option JsVal;
  startY : option JsVal
}.

(** The object stored in [this.actions].  [timestamp] is the millisecond
count of the creation time: a [Date] in an action made by [addAction], the
ISO string of that date in an action read back from disk; both print the
same on the wire.  [userId] is [None] for the clear marker, whose
[userId] is [undefined]. *)
Record Action : Type := mkAction {
  id : Z;
  userId : option string;
  type : string;
  payload : Payload;
  timestamp : Z;
  undone : bool
}.

(** The argument of [addAction]: the fields it reads from [action]. *)
Record ActionInput : Type := mkInput {
  in_userId : option string;
  in_type : string;
  in_payload : Payload
}.

Record t : Type := mkState {
  roomId : string;
  actions : list Action;
  actionIdCounter : Z;
  createdAt : Z;
  lastModified : Z
}.

(** [this.maxActions = 1000], set by the constructor and never assigned
    again. *)
Definition maxActions : Z := 1000.

(** [constructor(roomId)] *)
Definition new (room : string) (now : Z) : t :=
  {| roomId := room; actions := []; actionIdCounter := 0;
     createdAt := now; lastModified := now |}.

(** [addAction(action)]; [None] as argument is a falsy or non-object
    [action], [None] as result is the [null] it then returns. *)
Definition addAction (now : Z) (action : option ActionInput) (s : t)
  : t * option Action :=
  match action with
  | None => (s, None)
  | Some a =>
      let counter := actionIdCounter s + 1 in
      let newAction :=
        {| id := counter; userId := in_userId a; type := in_type a;
           payload := in_payload a; timestamp := now; undone := false |} in
      let pushed := actions s ++ [newAction] in
      let kept :=
        if maxActions <? Z.of_nat (length pushed)
        then slice (- maxActions) pushed else pushed in
      ({| roomId := roomId s; actions := kept; actionIdCounter := counter;
          createdAt := createdAt s; lastModified := now |},
       Some newAction)
  end.

(** The loop [for (let i = len - 1; i >= 0; i--) if (p(actions[i])) ...]:
    [scan p acts k] examines the indices [k-1, k-2, ..., 0] and returns
    the first one whose action satisfies [p]. *)
Fixpoint scan (p : Action -> bool) (acts : list Action) (k : nat)
  : option nat :=
  match k with
  | O => None
  | S i =>
      match acts !! i with
      | Some a => if p a then Some i else scan p acts i
      | None => scan p acts i
      end
  end.

Definition set_undone (b : bool) (a : Action) : Action :=
  {| id := id a; userId := userId a; type := type a; payload := payload a;
     timestamp := timestamp a; undone := b |}.

Definition is_clear (a : Action) : bool := String.eqb (type a) "clear".

(** The three loop conditions. *)
Definition undoable (a : Action) : bool :=
  negb (undone a) && negb (is_clear a).
Definition undoable_by (uid : string) (a : Action) : bool :=
  bool_decide (userId a = Some uid) && negb (undone a) && negb (is_clear a).
Definition redoable (a : Action) : bool :=
  undone a && negb (is_clear a).

(** The common body of the three loops: flip the flag of the action found
    and return it (the returned object is the mutated one). *)
Definition flip_found (p : Action -> bool) (b : bool) (now : Z) (s : t)
  : t * option Action :=
  match scan p (actions s) (length (actions s)) with
  | Some i =>
      match actions s !! i with
      | Some a =>
          ({| roomId := roomId s;
              actions := <[i := set_undone b a]> (actions s);
              actionIdCounter := actionIdCounter s;
              createdAt := createdAt s; lastModified := now |},
           Some (set_undone b a))
      | None => (s, None)
      end
  | None => (s, None)
  end.

Definition undoGlobal (now : Z) (s : t) : t * option Action :=
  flip_found undoable true now s.

Definition undoForUser (now : Z) (uid : string) (s : t) : t * option Action :=
  flip_found (undoable_by uid) true now s.

Definition redoGlobal (now : Z) (s : t) : t * option Action :=
  flip_found redoable false now s.

(** [clear()] *)
Definition clear (now : Z) (s : t) : t :=
  {| roomId := roomId s; actions := []; actionIdCounter := 0;
     createdAt := createdAt s; lastModified := now |}.

(** [getState()] *)
Record StateView : Type := mkView {
  v_roomId : string;
  v_actions : list Action;
  v_actionCount : Z
}.

Definition getState (s : t) : StateView :=
  {| v_roomId := roomId s; v_actions := actions s;
     v_actionCount := Z.of_nat (length (actions s)) |}.

(** [getActiveActions()] *)
Definition getActiveActions (s : t) : list Action :=
  List.filter (fun a => negb (undone a)) (actions s).

(** The persisted record.  A record read back from disk may lack any of
    its keys, hence the options; dates travel as ISO strings, which carry
    the same millisecond count. *)
Record Persisted : Type := mkPersisted {
  p_roomId : string;
  p_actions : option (list Action);
  p_actionIdCounter : option Z;
  p_createdAt : option Z;
  p_lastModified : option Z
}.

(** [toJSON()] *)
Definition toJSON (s : t) : Persisted :=
  {| p_roomId := roomId s;
     p_actions := Some (actions s);
     p_actionIdCounter := Some (actionIdCounter s);
     p_createdAt := Some (createdAt s);
     p_lastModified := Some (lastModified s) |}.

(** [static fromJSON(data)]; [x || d] takes [d] when [x] is missing (or,
    for the counter, zero, which is the same number). *)
Definition fromJSON (now : Z) (data : Persisted) : t :=
  {| roomId := p_roomId data;
     actions := default [] (p_actions data);
     actionIdCounter := default 0 (p_actionIdCounter data);
     createdAt := default now (p_createdAt data);
     lastModified := default now (p_lastModified data) |}.

(** A sequence of [addAction] calls on one log, each with its clock
    reading; the result collects the actions the calls returned. *)
Fixpoint addActions (calls : list (Z * option ActionInput)) (s : t)
  : t * list Action :=
  match calls with
  | [] => (s, [])
  | (now, action) :: rest =>
      let '(s1, r) := addAction now action s in
      let '(s2, rs) := addActions rest s1 in
      (s2, match r with Some a => a :: rs | None => rs end)
  end.

(** The ids in the log grow strictly from oldest to newest and none is
    above the counter. *)
Definition ids_ordered (s : t) : Prop :=
  StronglySorted Z.lt (id <$> actions s)
  /\ Forall (fun a => id a <= actionIdCounter s) (actions s).


End DrawingState.

(** ** drawing-state.js : DrawingStateManager *)

Module DrawingStateManager.

(** [this.states], a [Map] from room id to [DrawingState]. *)
Abbreviation t := (gmap string DrawingState.t).

(** [createState(roomId)] *)
Definition createState (now : Z) (room : string) (m : t)
  : t * DrawingState.t :=
  match m !! room with
  | Some s => (m, s)
  | None => (<[room := DrawingState.new room now]> m,
             DrawingState.new room now)
  end.

(** [getState(roomId)] *)
Definition getState (room : string) (m : t) : option DrawingState.StateView :=
  DrawingState.getState <$> (m !! room).

(** [addAction(roomId, action)]: the state is created when missing, the
    result of [state.addAction] is dropped. *)
Definition addAction (now : Z) (room : string)
    (action : option DrawingState.ActionInput) (m : t) : t :=
  let '(m1, s) := createState now room m in
  <[room := (DrawingState.addAction now action s).1]> m1.

(** The object literal [{ type: 'clear' }]. *)
Definition clear_marker : DrawingState.ActionInput :=
  {| DrawingState.in_userId := None;
     DrawingState.in_type := "clear";
     DrawingState.in_payload :=
       DrawingState.mkPayload None None None None None None |}.

(** What [clearState] does to the state it finds. *)
Definition clearState_on (now : Z) (s : DrawingState.t) : DrawingState.t :=
  (DrawingState.addAction now (Some clear_marker)
     (DrawingState.clear now s)).1.

(** [clearState(roomId)] *)
Definition clearState (now : Z) (room : string) (m : t) : t :=
  match m !! room with
  | Some s => <[room := clearState_on now s]> m
  | None => m
  end.

(** [undoGlobal], [undoForUser], [redoGlobal]: delegate to the room's
    state when there is one, else [null]. *)
Definition on_state (f : DrawingState.t -> DrawingState.t * option DrawingState.Action)
    (room : string) (m : t) : t * option DrawingState.Action :=
  match m !! room with
  | Some s => let '(s', r) := f s in (<[room := s']> m, r)
  | None => (m, None)
  end.

Definition undoGlobal (now : Z) (room : string) (m : t) :=
  on_state (DrawingState.undoGlobal now) room m.

Definition undoForUser (now : Z) (room uid : string) (m : t) :=
  on_state (DrawingState.undoForUser now uid) room m.

Definition redoGlobal (now : Z) (room : string) (m : t) :=
  on_state (DrawingState.redoGlobal now) room m.

(** [saveState(roomId)]: the record handed to [fs.writeFile], if the room
    has a state. *)
Definition saveState (room : string) (m : t) : option DrawingState.Persisted :=
  DrawingState.toJSON <$> (m !! room).

(** [loadState(roomId)], given the parsed content of the room's file
    ([None]: no file, or one that does not parse); returns the [true] or
    [false] of the source next to the new map. *)
Definition loadState (now : Z) (room : string)
    (file : option DrawingState.Persisted) (m : t) : t * bool :=
  match file with
  | Some parsed => (<[room := DrawingState.fromJSON now parsed]> m, true)
  | None => (m, false)
  end.

End DrawingStateManager.

(** ** drawing-state.js, second half : Room.generateId *)

Module Room.

Definition chars : string := "ABCDEFGHJKLMNPQRSTUVWXYZ23456789".

(** [Math.floor(r * chars.length)] for [r] a value of [Math.random()]. *)
Definition random_index (r : Q) : Z :=
  Qfloor (r * inject_Z (Z.of_nat (String.length chars))).

(** [chars[k]]; an index outside the string gives [undefined]. *)
Definition char_at (k : Z) : option ascii :=
  if k <? 0 then None else String.get (Z.to_nat k) chars.

(** [id += chars[k]] *)
Definition append_char (id : string) (k : Z) : string :=
  match char_at k with
  | Some c => id +:+ String c EmptyString
  | None => id +:+ "undefined"
  end.

(** [generateId()]; [rnd i] is the value of the [i]-th call of
    [Math.random()]. *)
Definition generateId (rnd : nat -> Q) : string :=
  foldl (fun id i => append_char id (random_index (rnd i))) "" (seq 0 6).

(** The characters the comment above [chars] lists as confusable. *)
Definition confusable (c : ascii) : bool :=
  bool_decide (c ∈ ["0"; "O"; "1"; "I"; "L"]%char).

Fixpoint string_forallb (p : ascii -> bool) (s : string) : bool :=
  match s with
  | EmptyString => true
  | String c r => p c && string_forallb p r
  end.

(** Membership in the alphabet. *)
Definition from_alphabet (c : ascii) : bool :=
  existsb (Ascii.eqb c) (list_ascii_of_string chars).

(** The confusable characters that the alphabet does leave out. *)
Definition zero_o_one_i (c : ascii) : bool :=
  bool_decide (c ∈ ["0"; "O"; "1"; "I"]%char).

End Room.

(** ** server.js *)

Module Server.

(** The fields of a connection object [ws] that the handlers read. *)
Record Conn : Type := mkConn {
  ws_id : string;
  ws_open : bool;                 (* ws.readyState === WebSocket.OPEN *)
  ws_roomId : option string;      (* null until joined *)
  ws_username : option string     (* null until joined *)
}.

(** An entry of [room.users]. *)
Record User : Type := mkUser {
  u_id : string;
  u_username : string;
  u_ws : Conn
}.

(** A room of the [RoomManager]; [users] in insertion order, which is the
    order a [Map] iterates in. *)
Record RoomRec : Type := mkRoom {
  room_id : string;
  users : list User
}.

Record World : Type := mkWorld {
  rooms : gmap string RoomRec;                 (* roomManager.rooms *)
  states : gmap string DrawingState.t          (* drawingStateManager.states *)
}.

(** What the server writes on a socket. *)
Inductive Wire : Type :=
  | WObject (fields : gmap string JsVal)
  | WCanvasRebuild (state : option DrawingState.StateView)
      (undoType : string) (affectedActionId : Z)
      (triggeredBy : option string)
  | WCanvasClear (userId : string)
  | WPong (timestamp : option JsVal)
  | WError (message : string).

Inductive Effect : Type :=
  | Send (to : string) (data : Wire)                   (* ws.send(...) *)
  | WriteFile (room : string) (data : DrawingState.Persisted).
                                                       (* fs.writeFile(...) *)

(** The result of running a handler: the new world, the connection (only
    [join-room] changes it), the effects in order, and whether the handler
    ended by throwing. *)
Record Outcome : Type := mkOutcome {
  world : World;
  conn : Conn;
  effects : list Effect;
  thrown : bool
}.

Definition done_with (w : World) (ws : Conn) (es : list Effect) : Outcome :=
  {| world := w; conn := ws; effects := es; thrown := false |}.

(** JavaScript truthiness of a JSON value and of an optional string. *)
Definition truthy (v : JsVal) : bool :=
  match v with
  | JNull => false
  | JBool b => b
  | JNum q => negb (Qeq_bool q 0)
  | JStr s => negb (String.eqb s "")
  | JArr _ | JObj _ => true
  end.

Definition truthy_str (o : option string) : option string :=
  match o with
  | Some s => if String.eqb s "" then None else Some s
  | None => None
  end.

Definition js_of_str (o : option string) : JsVal :=
  match o with Some s => JStr s | None => JNull end.

(** An object literal: a property whose value is [undefined] does not
    reach the wire. *)
Definition obj (fields : list (string * option JsVal)) : gmap string JsVal :=
  foldr (fun kv m => match kv.2 with
                     | Some v => <[kv.1 := v]> m
                     | None => m
                     end) ∅ fields.

(** [send(ws, data)] *)
Definition send (ws : Conn) (data : Wire) : list Effect :=
  if ws_open ws then [Send (ws_id ws) data] else [].

(** [roomManager.getUsers(roomId)] *)
Definition getUsers (room : string) (w : World) : list User :=
  match rooms w !! room with
  | Some r => users r
  | None => []
  end.

(** [broadcast(roomId, data, excludeId = null)] *)
Definition broadcast (room : string) (data : Wire)
    (excludeId : option string) (w : World) : list Effect :=
  omap (fun u =>
          if negb (bool_decide (Some (u_id u) = excludeId))
             && ws_open (u_ws u)
          then Some (Send (u_id u) data) else None)
       (getUsers room w).

(** [drawingStateManager.saveState(roomId)] as an effect. *)
Definition saveState (room : string) (w : World) : list Effect :=
  match DrawingStateManager.saveState room (states w) with
  | Some data => [WriteFile room data]
  | None => []
  end.

(** [Math.abs(v) > 10000] for a value that passed the [typeof] test. *)
Definition abs_gt_10000 (v : option JsVal) : bool :=
  match v with
  | Some (JNum q) => negb (Qle_bool (Qabs q) 10000)
  | _ => false
  end.

Definition type_is (data : gmap string JsVal) (t : string) : bool :=
  match data !! "type" with
  | Some (JStr s) => String.eqb s t
  | _ => false
  end.

(** [isValidDrawData(data)] *)
Definition isValidDrawData (data : gmap string JsVal) : bool :=
  match data !! "type" with
  | None => false
  | Some ty =>
      if negb (truthy ty) then false
      else if (type_is data "draw-start" || type_is data "draw-move")
              && (negb (is_number (data !! "x"))
                  || negb (is_number (data !! "y")))
      then false
      else if (type_is data "draw-start" || type_is data "draw-move")
              && (abs_gt_10000 (data !! "x") || abs_gt_10000 (data !! "y"))
      then false
      else if type_is data "draw-end"
              && match data !! "path" with
                 | Some (JArr p) => 10000 <? Z.of_nat (length p)
                 | _ => true
                 end
      then false
      else true
  end.

(** [handleDrawEvent(ws, msg)] *)
Definition handleDrawEvent (now : Z) (ws : Conn) (msg : gmap string JsVal)
    (w : World) : Outcome :=
  match truthy_str (ws_roomId ws) with
  | None => done_with w ws []
  | Some room =>
      if negb (isValidDrawData msg) then done_with w ws []
      else
        let msg' := <["username" := js_of_str (ws_username ws)]>
                      (<["userId" := JStr (ws_id ws)]> msg) in
        if type_is msg' "draw-end" then
          let action :=
            {| DrawingState.in_userId := Some (ws_id ws);
               DrawingState.in_type := "draw-end";
               DrawingState.in_payload :=
                 DrawingState.mkPayload (msg' !! "tool") (msg' !! "color")
                   (msg' !! "size") (msg' !! "path")
                   (msg' !! "startX") (msg' !! "startY") |} in
          let w' := {| rooms := rooms w;
                       states := DrawingStateManager.addAction now room
                                   (Some action) (states w) |} in
          done_with w' ws
            (saveState room w'
             ++ broadcast room (WObject msg') (Some (ws_id ws)) w')
        else
          done_with w ws (broadcast room (WObject msg') (Some (ws_id ws)) w)
  end.

(** The object [handleDrawBatch] builds for one move. *)
Definition batch_move_object (ws : Conn) (f : gmap string JsVal)
  : gmap string JsVal :=
  obj [("type", Some (JStr "draw-move"));
       ("userId", Some (JStr (ws_id ws)));
       ("username", Some (js_of_str (ws_username ws)));
       ("tool", f !! "tool"); ("color", f !! "color");
       ("size", f !! "size"); ("x", f !! "x"); ("y", f !! "y")].

(** The [for (const move of msg.moves)] loop: the effects so far, and
    whether the loop was left by an exception.  Reading [move.x] throws
    when [move] is [null] and gives [undefined] when it is any other
    non-object. *)
Fixpoint batch_loop (ws : Conn) (room : string) (w : World)
    (moves : list JsVal) : list Effect * bool :=
  match moves with
  | [] => ([], false)
  | move :: rest =>
      match move with
      | JNull => ([], true)
      | JObj f =>
          if negb (is_number (f !! "x")) || negb (is_number (f !! "y"))
          then batch_loop ws room w rest
          else
            let '(es, ex) := batch_loop ws room w rest in
            (broadcast room (WObject (batch_move_object ws f))
               (Some (ws_id ws)) w ++ es, ex)
      | _ => batch_loop ws room w rest
      end
  end.

(** [handleDrawBatch(ws, msg)] *)
Definition handleDrawBatch (ws : Conn) (msg : gmap string JsVal)
    (w : World) : Outcome :=
  match truthy_str (ws_roomId ws) with
  | None => done_with w ws []
  | Some room =>
      match msg !! "moves" with
      | Some (JArr moves) =>
          if bool_decide (length moves = 0%nat) then done_with w ws []
          else
            let '(es, ex) := batch_loop ws room w moves in
            {| world := w; conn := ws; effects := es; thrown := ex |}
      | _ => done_with w ws []
      end
  end.

(** [handleCursorMove(ws, msg)] *)
Definition handleCursorMove (ws : Conn) (msg : gmap string JsVal)
    (w : World) : Outcome :=
  match truthy_str (ws_roomId ws) with
  | None => done_with w ws []
  | Some room =>
      done_with w ws
        (broadcast room
           (WObject (obj [("type", Some (JStr "cursor-move"));
                          ("userId", Some (JStr (ws_id ws)));
                          ("username", Some (js_of_str (ws_username ws)));
                          ("x", msg !! "x"); ("y", msg !! "y")]))
           (Some (ws_id ws)) w)
  end.

(** [handleCanvasClear(ws)] *)
Definition handleCanvasClear (now : Z) (ws : Conn) (w : World) : Outcome :=
  match truthy_str (ws_roomId ws) with
  | None => done_with w ws []
  | Some room =>
      let w' := {| rooms := rooms w;
                   states := DrawingStateManager.clearState now room
                               (states w) |} in
      done_with w' ws
        (broadcast room (WCanvasClear (ws_id ws)) None w'
         ++ saveState room w')
  end.

(** The shared shape of [handleUndoGlobal], [handleUndoMy] and
    [handleRedoGlobal]: run the manager operation and, when it returns an
    action, broadcast the rebuild to the whole room and save. *)
Definition rebuild_after
    (op : string -> gmap string DrawingState.t ->
          gmap string DrawingState.t * option DrawingState.Action)
    (undoType : string) (ws : Conn) (w : World) : Outcome :=
  match truthy_str (ws_roomId ws) with
  | None => done_with w ws []
  | Some room =>
      let '(m', affectedAction) := op room (states w) in
      let w' := {| rooms := rooms w; states := m' |} in
      match affectedAction with
      | Some a =>
          done_with w' ws
            (broadcast room
               (WCanvasRebuild (DrawingStateManager.getState room m')
                  undoType (DrawingState.id a) (ws_username ws))
               None w'
             ++ saveState room w')
      | None => done_with w' ws []
      end
  end.

Definition handleUndoGlobal (now : Z) (ws : Conn) (w : World) : Outcome :=
  rebuild_after (DrawingStateManager.undoGlobal now) "global" ws w.

Definition handleUndoMy (now : Z) (ws : Conn) (w : World) : Outcome :=
  rebuild_after
    (fun room => DrawingStateManager.undoForUser now room (ws_id ws))
    "my" ws w.

Definition handleRedoGlobal (now : Z) (ws : Conn) (w : World) : Outcome :=
  rebuild_after (DrawingStateManager.redoGlobal now) "redo" ws w.

Section Router.

(** [handleJoinRoom] sanitises names, creates rooms and reads the disk;
    none of the properties below looks into it. *)
Variable handleJoinRoom :
  Z -> Conn -> gmap string JsVal -> World -> Outcome.

(** The [switch (msg.type)] of [handleMessage]. *)
Definition dispatch (now : Z) (ws : Conn) (t : string)
    (msg : gmap string JsVal) (w : World) : Outcome :=
  if String.eqb t "join-room" then handleJoinRoom now ws msg w
  else if String.eqb t "draw-start" || String.eqb t "draw-move"
          || String.eqb t "draw-end" then handleDrawEvent now ws msg w
  else if String.eqb t "draw-batch" then handleDrawBatch ws msg w
  else if String.eqb t "cursor-move" then handleCursorMove ws msg w
  else if String.eqb t "canvas-clear" then handleCanvasClear now ws w
  else if String.eqb t "ping" then
    done_with w ws (send ws (WPong (msg !! "timestamp")))
  else if String.eqb t "undo-global" then handleUndoGlobal now ws w
  else if String.eqb t "undo-my" then handleUndoMy now ws w
  else if String.eqb t "redo-global" then handleRedoGlobal now ws w
  else if String.eqb t "undo" then handleUndoMy now ws w
  else if String.eqb t "redo" then handleRedoGlobal now ws w
  else done_with w ws [].

(** [handleMessage(ws, msg)] for [msg] any parsed JSON value. *)
Definition handleMessage (now : Z) (ws : Conn) (msg : JsVal) (w : World)
  : Outcome :=
  match msg with
  | JObj m =>
      match m !! "type" with
      | Some ty =>
          if truthy ty then
            match ty with
            | JStr t => dispatch now ws t m w
            | _ => done_with w ws []
            end
          else done_with w ws (send ws (WError "Missing type"))
      | None => done_with w ws (send ws (WError "Missing type"))
      end
  | _ => done_with w ws (send ws (WError "Missing type"))
  end.

(** The [ws.on('message', ...)] listener: [handleMessage] under
    [try], with [sendError(ws, 'Invalid JSON')] in the [catch]. *)
Definition onMessage (now : Z) (ws : Conn) (msg : JsVal) (w : World)
  : Outcome :=
  let r := handleMessage now ws msg w in
  if thrown r then
    {| world := world r; conn := conn r;
       effects := effects r ++ send (conn r) (WError "Invalid JSON");
       thrown := false |}
  else r.

End Router.

(** The three requests that scan the action log, the handler each one
    reaches, and the loop condition each one scans with. *)
Inductive Request : Type := UndoGlobal | UndoMy | RedoGlobal.

Definition handleRequest (r : Request) : Z -> Conn -> World -> Outcome :=
  match r with
  | UndoGlobal => handleUndoGlobal
  | UndoMy => handleUndoMy
  | RedoGlobal => handleRedoGlobal
  end.

Definition eligible (r : Request) (ws : Conn) : DrawingState.Action -> bool :=
  match r with
  | UndoGlobal => DrawingState.undoable
  | UndoMy => DrawingState.undoable_by (ws_id ws)
  | RedoGlobal => DrawingState.redoable
  end.

(** The request is a no-op: the connection has no room, the room has no
    log, or the scan of the log finds no action. *)
Definition nothing_eligible (r : Request) (ws : Conn) (w : World) : bool :=
  match truthy_str (ws_roomId ws) with
  | None => true
  | Some room =>
      match states w !! room with
      | None => true
      | Some s =>
          match DrawingState.scan (eligible r ws) (DrawingState.actions s)
                  (length (DrawingState.actions s)) with
          | None => true
          | Some _ => false
          end
      end
  end.

End Server.

(** ** canvas.js : the adaptive draw-move sender of CanvasManager

    Rendering and the stroke's recorded path are left out; what is kept is
    every field and statement that decides what is handed to the network
    callbacks, and when. *)

Module CanvasManager.

(** The object literal built by [draw(e)]. *)
Record DrawData : Type := mkDraw {
  d_tool : string;
  d_color : string;
  d_size : Q;
  d_x : Q;
  d_y : Q
}.

(** The two closures given to [requestAnimationFrame]; each captures the
    [throttleMs] computed when it was scheduled. *)
Inductive FrameCallback : Type :=
  | FlushBatch (throttleMs : Z)
  | SendPending (throttleMs : Z).

Record t : Type := mkCanvas {
  isDrawing : bool;
  currentTool : string;
  currentColor : string;
  brushSize : Q;
  lastDrawEvent : Q;
  pendingDrawData : option DrawData;
  rafId : option FrameCallback;
  moveBatch : list DrawData;
  getLatency : bool;              (* is the callback set? *)
  onDrawStart : bool;
  onDrawMove : bool;
  onDrawBatch : bool;
  onDrawEnd : bool
}.

(** Calls of the network callbacks; [Threw] is the [TypeError] of calling
    a callback that is still [null]. *)
Inductive Out : Type :=
  | DrawStart (d : DrawData)
  | DrawMove (d : DrawData)
  | DrawBatch (moves : list DrawData)
  | DrawEnd
  | Threw.

(** The constructor's values. *)
Definition init : t :=
  {| isDrawing := false; currentTool := "brush"; currentColor := "#000000";
     brushSize := 5; lastDrawEvent := 0; pendingDrawData := None;
     rafId := None; moveBatch := []; getLatency := false;
     onDrawStart := false; onDrawMove := false; onDrawBatch := false;
     onDrawEnd := false |}.

(** [setupCanvasCallbacks()] of main.js. *)
Definition setupCanvasCallbacks (c : t) : t :=
  {| isDrawing := isDrawing c; currentTool := currentTool c;
     currentColor := currentColor c; brushSize := brushSize c;
     lastDrawEvent := lastDrawEvent c;
     pendingDrawData := pendingDrawData c; rafId := rafId c;
     moveBatch := moveBatch c; getLatency := true;
     onDrawStart := true; onDrawMove := true; onDrawBatch := true;
     onDrawEnd := true |}.

(** [this.getLatency ? this.getLatency() : 50]; [latency] is what the
    socket client's [getLatency()] answers at that moment. *)
Definition readLatency (latency : Z) (c : t) : Z :=
  if getLatency c then latency else 50.

(** [getAdaptiveThrottle()] *)
Definition getAdaptiveThrottle (latency : Z) (c : t) : Z :=
  let latency := readLatency latency c in
  if latency <? 50 then 8
  else if latency <? 100 then 16
  else if latency <? 200 then 32
  else 50.

Definition with_transmission (c : t) (last : Q) (pending : option DrawData)
    (raf : option FrameCallback) (batch : list DrawData) : t :=
  {| isDrawing := isDrawing c; currentTool := currentTool c;
     currentColor := currentColor c; brushSize := brushSize c;
     lastDrawEvent := last; pendingDrawData := pending; rafId := raf;
     moveBatch := batch; getLatency := getLatency c;
     onDrawStart := onDrawStart c; onDrawMove := onDrawMove c;
     onDrawBatch := onDrawBatch c; onDrawEnd := onDrawEnd c |}.

Definition with_isDrawing (b : bool) (c : t) : t :=
  {| isDrawing := b; currentTool := currentTool c;
     currentColor := currentColor c; brushSize := brushSize c;
     lastDrawEvent := lastDrawEvent c;
     pendingDrawData := pendingDrawData c; rafId := rafId c;
     moveBatch := moveBatch c; getLatency := getLatency c;
     onDrawStart := onDrawStart c; onDrawMove := onDrawMove c;
     onDrawBatch := onDrawBatch c; onDrawEnd := onDrawEnd c |}.

(** [if (!this.rafId) this.rafId = requestAnimationFrame(cb)] *)
Definition schedule (cb : FrameCallback) (raf : option FrameCallback)
  : option FrameCallback :=
  match raf with
  | None => Some cb
  | Some _ => raf
  end.

(** [sendDrawMoveAdaptive(drawData)] *)
Definition sendDrawMoveAdaptive (latency : Z) (drawData : DrawData) (c : t)
  : t :=
  if negb (onDrawMove c) && negb (onDrawBatch c) then c
  else
    let throttleMs := getAdaptiveThrottle latency c in
    let latency := readLatency latency c in
    if (150 <=? latency) && onDrawBatch c then
      with_transmission c (lastDrawEvent c) (Some drawData)
        (schedule (FlushBatch throttleMs) (rafId c))
        (moveBatch c ++ [drawData])
    else
      with_transmission c (lastDrawEvent c) (Some drawData)
        (schedule (SendPending throttleMs) (rafId c))
        (moveBatch c).

(** [now - this.lastDrawEvent >= throttleMs] *)
Definition elapsed (now : Q) (throttleMs : Z) (c : t) : bool :=
  Qle_bool (inject_Z throttleMs) (now - lastDrawEvent c).

(** The browser runs the scheduled callback at clock reading [now]
    ([performance.now()]); with nothing scheduled nothing runs. *)
Definition frame (now : Q) (c : t) : t * list Out :=
  match rafId c with
  | None => (c, [])
  | Some (FlushBatch throttleMs) =>
      if elapsed now throttleMs c && (0 <? Z.of_nat (length (moveBatch c)))
      then (with_transmission c now (pendingDrawData c) None [],
            [DrawBatch (moveBatch c)])
      else (with_transmission c (lastDrawEvent c) (pendingDrawData c)
              None (moveBatch c), [])
  | Some (SendPending throttleMs) =>
      match pendingDrawData c with
      | Some d =>
          if elapsed now throttleMs c then
            if onDrawMove c
            then (with_transmission c now (pendingDrawData c) None
                    (moveBatch c), [DrawMove d])
            else (c, [Threw])
          else (with_transmission c (lastDrawEvent c) (pendingDrawData c)
                  None (moveBatch c), [])
      | None => (with_transmission c (lastDrawEvent c) None None
                   (moveBatch c), [])
      end
  end.

(** [startDrawing(e)] at canvas coordinates [(x, y)]. *)
Definition startDrawing (x y : Q) (c : t) : t * list Out :=
  (with_isDrawing true c,
   if onDrawStart c
   then [DrawStart (mkDraw (currentTool c) (currentColor c) (brushSize c)
                      x y)]
   else []).

(** [draw(e)] at canvas coordinates [(x, y)]. *)
Definition draw (latency : Z) (x y : Q) (c : t) : t :=
  if negb (isDrawing c) then c
  else sendDrawMoveAdaptive latency
         (mkDraw (currentTool c) (currentColor c) (brushSize c) x y) c.

(** [stopDrawing(e)] *)
Definition stopDrawing (c : t) : t * list Out :=
  if negb (isDrawing c) then (c, [])
  else
    let c1 := with_isDrawing false c in
    let flush := (0 <? Z.of_nat (length (moveBatch c1))) && onDrawBatch c1 in
    (with_transmission c1 (lastDrawEvent c1) None None
       (if flush then [] else moveBatch c1),
     (if flush then [DrawBatch (moveBatch c1)] else [])
     ++ (if onDrawEnd c1 then [DrawEnd] else [])).

(** What can happen to a canvas: pointer events and animation frames. *)
Inductive Event : Type :=
  | EStart (x y : Q)
  | EDraw (latency : Z) (x y : Q)
  | EFrame (now : Q)
  | EStop.

Definition step (e : Event) (c : t) : t * list Out :=
  match e with
  | EStart x y => startDrawing x y c
  | EDraw latency x y => (draw latency x y c, [])
  | EFrame now => frame now c
  | EStop => stopDrawing c
  end.

(** A run: the final canvas and, per event, what it handed to the
    network. *)
Fixpoint run (es : list Event) (c : t) : t * list (Event * list Out) :=
  match es with
  | [] => (c, [])
  | e :: rest =>
      let '(c1, out) := step e c in
      let '(c2, outs) := run rest c1 in
      (c2, (e, out) :: outs)
  end.

Definition is_batch (o : Out) : bool :=
  match o with DrawBatch _ => true | _ => false end.

(** The application's canvas: constructed, then wired by main.js. *)
Definition wired : t := setupCanvasCallbacks init.

(** All callbacks set, nothing waiting in the batch, and the only frame
    callback that can be pending is the one that sends a single move
    under a 32 ms throttle. *)
Definition individual_mode (c : t) : Prop :=
  moveBatch c = [] /\ getLatency c = true /\ onDrawMove c = true
  /\ onDrawBatch c = true
  /\ (rafId c = None \/ rafId c = Some (SendPending 32)).

(** Every latency read during the events lies in [lo, hi]. *)
Definition latencies_within (lo hi : Z) (es : list Event) : Prop :=
  Forall (fun e => match e with
                   | EDraw latency _ _ => lo <= latency <= hi
                   | _ => True
                   end) es.

(** The clock reading of an event that is a frame and handed something
    to the network. *)
Definition sent_at (e : Event) (out : list Out) : option Q :=
  match e, out with
  | EFrame now, _ :: _ => Some now
  | _, _ => None
  end.

(** The clock readings of the sending frames of a run. *)
Definition send_times (trace : list (Event * list Out)) : list Q :=
  omap (fun eo => sent_at eo.1 eo.2) trace.

(** Each time is at least [gap] after the one before it, the first one
    at least [gap] after [last]. *)
Fixpoint spaced (gap last : Q) (times : list Q) : Prop :=
  match times with
  | [] => True
  | t :: rest => (gap <= t - last)%Q /\ spaced gap t rest
  end.

Definition outputs (trace : list (Event * list Out)) : list Out :=
  concat (snd <$> trace).

Definition is_single (o : Out) : bool :=
  match o with DrawBatch _ | Threw => false | _ => true end.

(** The latency callback and the batch callback set, and the only frame
    callback that can be pending is the one that flushes the batch under
    a 32 ms throttle. *)
Definition batch_mode (c : t) : Prop :=
  getLatency c = true /\ onDrawBatch c = true
  /\ (rafId c = None \/ rafId c = Some (FlushBatch 32)).

Definition is_bulk (o : Out) : bool :=
  match o with DrawMove _ | Threw => false | _ => true end.

(** The moves inside the batches handed to the network, in order. *)
Definition batched (outs : list Out) : list DrawData :=
  flat_map (fun o => match o with DrawBatch moves => moves | _ => [] end)
    outs.

(** The move that [draw(e)] hands to [sendDrawMoveAdaptive]: none unless
    the event is a move and a stroke is in progress. *)
Definition read (e : Event) (c : t) : list DrawData :=
  match e with
  | EDraw _ x y =>
      if isDrawing c
      then [mkDraw (currentTool c) (currentColor c) (brushSize c) x y]
      else []
  | _ => []
  end.

(** The moves read during a run, in order. *)
Fixpoint reads (es : list Event) (c : t) : list DrawData :=
  match es with
  | [] => []
  | e :: rest => read e c ++ reads rest (step e c).1
  end.

End CanvasManager.

(** ** drawing-state.js : sequences of operations on one log *)

Module History.

(** The calls a [DrawingStateManager] makes on a room's [DrawingState]:
    [addAction], the three scans, and [clear()] followed by
    [addAction({ type: 'clear' })], which is how [clearState] uses
    [clear()]. *)
Inductive Op : Type :=
  | Add (now : Z) (action : option DrawingState.ActionInput)
  | UndoGlobal (now : Z)
  | UndoForUser (now : Z) (uid : string)
  | RedoGlobal (now : Z)
  | ClearState (now : Z).

Definition apply (o : Op) (s : DrawingState.t) : DrawingState.t :=
  match o with
  | Add now action => (DrawingState.addAction now action s).1
  | UndoGlobal now => (DrawingState.undoGlobal now s).1
  | UndoForUser now uid => (DrawingState.undoForUser now uid s).1
  | RedoGlobal now => (DrawingState.redoGlobal now s).1
  | ClearState now => DrawingStateManager.clearState_on now s
  end.

Definition run (ops : list Op) (s : DrawingState.t) : DrawingState.t :=
  foldl (fun s o => apply o s) s ops.

(** The log with every flag lowered: what is left of it when the [undone]
    flags are ignored. *)
Definition erase_flags (l : list DrawingState.Action)
  : list DrawingState.Action :=
  DrawingState.set_undone false <$> l.

(** What every log built by the operations satisfies. *)
Definition well_formed (s : DrawingState.t) : Prop :=
  DrawingState.ids_ordered s
  /\ 0 <= DrawingState.actionIdCounter s
  /\ Forall (fun a => 0 < DrawingState.id a) (DrawingState.actions s)
  /\ (length (DrawingState.actions s) <= 1000)%nat
  /\ Forall (fun a => DrawingState.is_clear a = true ->
                      DrawingState.undone a = false)
       (DrawingState.actions s).

(** The same scan request repeated [n] times. *)
Definition repeatedly (n : nat)
    (f : DrawingState.t -> DrawingState.t * option DrawingState.Action)
    (s : DrawingState.t) : DrawingState.t :=
  Nat.iter n (fun s => (f s).1) s.

End History.

(** ** drawing-state.js, second half : Room and RoomManager *)

Module Rooms.

(** A value of [room.users]. *)
Record Member : Type := mkMember {
  m_id : string;
  m_username : string;
  m_ws : Server.Conn;
  m_joinedAt : Z
}.

(** A [Room]; [users] lists the values of the [Map] in insertion order. *)
Record Room : Type := mkRoom {
  id : string;
  users : list Member;
  createdAt : Z;
  lastActivity : Z
}.

(** [new Room(id)]: [this.id = id || this.generateId()]. *)
Definition new (id : option string) (rnd : nat -> Q) (now : Z) : Room :=
  {| id := default (Room.generateId rnd) (Server.truthy_str id);
     users := []; createdAt := now; lastActivity := now |}.

(** [Map.prototype.set] on [users]: a key that is present keeps its place
    and gets the new value, a new key goes to the end. *)
Fixpoint users_set (m : Member) (l : list Member) : list Member :=
  match l with
  | [] => [m]
  | x :: rest =>
      if String.eqb (m_id x) (m_id m) then m :: rest
      else x :: users_set m rest
  end.

(** [Map.prototype.delete] on [users]. *)
Definition users_delete (userId : string) (l : list Member) : list Member :=
  List.filter (fun x => negb (String.eqb (m_id x) userId)) l.

(** [room.addUser(userId, username, ws)] *)
Definition addUser (now : Z) (userId username : string) (ws : Server.Conn)
    (r : Room) : Room :=
  if String.eqb userId "" then r
  else
    {| id := id r;
       users := users_set
                  {| m_id := userId;
                     m_username := if String.eqb username ""
                                   then "Anonymous" else username;
                     m_ws := ws; m_joinedAt := now |}
                  (users r);
       createdAt := createdAt r; lastActivity := now |}.

(** [room.removeUser(userId)] *)
Definition removeUser (now : Z) (userId : string) (r : Room) : Room :=
  {| id := id r; users := users_delete userId (users r);
     createdAt := createdAt r; lastActivity := now |}.

(** [room.isEmpty()] *)
Definition isEmpty (r : Room) : bool :=
  bool_decide (length (users r) = 0%nat).

End Rooms.

Module RoomManager.

(** [this.rooms] *)
Abbreviation t := (gmap string Rooms.Room).

(** [createRoom(roomId = null)]: the new map and the room returned. *)
Definition createRoom (roomId : option string) (rnd : nat -> Q) (now : Z)
    (m : t) : t * Rooms.Room :=
  match Server.truthy_str roomId with
  | Some r =>
      match m !! r with
      | Some room => (m, room)
      | None => (<[Rooms.id (Rooms.new roomId rnd now)
                   := Rooms.new roomId rnd now]> m,
                 Rooms.new roomId rnd now)
      end
  | None => (<[Rooms.id (Rooms.new roomId rnd now)
               := Rooms.new roomId rnd now]> m,
             Rooms.new roomId rnd now)
  end.

(** [roomExists(roomId)] *)
Definition roomExists (roomId : string) (m : t) : bool :=
  bool_decide (is_Some (m !! roomId)).

(** [deleteRoom(roomId)] *)
Definition deleteRoom (roomId : string) (m : t) : t * bool :=
  match m !! roomId with
  | Some _ => (delete roomId m, true)
  | None => (m, false)
  end.

(** [addUser(roomId, userId, username, ws)] *)
Definition addUser (now : Z) (roomId userId username : string)
    (ws : Server.Conn) (m : t) : t :=
  match m !! roomId with
  | Some room => <[roomId := Rooms.addUser now userId username ws room]> m
  | None => m
  end.

(** [removeUser(roomId, userId)] *)
Definition removeUser (now : Z) (roomId userId : string) (m : t) : t :=
  match m !! roomId with
  | Some room => <[roomId := Rooms.removeUser now userId room]> m
  | None => m
  end.

(** [getUsers(roomId)] *)
Definition getUsers (roomId : string) (m : t) : list Rooms.Member :=
  match m !! roomId with
  | Some room => Rooms.users room
  | None => []
  end.

(** [getRoomCount()] *)
Definition getRoomCount (m : t) : nat := size m.

(** [const maxIdle = 30 * 60 * 1000] *)
Definition maxIdle : Z := 30 * 60 * 1000.

(** The test of [cleanupRooms]:
    [room.isEmpty() && (now - room.lastActivity) > maxIdle]. *)
Definition stale (now : Z) (room : Rooms.Room) : bool :=
  Rooms.isEmpty room && (maxIdle <? now - Rooms.lastActivity room).

(** [cleanupRooms()] at clock reading [now]: every room that passes the
    test is deleted. *)
Definition cleanupRooms (now : Z) (m : t) : t :=
  filter (fun kv => stale now kv.2 = false) m.

End RoomManager.

(** ** server.js : joining and leaving

    A [string] stands for a JavaScript string through its UTF-16 code
    units, one [ascii] per unit; strings with a unit above 255 are outside
    the model. *)

Module Lifecycle.

Record World : Type := mkWorld {
  rooms : gmap string Rooms.Room;              (* roomManager.rooms *)
  states : gmap string DrawingState.t          (* drawingStateManager.states *)
}.

(** What [broadcast] reads of the room manager. *)
Definition view_member (m : Rooms.Member) : Server.User :=
  Server.mkUser (Rooms.m_id m) (Rooms.m_username m) (Rooms.m_ws m).

Definition view_room (r : Rooms.Room) : Server.RoomRec :=
  Server.mkRoom (Rooms.id r) (view_member <$> Rooms.users r).

Definition view (w : World) : Server.World :=
  {| Server.rooms := view_room <$> rooms w; Server.states := states w |}.

(** [state-sync] carries a state, which the other messages do not. *)
Inductive Effect : Type :=
  | Core (e : Server.Effect)
  | SendStateSync (to : string) (state : DrawingState.StateView).

Record Outcome : Type := mkOutcome {
  world : World;
  conn : Server.Conn;
  effects : list Effect;
  thrown : bool
}.

Definition is_char (c d : ascii) : bool := Ascii.eqb c d.

(** [str.replace(/<[^>]*>/g, '')]: from each [<] that has a [>] somewhere
    after it, everything up to and including the first such [>] goes;
    [inside] says that the scan is between the two. *)
Fixpoint strip_tags (inside : bool) (s : list ascii) : list ascii :=
  match s with
  | [] => []
  | c :: rest =>
      if inside then
        if is_char c ">" then strip_tags false rest
        else strip_tags true rest
      else if is_char c "<" && existsb (fun d => is_char d ">") rest
      then strip_tags true rest
      else c :: strip_tags false rest
  end.

(** The five units of the second [replace]: less-than, greater-than,
    quotation mark (unit 34), apostrophe and ampersand. *)
Definition markup (c : ascii) : bool :=
  is_char c "<" || is_char c ">" || is_char c (ascii_of_nat 34)
  || is_char c "'" || is_char c "&".

(** White space and line terminators among the units below 256: tab, line
    feed, vertical tab, form feed, carriage return, space, no-break
    space. *)
Definition is_space (c : ascii) : bool :=
  let n := nat_of_ascii c in
  (9 <=? n)%nat && (n <=? 13)%nat || (n =? 32)%nat || (n =? 160)%nat.

Fixpoint trim_start (s : list ascii) : list ascii :=
  match s with
  | [] => []
  | c :: rest => if is_space c then trim_start rest else s
  end.

(** [str.trim()] *)
Definition trim (s : list ascii) : list ascii :=
  rev (trim_start (rev (trim_start s))).

(** [sanitize(str, maxLen)], on the units of the result. *)
Definition sanitize_units (s : list ascii) (maxLen : nat) : list ascii :=
  take maxLen
    (trim (List.filter (fun c => negb (markup c)) (strip_tags false s))).

(** [sanitize(str, maxLen)] for [str] any property value. *)
Definition sanitize (str : option JsVal) (maxLen : nat) : string :=
  match str with
  | Some (JStr s) =>
      if String.eqb s "" then ""
      else string_of_list_ascii (sanitize_units (list_ascii_of_string s) maxLen)
  | _ => ""
  end.

(** What one unit leaves behind after [toUpperCase()] and
    [replace(/[^A-Z0-9]/g, '')]: a letter a-z its capital, a capital or a
    digit itself, the sharp s (unit 223, whose upper case is SS) two
    capitals, any other unit nothing. *)
Definition upper_alnum (c : ascii) : list ascii :=
  let n := nat_of_ascii c in
  if (97 <=? n)%nat && (n <=? 122)%nat then [ascii_of_nat (n - 32)]
  else if (65 <=? n)%nat && (n <=? 90)%nat then [c]
  else if (48 <=? n)%nat && (n <=? 57)%nat then [c]
  else if (n =? 223)%nat then ["S"; "S"]%char
  else [].

(** [roomId.toUpperCase().replace(/[^A-Z0-9]/g, '').slice(0, 10)] *)
Definition clean_room_id (s : string) : string :=
  string_of_list_ascii
    (take 10 (flat_map upper_alnum (list_ascii_of_string s))).

(** The [roomId] that [handleJoinRoom] goes on with: [null] for a missing
    or falsy property, the cleaned string for a string; for any other
    truthy value the call of [toUpperCase] throws (outer [None]). *)
Definition requested_room (msg : gmap string JsVal) : option (option string) :=
  match msg !! "roomId" with
  | None => Some None
  | Some v =>
      if Server.truthy v then
        match v with
        | JStr s => Some (Some (clean_room_id s))
        | _ => None
        end
      else Some None
  end.

(** [sanitize(username, 20) || 'Anonymous'] *)
Definition requested_name (msg : gmap string JsVal) : string :=
  if String.eqb (sanitize (msg !! "username") 20) "" then "Anonymous"
  else sanitize (msg !! "username") 20.

(** [send(ws, data)] *)
Definition send (ws : Server.Conn) (data : Server.Wire) : list Effect :=
  Core <$> Server.send ws data.

(** [broadcast(roomId, data, excludeId)] *)
Definition broadcast (room : string) (data : Server.Wire)
    (excludeId : option string) (w : World) : list Effect :=
  Core <$> Server.broadcast room data excludeId (view w).

(** [users.map(u => ({ id: u.id, username: u.username }))] *)
Definition roster (l : list Rooms.Member) : JsVal :=
  JArr ((fun u => JObj (Server.obj [("id", Some (JStr (Rooms.m_id u)));
                                    ("username",
                                     Some (JStr (Rooms.m_username u)))]))
          <$> l).

(** The [else] branch of [handleJoinRoom]: create the room, then load its
    log from disk or start an empty one.  [disk r] is the parsed content of
    the file of room [r], if there is one that parses. *)
Definition open_room (now : Z) (rnd : nat -> Q)
    (disk : string -> option DrawingState.Persisted)
    (roomId : option string) (w : World) : World * Rooms.Room :=
  let '(rooms1, room) := RoomManager.createRoom roomId rnd now (rooms w) in
  let '(states1, loaded) :=
    DrawingStateManager.loadState now (Rooms.id room) (disk (Rooms.id room))
      (states w) in
  ({| rooms := rooms1;
      states := if loaded then states1
                else (DrawingStateManager.createState now (Rooms.id room)
                        states1).1 |},
   room).

(** [handleJoinRoom(ws, msg)] *)
Definition handleJoinRoom (now : Z) (rnd : nat -> Q)
    (disk : string -> option DrawingState.Persisted)
    (ws : Server.Conn) (msg : gmap string JsVal) (w : World) : Outcome :=
  let username := requested_name msg in
  match requested_room msg with
  | None => {| world := w; conn := ws; effects := []; thrown := true |}
  | Some roomId =>
      let '(w1, room) :=
        match Server.truthy_str roomId with
        | Some r =>
            match rooms w !! r with
            | Some room => (w, room)
            | None => open_room now rnd disk roomId w
            end
        | None => open_room now rnd disk roomId w
        end in
      let ws' := Server.mkConn (Server.ws_id ws) (Server.ws_open ws)
                   (Some (Rooms.id room)) (Some username) in
      let w2 := {| rooms := RoomManager.addUser now (Rooms.id room)
                              (Server.ws_id ws) username ws' (rooms w1);
                   states := states w1 |} in
      let users := RoomManager.getUsers (Rooms.id room) (rooms w2) in
      {| world := w2; conn := ws';
         effects :=
           send ws'
             (Server.WObject
                (Server.obj [("type", Some (JStr "room-joined"));
                             ("roomId", Some (JStr (Rooms.id room)));
                             ("userId", Some (JStr (Server.ws_id ws)));
                             ("users", Some (roster users))]))
           ++ match DrawingStateManager.getState (Rooms.id room) (states w2) with
              | Some state =>
                  if 0 <? DrawingState.v_actionCount state
                  then if Server.ws_open ws'
                       then [SendStateSync (Server.ws_id ws') state] else []
                  else []
              | None => []
              end
           ++ broadcast (Rooms.id room)
                (Server.WObject
                   (Server.obj [("type", Some (JStr "user-joined"));
                                ("userId", Some (JStr (Server.ws_id ws)));
                                ("username", Some (JStr username));
                                ("userCount",
                                 Some (JNum (inject_Z
                                               (Z.of_nat (length users)))))]))
                (Some (Server.ws_id ws)) w2;
         thrown := false |}
  end.

(** [handleDisconnect(ws)] *)
Definition handleDisconnect (now : Z) (ws : Server.Conn) (w : World)
  : Outcome :=
  match Server.truthy_str (Server.ws_roomId ws) with
  | None => {| world := w; conn := ws; effects := []; thrown := false |}
  | Some r =>
      match rooms w !! r with
      | None => {| world := w; conn := ws; effects := []; thrown := false |}
      | Some _ =>
          let w1 := {| rooms := RoomManager.removeUser now r (Server.ws_id ws)
                                  (rooms w);
                       states := states w |} in
          let users := RoomManager.getUsers r (rooms w1) in
          let left :=
            broadcast r
              (Server.WObject
                 (Server.obj [("type", Some (JStr "user-left"));
                              ("userId", Some (JStr (Server.ws_id ws)));
                              ("username",
                               Some (Server.js_of_str (Server.ws_username ws)));
                              ("userCount",
                               Some (JNum (inject_Z
                                             (Z.of_nat (length users)))))]))
              None w1 in
          if bool_decide (length users = 0%nat) then
            {| world := {| rooms := (RoomManager.deleteRoom r (rooms w1)).1;
                           states := delete r (states w1) |};
               conn := ws;
               effects := left ++ (Core <$> Server.saveState r (view w1));
               thrown := false |}
          else {| world := w1; conn := ws; effects := left; thrown := false |}
      end
  end.

End Lifecycle.

(** ** server.js : names for what joining and leaving send *)

Module LifecycleSpec.

Import Lifecycle.

(** A capital letter or a digit. *)
Definition alnum (c : ascii) : bool :=
  let n := nat_of_ascii c in
  (65 <=? n)%nat && (n <=? 90)%nat || (48 <=? n)%nat && (n <=? 57)%nat.

(** The joiner as registered in the room. *)
Definition joiner (now : Z) (ws : Server.Conn) (msg : gmap string JsVal)
    (r : string) : Rooms.Member :=
  Rooms.mkMember (Server.ws_id ws) (requested_name msg)
    (Server.mkConn (Server.ws_id ws) (Server.ws_open ws) (Some r)
       (Some (requested_name msg)))
    now.

(** The three messages of joining and leaving, and the [state-sync] that
    follows [room-joined] when the room's log is not empty. *)
Definition room_joined (ws : Server.Conn) (r : string)
    (users : list Rooms.Member) : Server.Wire :=
  Server.WObject
    (Server.obj [("type", Some (JStr "room-joined"));
                 ("roomId", Some (JStr r));
                 ("userId", Some (JStr (Server.ws_id ws)));
                 ("users", Some (roster users))]).

Definition user_joined (ws : Server.Conn) (name : string) (count : nat)
  : Server.Wire :=
  Server.WObject
    (Server.obj [("type", Some (JStr "user-joined"));
                 ("userId", Some (JStr (Server.ws_id ws)));
                 ("username", Some (JStr name));
                 ("userCount", Some (JNum (inject_Z (Z.of_nat count))))]).

Definition user_left (ws : Server.Conn) (count : nat) : Server.Wire :=
  Server.WObject
    (Server.obj [("type", Some (JStr "user-left"));
                 ("userId", Some (JStr (Server.ws_id ws)));
                 ("username", Some (Server.js_of_str (Server.ws_username ws)));
                 ("userCount", Some (JNum (inject_Z (Z.of_nat count))))]).

Definition state_sync (ws : Server.Conn) (log : option DrawingState.t)
  : list Effect :=
  match log with
  | Some s =>
      if (0 <? Z.of_nat (length (DrawingState.actions s))) && Server.ws_open ws
      then [SendStateSync (Server.ws_id ws) (DrawingState.getState s)]
      else []
  | None => []
  end.

End LifecycleSpec.

(** ** websocket.js : latency measurement and reconnection *)

Module WebSocketClient.

Section Arithmetic.

(** The numbers of JavaScript and what [updateLatency] does with them:
    the number an integer literal or a length stands for, [a + b],
    [a / b] and [Math.round].  They work on IEEE doubles; which double
    comes out is left open here. *)
Variable Num : Type.
Variable number : Z -> Num.
Variable plus : Num -> Num -> Num.
Variable divide : Num -> Num -> Num.
Variable round : Num -> Num.

Record t : Type := mkClient {
  reconnectAttempts : Z;
  latency : Num;
  latencyHistory : list Num
}.

(** The constructor's values. *)
Definition init : t :=
  {| reconnectAttempts := 0; latency := number 50; latencyHistory := [] |}.

Definition maxReconnectAttempts : Z := 5.
Definition maxLatencyHistory : Z := 5.

(** [history.reduce((a, b) => a + b, 0)] *)
Definition sum (l : list Num) : Num := foldl plus (number 0) l.

(** [Math.round(sum / this.latencyHistory.length)] *)
Definition mean (l : list Num) : Num :=
  round (divide (sum l) (number (Z.of_nat (length l)))).

(** [updateLatency(rtt)] *)
Definition updateLatency (rtt : Num) (c : t) : t :=
  let pushed := latencyHistory c ++ [rtt] in
  let kept := if maxLatencyHistory <? Z.of_nat (length pushed)
              then tail pushed else pushed in
  {| reconnectAttempts := reconnectAttempts c;
     latency := mean kept;
     latencyHistory := kept |}.

(** [getLatency()] *)
Definition getLatency (c : t) : Num := latency c.

(** [tryReconnect()]: the delay handed to [setTimeout], if a reconnection
    is scheduled. *)
Definition tryReconnect (c : t) : t * option Z :=
  if maxReconnectAttempts <=? reconnectAttempts c then (c, None)
  else
    let attempts := reconnectAttempts c + 1 in
    ({| reconnectAttempts := attempts; latency := latency c;
        latencyHistory := latencyHistory c |},
     Some (1000 * 2 ^ (attempts - 1))).

(** The [onopen] listener: [this.reconnectAttempts = 0]. *)
Definition onopen (c : t) : t :=
  {| reconnectAttempts := 0; latency := latency c;
     latencyHistory := latencyHistory c |}.

(** The pongs of a session, oldest first. *)
Definition measure (rtts : list Num) (c : t) : t :=
  foldl (fun c rtt => updateLatency rtt c) c rtts.

(** Closing [n] times in a row without an [onopen] in between. *)
Definition closes (n : nat) (c : t) : t :=
  Nat.iter n (fun c => (tryReconnect c).1) c.

End Arithmetic.

Arguments reconnectAttempts {Num}.
Arguments latency {Num}.
Arguments latencyHistory {Num}.
Arguments getLatency {Num}.
Arguments tryReconnect {Num}.
Arguments onopen {Num}.
Arguments closes {Num}.

End WebSocketClient.

(** ** canvas.js : thinning a path *)

Module PathOps.

Section Thinning.

(** A point of the path, and the test
    [Math.sqrt(Math.pow(curr.x - prev.x, 2) + Math.pow(curr.y - prev.y, 2))
     >= minDistance], which is computed in floating point and is left
    open here. *)
Variable Point : Type.
Variable far : Point -> Point -> bool.

(** The loop over [path[1] .. path[length - 2]]; [prev] is the last point
    pushed so far. *)
Fixpoint thin (prev : Point) (middle : list Point) : list Point :=
  match middle with
  | [] => []
  | curr :: rest =>
      if far prev curr then curr :: thin curr rest else thin prev rest
  end.

(** [optimizePath(path, minDistance)] *)
Definition optimizePath (path : list Point) : list Point :=
  if (length path <? 3)%nat then path
  else
    match path with
    | [] => path
    | first :: rest =>
        first :: thin first (removelast rest) ++ [List.last rest first]
    end.

(** Each point is far from the one before it, the first from [prev]. *)
Fixpoint spread (prev : Point) (l : list Point) : Prop :=
  match l with
  | [] => True
  | p :: rest => far prev p = true /\ spread p rest
  end.

End Thinning.

End PathOps.

(** ** canvas.js : rebuilding the canvas from a state *)

Module Renderer.

Section Canvas.

(** The pixels of the canvas, the white canvas that [fillRect] leaves, and
    what [applyAction] draws for an action that is not a clear; how strokes
    become pixels is left open. *)
Variable Image : Type.
Variable blank : Image.
Variable paint : DrawingState.Action -> Image -> Image.

(** The canvas and [this.snapshotCache], a [Map] from a number of applied
    actions to the pixels at that point. *)
Record t : Type := mkCanvas {
  image : Image;
  snapshotCache : gmap nat Image
}.

(** [this.snapshotInterval = 15] *)
Definition snapshotInterval : nat := 15.

(** [clearCanvas()] *)
Definition clearCanvas (c : t) : t :=
  {| image := blank; snapshotCache := ∅ |}.

(** [applyAction(action)] *)
Definition applyAction (a : DrawingState.Action) (c : t) : t :=
  if DrawingState.is_clear a then clearCanvas c
  else {| image := paint a (image c); snapshotCache := snapshotCache c |}.

(** [applyState(state)] *)
Definition applyState (state : option DrawingState.StateView) (c : t) : t :=
  match state with
  | None => c
  | Some st =>
      foldl (fun c a => if DrawingState.undone a then c else applyAction a c)
        c (DrawingState.v_actions st)
  end.

(** The first loop of [rebuild]: the keys in descending order, stopping at
    the first one that is at most [n]; that is the largest cached key not
    above [n], found here by counting down from [n]. *)
Fixpoint newest_snapshot (cache : gmap nat Image) (n : nat)
  : option (nat * Image) :=
  match cache !! n with
  | Some snapshot => Some (n, snapshot)
  | None =>
      match n with
      | O => None
      | S k => newest_snapshot cache k
      end
  end.

(** The second loop of [rebuild], from index [i] on. *)
Fixpoint replay (i : nat) (todo : list DrawingState.Action) (c : t) : t :=
  match todo with
  | [] => c
  | a :: rest =>
      let c1 := applyAction a c in
      let c2 :=
        if (S i mod snapshotInterval =? 0)%nat
           && negb (bool_decide (is_Some (snapshotCache c1 !! S i)))
        then {| image := image c1;
                snapshotCache := <[S i := image c1]> (snapshotCache c1) |}
        else c1 in
      replay (S i) rest c2
  end.

(** [Math.min(...this.snapshotCache.keys())] *)
Definition oldest_key (cache : gmap nat Image) : option nat :=
  match (map_to_list cache).*1 with
  | [] => None
  | k :: ks => Some (foldr Nat.min k ks)
  end.

(** The end of [rebuild]: one snapshot goes when there are more than ten. *)
Definition evict (c : t) : t :=
  if (10 <? size (snapshotCache c))%nat then
    match oldest_key (snapshotCache c) with
    | Some k => {| image := image c;
                   snapshotCache := delete k (snapshotCache c) |}
    | None => c
    end
  else c.

(** [rebuild(state)] *)
Definition rebuild (state : option DrawingState.StateView) (c : t) : t :=
  let c0 := {| image := blank; snapshotCache := snapshotCache c |} in
  match state with
  | None => c0
  | Some st =>
      let activeActions :=
        List.filter (fun a => negb (DrawingState.undone a))
          (DrawingState.v_actions st) in
      if bool_decide (length activeActions = 0%nat) then c0
      else
        match newest_snapshot (snapshotCache c) (length activeActions) with
        | Some (key, snapshot) =>
            evict (replay key (drop key activeActions)
                     {| image := snapshot; snapshotCache := snapshotCache c |})
        | None => evict (replay 0 activeActions c0)
        end
  end.

(** What a list of actions looks like when applied in order. *)
Definition render (l : list DrawingState.Action) (img : Image) : Image :=
  foldl (fun img a => if DrawingState.is_clear a then blank else paint a img)
    img l.

(** Every snapshot in the cache shows the first [k] of the actions [l],
    [k] being its key. *)
Definition coherent (cache : gmap nat Image) (l : list DrawingState.Action)
  : Prop :=
  forall k snapshot, cache !! k = Some snapshot ->
                     (k <= length l)%nat /\ snapshot = render (take k l) blank.

End Canvas.

End Renderer.

(** ** server.js : names for what the handlers send and do *)

Module ServerSpec.

(** The message [handleDrawEvent] forwards: the client's own object after
    [msg.userId = ws.id; msg.username = ws.username]. *)
Definition tagged (ws : Server.Conn) (msg : gmap string JsVal)
  : gmap string JsVal :=
  <["username" := Server.js_of_str (Server.ws_username ws)]>
    (<["userId" := JStr (Server.ws_id ws)]> msg).

(** The log operation behind each of the three requests, and the
    [undoType] its handler writes into the [canvas-rebuild] message. *)
Definition log_operation (r : Server.Request) (now : Z) (ws : Server.Conn)
  : DrawingState.t -> DrawingState.t * option DrawingState.Action :=
  match r with
  | Server.UndoGlobal => DrawingState.undoGlobal now
  | Server.UndoMy => DrawingState.undoForUser now (Server.ws_id ws)
  | Server.RedoGlobal => DrawingState.redoGlobal now
  end.

Definition undoType (r : Server.Request) : string :=
  match r with
  | Server.UndoGlobal => "global"
  | Server.UndoMy => "my"
  | Server.RedoGlobal => "redo"
  end.

(** The elements of a batch that pass the loop's test
    [typeof move.x === 'number' && typeof move.y === 'number']. *)
Definition numeric_moves (moves : list JsVal) : list (gmap string JsVal) :=
  omap (fun move =>
          match move with
          | JObj f => if is_number (f !! "x") && is_number (f !! "y")
                      then Some f else None
          | _ => None
          end) moves.

End ServerSpec.

(** ** Sample inputs used by the worked examples below *)

Module Samples.

(** A completed stroke by user [uid], as [handleDrawEvent] records it
    for a [draw-end] message that carries only an empty path. *)
Definition stroke (uid : string) : DrawingState.ActionInput :=
  {| DrawingState.in_userId := Some uid;
     DrawingState.in_type := "draw-end";
     DrawingState.in_payload :=
       DrawingState.mkPayload None None None (Some (JArr [])) None None |}.

(** A log with a stroke by A (id 1) and a stroke by B (id 2). *)
Definition two_strokes : DrawingState.t :=
  (DrawingState.addActions [(1, Some (stroke "A")); (2, Some (stroke "B"))]
     (DrawingState.new "ROOM42" 0)).1.


(** A log with strokes by A, B and A again (ids 1, 2 and 3). *)
Definition three_strokes : DrawingState.t :=
  (DrawingState.addActions
     [(1, Some (stroke "A")); (2, Some (stroke "B")); (3, Some (stroke "A"))]
     (DrawingState.new "ROOM42" 0)).1.

(** The same log after one global undo: B's stroke is undone. *)
Definition newest_undone : DrawingState.t :=
  (DrawingState.undoGlobal 3 two_strokes).1.

(** Two open connections joined to room ROOM42, whose log is empty. *)
Definition alice : Server.Conn :=
  Server.mkConn "alice-id" true (Some "ROOM42") (Some "Alice").

Definition bob : Server.Conn :=
  Server.mkConn "bob-id" true (Some "ROOM42") (Some "Bob").

Definition room42 : Server.World :=
  {| Server.rooms :=
       {[ "ROOM42" := Server.mkRoom "ROOM42"
                        [Server.mkUser "alice-id" "Alice" alice;
                         Server.mkUser "bob-id" "Bob" bob] ]};
     Server.states := {[ "ROOM42" := DrawingState.new "ROOM42" 0 ]} |}.

(** A move whose x coordinate is 20000. *)
Definition far_move : gmap string JsVal :=
  <["tool" := JStr "brush"]>
    (<["color" := JStr "#000000"]>
       (<["size" := JNum 5]>
          (<["x" := JNum 20000]> (<["y" := JNum 0]> ∅)))).

(** That move sent alone, and sent as a batch of one. *)
Definition far_draw_move : gmap string JsVal :=
  <["type" := JStr "draw-move"]> far_move.

Definition far_draw_batch : gmap string JsVal :=
  <["type" := JStr "draw-batch"]>
    (<["moves" := JArr [JObj far_move]]> ∅).

(** A wired canvas on which a stroke has just begun at (10, 10). *)
Definition drawing : CanvasManager.t :=
  (CanvasManager.startDrawing 10 10 CanvasManager.wired).1.

Definition brush_at (x y : Q) : CanvasManager.DrawData :=
  CanvasManager.mkDraw "brush" "#000000" 5 x y.

(** A finished stroke of three points, as the client sends it. *)
Definition stroke_end : gmap string JsVal :=
  <["type" := JStr "draw-end"]>
    (<["tool" := JStr "brush"]>
       (<["color" := JStr "#000000"]>
          (<["size" := JNum 5]>
             (<["path" := JArr [JNum 1; JNum 2; JNum 3]]>
                (<["startX" := JNum 1]> (<["startY" := JNum 1]> ∅)))))).

(** A move inside the bounds. *)
Definition near_draw_move : gmap string JsVal :=
  <["type" := JStr "draw-move"]>
    (<["x" := JNum 12]> (<["y" := JNum 15]> ∅)).

(** A connection that has not joined any room. *)
Definition stranger : Server.Conn :=
  Server.mkConn "carol-id" true None None.

(** ROOM42 with the three strokes of [three_strokes] in its log. *)
Definition busy_room42 : Server.World :=
  {| Server.rooms := Server.rooms room42;
     Server.states := {[ "ROOM42" := three_strokes ]} |}.

(** ROOM42 as the room manager holds it, with Alice and Bob in it and the
    three strokes of [three_strokes] in its log. *)
Definition lobby : Lifecycle.World :=
  {| Lifecycle.rooms :=
       {[ "ROOM42" := Rooms.mkRoom "ROOM42"
                        [Rooms.mkMember "alice-id" "Alice" alice 0;
                         Rooms.mkMember "bob-id" "Bob" bob 0] 0 0 ]};
     Lifecycle.states := {[ "ROOM42" := three_strokes ]} |}.

(** Two [join-room] messages: for a room nobody has opened, and for
    ROOM42. *)
Definition join_new : gmap string JsVal :=
  <["type" := JStr "join-room"]>
    (<["roomId" := JStr "new-room"]>
       (<["username" := JStr "  <b>Carol</b> "]> ∅)).

Definition join_room42 : gmap string JsVal :=
  <["type" := JStr "join-room"]>
    (<["roomId" := JStr "room42"]> (<["username" := JStr "Carol"]> ∅)).

(** No room has a file on disk. *)
Definition empty_disk : string -> option DrawingState.Persisted :=
  fun _ => None.

End Samples.

(** * Properties *)

(** ** The action log: ids and the retention cap *)

Section ActionLog.

Import DrawingState.

Lemma slice_negative {A} (n : Z) (l : list A) :
  0 < n -> slice (- n) l = drop (length l - Z.to_nat n) l.
Proof.
  intros Hn. unfold slice.
  destruct (Z.ltb_spec (- n) 0) as [_ | ?]; [| lia].
  f_equal. lia.
Qed.

(** What one successful [addAction] leaves in the log. *)
Lemma addAction_actions now a s :
  actions (addAction now (Some a) s).1
  = drop (S (length (actions s)) - Z.to_nat maxActions)
      (actions s ++ [mkAction (actionIdCounter s + 1) (in_userId a)
                       (in_type a) (in_payload a) now false]).
Proof.
  unfold addAction. cbn [fst actions].
  set (pushed := actions s ++ _).
  assert (Hlen : length pushed = S (length (actions s))).
  { unfold pushed. rewrite length_app. cbn. lia. }
  destruct (Z.ltb_spec maxActions (Z.of_nat (length pushed))) as [Hgt | Hle].
  - rewrite slice_negative by (unfold maxActions; lia). by rewrite Hlen.
  - replace (S (length (actions s)) - Z.to_nat maxActions)%nat with 0%nat
      by (unfold maxActions in *; lia).
    done.
Qed.

Lemma addAction_counter now a s :
  actionIdCounter (addAction now (Some a) s).1 = actionIdCounter s + 1.
Proof. done. Qed.

Lemma addAction_returns now a s :
  (addAction now (Some a) s).2
  = Some (mkAction (actionIdCounter s + 1) (in_userId a) (in_type a)
            (in_payload a) now false).
Proof. done. Qed.

Lemma getActiveActions_length s :
  (length (getActiveActions s) <= length (actions s))%nat.
Proof. unfold getActiveActions. apply List.filter_length_le. Qed.

(** Every id a run of [addAction] calls hands out is above the counter the
    run started from, and the ids come out in strictly increasing order. *)
Lemma addActions_ids calls : forall s,
  Forall (fun a => actionIdCounter s < id a) (addActions calls s).2
  /\ StronglySorted Z.lt (id <$> (addActions calls s).2)
  /\ actionIdCounter s <= actionIdCounter (addActions calls s).1.
Proof.
  induction calls as [| [now action] rest IH]; intros s.
  - cbn. repeat split; [constructor | constructor | lia].
  - cbn [addActions].
    destruct (addAction now action s) as [s1 r] eqn:Hadd.
    specialize (IH s1). destruct (addActions rest s1) as [s2 rs].
    cbn [fst snd] in *. destruct IH as (Hall & Hsorted & Hcnt).
    destruct action as [a |]; cbn in Hadd; inversion Hadd; subst; clear Hadd.
    + cbn [actionIdCounter] in *. repeat split.
      * constructor; [cbn; lia |].
        eapply Forall_impl; [exact Hall |]. cbn. intros; lia.
      * cbn. constructor; [exact Hsorted |].
        apply Forall_fmap. eapply Forall_impl; [exact Hall |].
        cbn. intros; lia.
      * lia.
    + repeat split; assumption.
Qed.

(** The ids a run of [addAction] calls hands out are consecutive: the
    action created at position [k] of the run gets the counter the run
    started from plus [k + 1], and the counter ends that many higher. *)
Lemma addActions_ids_consecutive calls : forall s,
  (forall k a, (addActions calls s).2 !! k = Some a ->
               id a = actionIdCounter s + 1 + Z.of_nat k)
  /\ actionIdCounter (addActions calls s).1
     = actionIdCounter s + Z.of_nat (length (addActions calls s).2).
Proof.
  induction calls as [| [now action] rest IH]; intros s.
  - cbn. split; [intros k a H; by rewrite lookup_nil in H | lia].
  - cbn [addActions].
    destruct (addAction now action s) as [s1 r] eqn:Hadd.
    specialize (IH s1). destruct (addActions rest s1) as [s2 rs].
    cbn [fst snd] in *. destruct IH as [Hids Hcnt].
    destruct action as [a |]; cbn in Hadd; inversion Hadd; subst; clear Hadd.
    + cbn [actionIdCounter] in *. split.
      * intros [| k] b Hb; cbn in Hb.
        -- inversion Hb; subst. cbn. lia.
        -- rewrite (Hids k b Hb). lia.
      * rewrite Hcnt. cbn [length]. lia.
    + by split.
Qed.

Lemma new_ids_ordered room t0 : ids_ordered (new room t0).
Proof. split; cbn; constructor. Qed.

Lemma addAction_ids_ordered now action s :
  ids_ordered s -> ids_ordered (addAction now action s).1.
Proof.
  intros [Hsorted Hbound]. destruct action as [a |]; [| by split].
  unfold ids_ordered. rewrite addAction_actions, addAction_counter.
  set (n := mkAction _ _ _ _ _ _). set (k := (_ - _)%nat).
  assert (Hall : StronglySorted Z.lt (id <$> (actions s ++ [n]))).
  { rewrite fmap_app. apply StronglySorted_app_2.
    - intros x1 x2 H1 H2. apply list_elem_of_fmap in H1 as (a1 & -> & H1).
      apply list_elem_of_singleton in H2 as ->.
      rewrite Forall_forall in Hbound. specialize (Hbound _ H1).
      subst n; cbn. lia.
    - exact Hsorted.
    - cbn. repeat constructor. }
  split.
  - rewrite fmap_drop. rewrite <- (take_drop k (id <$> _)) in Hall.
    by apply StronglySorted_app_1_r in Hall.
  - apply Forall_drop, Forall_app. split.
    + eapply Forall_impl; [exact Hbound |]. cbn. intros; lia.
    + repeat constructor. subst n; cbn. lia.
Qed.

Lemma addActions_ids_ordered calls : forall s,
  ids_ordered s -> ids_ordered (addActions calls s).1.
Proof.
  induction calls as [| [now action] rest IH]; intros s Hs; [done |].
  cbn [addActions].
  pose proof (addAction_ids_ordered now action s Hs) as H1.
  destruct (addAction now action s) as [s1 r].
  specialize (IH s1 H1). by destruct (addActions rest s1).
Qed.

(** C1.  Whatever log [s] a sequence of [addAction] calls starts from,
    the ids it hands out are strictly increasing in call order and all
    above the counter of [s], hence above every id handed out before,
    whether or not the action that carried it is still in the log; on a
    log that started empty the ids inside the log are strictly increasing
    as well.  After every successful call the log is the longest suffix
    of at most 1000 entries of the old log followed by the new action:
    the oldest entries go first, the rest keep their order and are the
    same actions with the same ids, and [getActiveActions] has at most
    1000 entries. *)
Theorem addAction_ids_increase_and_log_is_capped :
  (forall calls s,
     StronglySorted Z.lt (id <$> (addActions calls s).2)
     /\ Forall (fun a => actionIdCounter s < id a) (addActions calls s).2)
  /\ (forall calls room t0,
        StronglySorted Z.lt
          (id <$> actions (addActions calls (new room t0)).1))
  /\ (forall now a s,
        exists n,
          (addAction now (Some a) s).2 = Some n
          /\ id n = actionIdCounter s + 1
          /\ actions (addAction now (Some a) s).1
             = drop (S (length (actions s)) - 1000) (actions s ++ [n])
          /\ actions (addAction now (Some a) s).1
               `suffix_of` (actions s ++ [n])
          /\ (length (actions (addAction now (Some a) s).1) <= 1000)%nat
          /\ (length (getActiveActions (addAction now (Some a) s).1)
              <= 1000)%nat).
Proof.
  split; [| split].
  - intros calls s. destruct (addActions_ids calls s) as (H1 & H2 & _).
    by split.
  - intros calls room t0.
    apply (addActions_ids_ordered calls _ (new_ids_ordered room t0)).
  - intros now a s. eexists. split; [apply addAction_returns |].
    split; [done |].
    assert (Hk : Z.to_nat maxActions = 1000%nat) by (unfold maxActions; lia).
    pose proof (addAction_actions now a s) as Hact. rewrite Hk in Hact.
    assert (Hlen : (length (actions (addAction now (Some a) s).1) <= 1000)%nat).
    { rewrite Hact, length_drop, length_app. cbn [length]. lia. }
    split; [exact Hact |]. split; [| split].
    + rewrite Hact. apply suffix_drop.
    + exact Hlen.
    + etrans; [apply getActiveActions_length | exact Hlen].
Qed.

(** The cap at work: 1001 strokes on a fresh log leave 1000 actions, the
first of which carries id 2 and the last id 1001. *)
Example thousand_and_one_strokes :
  let s := (addActions (replicate 1001 (0, Some (Samples.stroke "A")))
              (new "ROOM42" 0)).1 in
  length (actions s) = 1000%nat
  /\ id <$> head (actions s) = Some 2
  /\ id <$> last (actions s) = Some 1001
  /\ actionIdCounter s = 1001.
Proof. vm_compute. repeat split. Qed.

End ActionLog.

(** ** The action log: undo and redo *)

Section UndoRedo.

Import DrawingState.

Lemma scan_Some p l k i :
  scan p l k = Some i ->
  (i < k)%nat
  /\ exists a, l !! i = Some a /\ p a = true
     /\ forall j b, (i < j < k)%nat -> l !! j = Some b -> p b = false.
Proof.
  induction k as [| k IH]; cbn; [done |].
  destruct (l !! k) as [a |] eqn:Hk.
  - destruct (p a) eqn:Hp.
    + intros [= <-]. split; [lia |]. exists a. repeat split; [done.. |].
      intros j b ? _. lia.
    + intros H. destruct (IH H) as (Hlt & a' & Hi & Hpa & Hrest).
      split; [lia |]. exists a'. repeat split; [done.. |].
      intros j b Hj Hb. destruct (decide (j = k)) as [-> | ?].
      * congruence.
      * apply (Hrest j); [lia | done].
  - intros H. destruct (IH H) as (Hlt & a' & Hi & Hpa & Hrest).
    split; [lia |]. exists a'. repeat split; [done.. |].
    intros j b Hj Hb. destruct (decide (j = k)) as [-> | ?].
    + congruence.
    + apply (Hrest j); [lia | done].
Qed.

Lemma scan_None p l k :
  scan p l k = None ->
  forall j b, (j < k)%nat -> l !! j = Some b -> p b = false.
Proof.
  induction k as [| k IH]; cbn; [intros; lia |].
  destruct (l !! k) as [a |] eqn:Hk.
  - destruct (p a) eqn:Hp; [done |]. intros H j b Hj Hb.
    destruct (decide (j = k)) as [-> | ?]; [congruence |].
    apply (IH H j); [lia | done].
  - intros H j b Hj Hb.
    destruct (decide (j = k)) as [-> | ?]; [congruence |].
    apply (IH H j); [lia | done].
Qed.


(** A scan that finds nothing leaves the log as it is. *)
Lemma flip_found_None p b now s :
  scan p (actions s) (length (actions s)) = None ->
  flip_found p b now s = (s, None).
Proof. unfold flip_found. by intros ->. Qed.

(** A scan that finds index [i] flips exactly the action at [i]. *)
Lemma flip_found_Some p b now s i :
  scan p (actions s) (length (actions s)) = Some i ->
  exists a,
    actions s !! i = Some a /\ p a = true
    /\ flip_found p b now s
       = (mkState (roomId s) (<[i := set_undone b a]> (actions s))
            (actionIdCounter s) (createdAt s) now,
          Some (set_undone b a)).
Proof.
  intros H. destruct (scan_Some _ _ _ _ H) as (_ & a & Hi & Hp & _).
  exists a. repeat split; [done.. |]. unfold flip_found. by rewrite H, Hi.
Qed.





(** C3.  [undoForUser uid] keeps every action whose author is not [uid]
    exactly as it was, at the same index, wherever it sits in the log.
    Either nothing at all changes and the call returns [null], or the one
    change is that the newest action that is by [uid], active and not a
    clear gets [undone = true]; that action is what the call returns. *)
Theorem undoForUser_touches_only_own_newest now uid s :
  (forall i a, actions s !! i = Some a -> userId a <> Some uid ->
               actions (undoForUser now uid s).1 !! i = Some a)
  /\ (undoForUser now uid s = (s, None)
      \/ exists i a,
           actions s !! i = Some a
           /\ userId a = Some uid /\ undone a = false
           /\ type a <> "clear"
           /\ (forall j b, (i < j)%nat -> actions s !! j = Some b ->
                  undoable_by uid b = false)
           /\ undoForUser now uid s
              = (mkState (roomId s) (<[i := set_undone true a]> (actions s))
                   (actionIdCounter s) (createdAt s) now,
                 Some (set_undone true a))).
Proof.
  unfold undoForUser.
  destruct (scan (undoable_by uid) (actions s) (length (actions s)))
    as [i |] eqn:Hscan.
  - destruct (scan_Some _ _ _ _ Hscan) as (Hlt & a & Hi & Hp & Hafter).
    destruct (flip_found_Some _ true now s i Hscan) as (a0 & Hi0 & _ & Heq).
    assert (a0 = a) as -> by congruence. rewrite Heq. cbn [fst actions].
    unfold undoable_by in Hp.
    apply andb_true_iff in Hp as [Hp Hnc].
    apply andb_true_iff in Hp as [Hown Hact].
    apply bool_decide_eq_true in Hown. apply negb_true_iff in Hact.
    split.
    + intros j b Hj Hother.
      rewrite list_lookup_insert_ne; [done |]. intros ->. congruence.
    + right. exists i, a. split_and!; [done | done | done | | | done].
      * unfold is_clear in Hnc. apply negb_true_iff in Hnc.
        by apply String.eqb_neq in Hnc.
      * intros j b Hj Hb. apply (Hafter j); [| done].
        split; [done |]. by apply lookup_lt_Some in Hb.
  - rewrite (flip_found_None _ true now s Hscan). split; [done | by left].
Qed.

(** Strokes by A, B, A with ids 1, 2, 3: a personal undo by A takes id 3,
not id 1, and a global undo after it takes id 2, whoever asks. *)
Example personal_then_global_undo :
  id <$> (undoForUser 4 "A" Samples.three_strokes).2 = Some 3
  /\ id <$> (undoGlobal 5 (undoForUser 4 "A" Samples.three_strokes).1).2
     = Some 2
  /\ id <$> getActiveActions
              (undoGlobal 5 (undoForUser 4 "A" Samples.three_strokes).1).1
     = [1].
Proof. repeat split. Qed.

(** A personal undo by B leaves A's newer stroke alone. *)
Example personal_undo_skips_newer_stroke_of_other :
  id <$> (undoForUser 4 "B" Samples.three_strokes).2 = Some 2
  /\ undone <$> actions (undoForUser 4 "B" Samples.three_strokes).1
     = [false; true; false].
Proof. repeat split. Qed.

End UndoRedo.

(** ** The action log: clear, and the persisted record *)

Section ClearAndPersist.

Import DrawingState.

Lemma clearState_lookup now room (m : gmap string DrawingState.t) :
  DrawingStateManager.clearState now room m !! room
  = DrawingStateManager.clearState_on now <$> (m !! room).
Proof.
  unfold DrawingStateManager.clearState.
  destruct (m !! room) as [s |] eqn:Hs; cbn.
  - by rewrite lookup_insert_eq.
  - by rewrite Hs.
Qed.

(** C4, as stated, fails.  A log hands out id 1 to its first stroke; after
    [clearState] the clear marker carries id 1 again. *)
Lemma clear_marker_reuses_id_1 :
  id <$> (addAction 1 (Some (Samples.stroke "A")) (new "ROOM42" 0)).2
    = Some 1
  /\ id <$> actions
             (DrawingStateManager.clearState_on 2
                (addAction 1 (Some (Samples.stroke "A"))
                   (new "ROOM42" 0)).1)
     = [1].
Proof. split; reflexivity. Qed.

(** C4, amended.  [clear] empties the log and puts the counter back to
    zero.  [clearState] then leaves a log that holds the clear marker
    alone, with id 1 and the counter at 1, so nothing created before the
    clear is still in the log.  The actions created afterwards get the ids
    2, 3, ... without a gap: the one created at position [k] of any run of
    [addAction] calls, counting from zero, gets id [k + 2], and the counter
    ends at one plus their number.  Hence these ids are above 1, strictly
    increasing and pairwise distinct, and the ids inside the log stay
    strictly increasing.  Ids handed out before the clear are not
    excluded: the numbering starts over. *)
Theorem clearState_restarts_numbering now s calls :
  actions (DrawingStateManager.clearState_on now s)
    = [mkAction 1 None "clear" (mkPayload None None None None None None)
         now false]
  /\ actionIdCounter (DrawingStateManager.clearState_on now s) = 1
  /\ Forall (fun a => 1 < id a)
       (addActions calls (DrawingStateManager.clearState_on now s)).2
  /\ StronglySorted Z.lt
       (id <$> (addActions calls
                  (DrawingStateManager.clearState_on now s)).2)
  /\ StronglySorted Z.lt
       (id <$> actions
                 (addActions calls
                    (DrawingStateManager.clearState_on now s)).1)
  /\ (actions (clear now s) = [] /\ actionIdCounter (clear now s) = 0)
  /\ (forall k a,
        (addActions calls (DrawingStateManager.clearState_on now s)).2 !! k
        = Some a ->
        id a = Z.of_nat k + 2)
  /\ actionIdCounter
       (addActions calls (DrawingStateManager.clearState_on now s)).1
     = 1 + Z.of_nat
             (length (addActions calls
                        (DrawingStateManager.clearState_on now s)).2)
  /\ NoDup (id <$> (addActions calls
                      (DrawingStateManager.clearState_on now s)).2).
Proof.
  set (s' := DrawingStateManager.clearState_on now s).
  assert (Hact : actions s'
                 = [mkAction 1 None "clear"
                      (mkPayload None None None None None None) now false])
    by reflexivity.
  assert (Hcnt : actionIdCounter s' = 1) by reflexivity.
  destruct (addActions_ids calls s') as (Hall & Hsorted & _).
  rewrite Hcnt in Hall.
  assert (Hord : ids_ordered s').
  { split; rewrite Hact; [cbn; repeat constructor |].
    rewrite Hcnt. repeat constructor. cbn. lia. }
  destruct (addActions_ids_consecutive calls s') as [Hcons Hend].
  rewrite Hcnt in Hcons, Hend.
  split_and!; [done | done | done | done | | done | done | | done |].
  - apply (addActions_ids_ordered calls s' Hord).
  - intros k a Hk. rewrite (Hcons k a Hk). lia.
  - apply NoDup_alt. intros i j x Hi Hj.
    rewrite list_lookup_fmap in Hi, Hj.
    destruct ((addActions calls s').2 !! i) as [a |] eqn:Ha; [| done].
    destruct ((addActions calls s').2 !! j) as [b |] eqn:Hb; [| done].
    cbn in Hi, Hj. inversion Hi as [Hia]. inversion Hj as [Hjb].
    rewrite (Hcons i a Ha) in Hia. rewrite (Hcons j b Hb) in Hjb. lia.
Qed.

(** C7.  Rebuilding a log with [fromJSON] from what [toJSON] produced
    gives the log back: same actions with the same flags, hence the same
    [getActiveActions], same counter, hence the same id and the same
    returned action at the next [addAction]; and a [loadState] of what
    [saveState] wrote installs that log under the room id. *)
Theorem persisted_record_roundtrip now s :
  fromJSON now (toJSON s) = s
  /\ getActiveActions (fromJSON now (toJSON s)) = getActiveActions s
  /\ (forall now' a,
        (addAction now' a (fromJSON now (toJSON s))).2
        = (addAction now' a s).2)
  /\ (forall room (m m' : gmap string DrawingState.t),
        (DrawingStateManager.loadState now room
           (DrawingStateManager.saveState room (<[room := s]> m)) m')
        = (<[room := s]> m', true)).
Proof.
  assert (Hid : fromJSON now (toJSON s) = s) by (by destruct s).
  split_and!; [done | by rewrite Hid | by intros; rewrite Hid |].
  intros room m m'. unfold DrawingStateManager.saveState.
  rewrite lookup_insert_eq. cbn. by rewrite Hid.
Qed.

End ClearAndPersist.

(** ** Room ids *)

Section RoomIds.

Import Room.

Lemma string_forallb_app p a b :
  string_forallb p (a +:+ b) = string_forallb p a && string_forallb p b.
Proof.
  induction a as [| c a IH]; simpl; [done |].
  by rewrite IH, andb_assoc.
Qed.

Lemma length_string_app a b :
  String.length (a +:+ b) = (String.length a + String.length b)%nat.
Proof. induction a as [| c a IH]; simpl; [done |]. by rewrite IH. Qed.

(** A value of [Math.random()] always lands on an index of [chars]. *)
Lemma random_index_range r :
  (0 <= r)%Q -> (r < 1)%Q -> 0 <= random_index r < 32.
Proof.
  intros H0 H1. unfold random_index.
  change (inject_Z (Z.of_nat (String.length chars))) with (32 # 1)%Q.
  split.
  - rewrite <- (Qfloor_Z 0). apply Qfloor_resp_le.
    change (inject_Z 0) with 0%Q. lra.
  - pose proof (Qfloor_le (r * (32 # 1))) as Hle.
    apply Z.lt_nge. intros Hge. rewrite Zle_Qle in Hge.
    change (inject_Z 32) with (32 # 1)%Q in Hge. lra.
Qed.

(** Every index of [chars] holds a character other than 0, O, 1 and I. *)
Lemma chars_table k :
  0 <= k < 32 ->
  exists c, char_at k = Some c
            /\ from_alphabet c = true /\ zero_o_one_i c = false.
Proof.
  intros Hk.
  assert (Hall : forallb (fun n =>
                   match char_at (Z.of_nat n) with
                   | Some c => from_alphabet c && negb (zero_o_one_i c)
                   | None => false
                   end) (seq 0 32) = true) by (vm_compute; reflexivity).
  rewrite forallb_forall in Hall.
  specialize (Hall (Z.to_nat k)). rewrite Z2Nat.id in Hall by lia.
  destruct (char_at k) as [c |].
  - exists c. split; [done |].
    assert (Hc : from_alphabet c && negb (zero_o_one_i c) = true).
    { apply Hall, in_seq. lia. }
    apply andb_true_iff in Hc as [? Hn]. by apply negb_true_iff in Hn.
  - assert (false = true); [| done]. apply Hall, in_seq. lia.
Qed.

Lemma append_char_ok (p : ascii -> bool) id r :
  (forall c, from_alphabet c = true -> zero_o_one_i c = false -> p c = true) ->
  (0 <= r)%Q -> (r < 1)%Q ->
  string_forallb p id = true ->
  string_forallb p (append_char id (random_index r)) = true
  /\ String.length (append_char id (random_index r)) = S (String.length id).
Proof.
  intros Hp H0 H1 Hid. unfold append_char.
  destruct (chars_table _ (random_index_range r H0 H1)) as (c & -> & Ha & Hz).
  rewrite string_forallb_app, length_string_app, Hid. cbn.
  rewrite (Hp c Ha Hz). split; [done | lia].
Qed.

(** What the generator does guarantee: six characters, each taken from
    [chars], none of them 0, O, 1 or I. *)
Lemma generateId_alphabet rnd :
  (forall i, (0 <= rnd i)%Q /\ (rnd i < 1)%Q) ->
  String.length (generateId rnd) = 6%nat
  /\ string_forallb
       (fun c => from_alphabet c && negb (zero_o_one_i c))
       (generateId rnd) = true.
Proof.
  intros Hr. unfold generateId. cbn [seq foldl].
  assert (Hp : forall c, from_alphabet c = true -> zero_o_one_i c = false ->
                         from_alphabet c && negb (zero_o_one_i c) = true).
  { intros c -> ->. done. }
  assert (Hstep : forall id i,
    string_forallb (fun c => from_alphabet c && negb (zero_o_one_i c)) id = true ->
    string_forallb (fun c => from_alphabet c && negb (zero_o_one_i c))
      (append_char id (random_index (rnd i))) = true
    /\ String.length (append_char id (random_index (rnd i)))
       = S (String.length id)).
  { intros id i Hid. destruct (Hr i). by apply append_char_ok. }
  destruct (Hstep "" 0%nat eq_refl) as [H1 L1].
  destruct (Hstep _ 1%nat H1) as [H2 L2].
  destruct (Hstep _ 2%nat H2) as [H3 L3].
  destruct (Hstep _ 3%nat H3) as [H4 L4].
  destruct (Hstep _ 4%nat H4) as [H5 L5].
  destruct (Hstep _ 5%nat H5) as [H6 L6].
  split; [| exact H6]. rewrite L6, L5, L4, L3, L2, L1. done.
Qed.

(** C8 at a failing input.  The letter L is the eleventh character of
    [chars]; when [Math.random()] answers 0.3125 six times, index 10 is
    drawn six times and the room id is LLLLLL, made of a character the
    comment above [chars] lists as confusable. *)
Theorem generateId_can_yield_L :
  (0 <= 10 # 32)%Q /\ (10 # 32 < 1)%Q
  /\ generateId (fun _ => 10 # 32)%Q = "LLLLLL"
  /\ string_forallb (fun c => negb (confusable c))
       (generateId (fun _ => 10 # 32)%Q) = false
  /\ string_forallb (fun c => negb (confusable c)) chars = false.
Proof. split_and!; [done | done | reflexivity..]. Qed.

End RoomIds.

(** ** The message router *)

Section RouterProperties.

Import Server.

(** Processing a batch never touches the world: neither the rooms nor any
    action log. *)
Lemma handleDrawBatch_world ws msg w :
  world (handleDrawBatch ws msg w) = w.
Proof.
  unfold handleDrawBatch.
  destruct (truthy_str (ws_roomId ws)) as [room |]; [| done].
  destruct (msg !! "moves") as [[| | | | moves |] |]; try done.
  case_bool_decide; [done |].
  by destruct (batch_loop ws room w moves).
Qed.

Lemma lookup_obj_cons k k' v rest :
  obj ((k', v) :: rest) !! k
  = if decide (k = k')
    then match v with Some x => Some x | None => obj rest !! k end
    else obj rest !! k.
Proof.
  unfold obj. cbn [foldr fst snd].
  destruct v as [x |]; case_decide; subst; try done.
  - by rewrite lookup_insert_eq.
  - by rewrite lookup_insert_ne.
Qed.

Lemma lookup_obj_nil k : obj [] !! k = None.
Proof. apply lookup_empty. Qed.

(** For a move that carries nothing but tool, color, size, x and y, the
    object the batch loop builds has the same properties as the
    [draw-move] message after [handleDrawEvent] has tagged it. *)
Lemma batch_object_is_tagged_message ws (f : gmap string JsVal) :
  (forall k, k ∉ ["tool"; "color"; "size"; "x"; "y"] -> f !! k = None) ->
  <["username" := js_of_str (ws_username ws)]>
    (<["userId" := JStr (ws_id ws)]> (<["type" := JStr "draw-move"]> f))
  = batch_move_object ws f.
Proof.
  intros Hdom. apply map_eq. intros k.
  unfold batch_move_object. rewrite !lookup_obj_cons, lookup_obj_nil.
  rewrite !lookup_insert.
  repeat case_decide; subst; try done; try (by destruct (f !! _)).
  apply Hdom. rewrite !elem_of_cons, elem_of_nil. tauto.
Qed.

(** Where the two paths agree: a move with numeric coordinates inside
    the bounds and no extra property is forwarded by a batch of one
    exactly as the single [draw-move] would be, to the same members. *)
Lemma in_range_batch_move_as_draw_move now ws room
    (f : gmap string JsVal) x y w :
  truthy_str (ws_roomId ws) = Some room ->
  (forall k, k ∉ ["tool"; "color"; "size"; "x"; "y"] -> f !! k = None) ->
  f !! "x" = Some (JNum x) -> f !! "y" = Some (JNum y) ->
  Qle_bool (Qabs x) 10000 = true -> Qle_bool (Qabs y) 10000 = true ->
  handleDrawBatch ws (<["moves" := JArr [JObj f]]> ∅) w
  = handleDrawEvent now ws (<["type" := JStr "draw-move"]> f) w.
Proof.
  intros Hroom Hdom Hx Hy Hbx Hby.
  unfold handleDrawBatch, handleDrawEvent. rewrite Hroom.
  rewrite lookup_insert_eq. cbn [length bool_decide batch_loop].
  rewrite Hx, Hy. cbn [is_number negb orb].
  assert (Hvalid : isValidDrawData (<["type" := JStr "draw-move"]> f) = true).
  { unfold isValidDrawData, type_is. rewrite lookup_insert_eq.
    rewrite !lookup_insert_ne by done. rewrite Hx, Hy. cbn.
    by rewrite Hbx, Hby. }
  rewrite Hvalid. cbn [negb].
  assert (Hend : type_is
            (<["username" := js_of_str (ws_username ws)]>
               (<["userId" := JStr (ws_id ws)]>
                  (<["type" := JStr "draw-move"]> f))) "draw-end" = false).
  { unfold type_is. rewrite !lookup_insert_ne by done.
    by rewrite lookup_insert_eq. }
  rewrite Hend, (batch_object_is_tagged_message ws f Hdom).
  unfold done_with. by rewrite app_nil_r.
Qed.

(** C5 at a failing input.  Alice and Bob share ROOM42 and Alice sends a
    move with x = 20000.  As a [draw-move] message it is dropped by
    [isValidDrawData] and nobody receives anything; inside a
    [draw-batch] it is forwarded to Bob, because the batch loop only tests
    that x and y are numbers. *)
Theorem draw_batch_forwards_out_of_range_move :
  isValidDrawData Samples.far_draw_move = false
  /\ effects (handleDrawEvent 1 Samples.alice Samples.far_draw_move
                Samples.room42) = []
  /\ effects (handleDrawBatch Samples.alice Samples.far_draw_batch
                Samples.room42)
     = [Send "bob-id"
          (WObject (batch_move_object Samples.alice Samples.far_move))]
  /\ batch_move_object Samples.alice Samples.far_move !! "x"
     = Some (JNum 20000)
  /\ world (handleDrawBatch Samples.alice Samples.far_draw_batch
              Samples.room42) = Samples.room42.
Proof. split_and!; [vm_compute; reflexivity.. | apply handleDrawBatch_world]. Qed.

(** A log operation that returns [null] leaves the manager's map as it
    was. *)
Lemma on_state_None f room (m : gmap string DrawingState.t) :
  (forall s, m !! room = Some s -> f s = (s, None)) ->
  DrawingStateManager.on_state f room m = (m, None).
Proof.
  intros Hf. unfold DrawingStateManager.on_state.
  destruct (m !! room) as [s |] eqn:Hs; [| done].
  rewrite (Hf s eq_refl). by rewrite insert_id.
Qed.

Lemma rebuild_after_None op undoType ws w :
  (forall room, truthy_str (ws_roomId ws) = Some room ->
                op room (states w) = (states w, None)) ->
  rebuild_after op undoType ws w = done_with w ws [].
Proof.
  intros Hop. unfold rebuild_after.
  destruct (truthy_str (ws_roomId ws)) as [room |]; [| done].
  rewrite (Hop room eq_refl). by destruct w.
Qed.

(** C6.  When an [undo-global], [undo-my] or [redo-global] request finds
    nothing eligible, its handler sends nothing to anybody, writes no
    file, and returns the world it was given, every action log included;
    the same request on the resulting world is again such a no-op. *)
Theorem noop_request_is_silent r now ws w :
  nothing_eligible r ws w = true ->
  handleRequest r now ws w = done_with w ws []
  /\ effects (handleRequest r now ws w) = []
  /\ world (handleRequest r now ws w) = w
  /\ (forall now',
        handleRequest r now' ws (world (handleRequest r now ws w))
        = done_with w ws []).
Proof.
  intros Hnone.
  assert (Hrun : forall t, handleRequest r t ws w = done_with w ws []).
  { intros t. unfold nothing_eligible in Hnone.
    destruct r; cbn [handleRequest eligible] in *;
      unfold handleUndoGlobal, handleUndoMy, handleRedoGlobal;
      apply rebuild_after_None; intros room Hroom; rewrite Hroom in Hnone;
      unfold DrawingStateManager.undoGlobal, DrawingStateManager.undoForUser,
        DrawingStateManager.redoGlobal;
      apply on_state_None; intros s Hs; rewrite Hs in Hnone;
      unfold DrawingState.undoGlobal, DrawingState.undoForUser,
        DrawingState.redoGlobal;
      apply flip_found_None;
      by destruct (DrawingState.scan _ _ _). }
  split_and!; [apply Hrun | by rewrite Hrun | by rewrite Hrun |].
  intros now'. rewrite (Hrun now). cbn [world done_with]. apply Hrun.
Qed.

Lemma noop_request_is_silent_witness :
  nothing_eligible UndoMy Samples.alice Samples.room42 = true
  /\ handleRequest UndoMy 7 Samples.alice Samples.room42
     = done_with Samples.room42 Samples.alice [].
Proof.
  split; [vm_compute; reflexivity |].
  apply (noop_request_is_silent UndoMy 7 Samples.alice Samples.room42).
  vm_compute; reflexivity.
Defined.

(** C10.  A message of type [undo] is handled by the very call that
    handles [undo-my], and one of type [redo] by the call that handles
    [redo-global]: same new world, same canvas-rebuild broadcast, same
    file write, whatever else the message carries. *)
Theorem legacy_undo_redo_are_aliases
    (handleJoinRoom : Z -> Conn -> gmap string JsVal -> World -> Outcome)
    now ws (m : gmap string JsVal) w :
  handleMessage handleJoinRoom now ws (JObj (<["type" := JStr "undo"]> m)) w
    = handleUndoMy now ws w
  /\ handleMessage handleJoinRoom now ws
       (JObj (<["type" := JStr "undo-my"]> m)) w
     = handleUndoMy now ws w
  /\ handleMessage handleJoinRoom now ws (JObj (<["type" := JStr "redo"]> m)) w
     = handleRedoGlobal now ws w
  /\ handleMessage handleJoinRoom now ws
       (JObj (<["type" := JStr "redo-global"]> m)) w
     = handleRedoGlobal now ws w.
Proof.
  unfold handleMessage. rewrite !lookup_insert_eq. by split_and!.
Qed.

End RouterProperties.

(** ** The adaptive draw-move sender *)

Section AdaptiveSender.

Import CanvasManager.

(** C9, as stated, fails, in three ways.
    - At a smoothed round-trip time of 180 ms a move is appended to
      [moveBatch] and the frame callback that is scheduled hands the
      network a [draw-batch], not a [draw-move].
    - At 120 ms two moves are read before the frame runs; the frame hands
      over the second one only, and neither a later frame nor the end of
      the stroke hands over the first: not every move is sent.
    - A frame callback scheduled while the latency was 40 ms carries its
      8 ms throttle; a move read at 120 ms while it is pending is sent at
      clock reading 30, only 10 ms after the send at 20. *)
Lemma fair_band_move_is_batched_dropped_or_sent_early :
  moveBatch (draw 180 12 15 Samples.drawing) = [Samples.brush_at 12 15]
  /\ rafId (draw 180 12 15 Samples.drawing) = Some (FlushBatch 32)
  /\ (frame 40 (draw 180 12 15 Samples.drawing)).2
     = [DrawBatch [Samples.brush_at 12 15]]
  /\ outputs (run [EDraw 120 1 1; EDraw 120 2 2; EFrame 40; EFrame 80;
                   EStop] Samples.drawing).2
     = [DrawMove (Samples.brush_at 2 2); DrawEnd]
  /\ outputs (run [EDraw 40 1 1; EFrame 20; EDraw 40 2 2; EDraw 120 3 3;
                   EFrame 30] Samples.drawing).2
     = [DrawMove (Samples.brush_at 1 1); DrawMove (Samples.brush_at 3 3)]
  /\ send_times (run [EDraw 40 1 1; EFrame 20; EDraw 40 2 2; EDraw 120 3 3;
                      EFrame 30] Samples.drawing).2
     = [20%Q; 30%Q].
Proof. split_and!; reflexivity. Qed.

Lemma throttle_fair_band latency c :
  getLatency c = true -> 100 <= latency <= 199 ->
  getAdaptiveThrottle latency c = 32.
Proof.
  intros Hg Hl. unfold getAdaptiveThrottle, readLatency. rewrite Hg.
  destruct (Z.ltb_spec latency 50); [lia |].
  destruct (Z.ltb_spec latency 100); [lia |].
  destruct (Z.ltb_spec latency 200); [done | lia].
Qed.

Lemma elapsed_spec now throttleMs c :
  elapsed now throttleMs c = true ->
  (inject_Z throttleMs <= now - lastDrawEvent c)%Q.
Proof. unfold elapsed. apply Qle_bool_iff. Qed.

(** One event in individual mode, with a latency of 100 to 149 ms if it
    is a move. *)
Lemma step_individual e c :
  individual_mode c ->
  latencies_within 100 149 [e] ->
  individual_mode (step e c).1
  /\ Forall (fun o => is_single o = true) (step e c).2
  /\ match sent_at e (step e c).2 with
     | Some now =>
         (32 <= now - lastDrawEvent c)%Q
         /\ lastDrawEvent (step e c).1 = now
     | None => lastDrawEvent (step e c).1 = lastDrawEvent c
     end.
Proof.
  intros (Hbatch & Hlat & Hmove & Hbat & Hraf) He.
  apply Forall_cons_1 in He as [He _].
  destruct e as [x y | latency x y | now |]; cbn [step].
  - unfold startDrawing. cbn [fst snd].
    split; [| split]; [by repeat split | destruct (onDrawStart c); repeat constructor | done].
  - cbn [fst snd]. split; [| split]; [| constructor |].
    + unfold draw. destruct (isDrawing c); cbn [negb]; [| by repeat split].
      unfold sendDrawMoveAdaptive. rewrite Hmove, Hbat. cbn [negb andb].
      rewrite (throttle_fair_band latency c Hlat) by lia.
      unfold readLatency. rewrite Hlat.
      destruct (Z.leb_spec 150 latency); [lia |]. cbn [andb].
      repeat split; cbn; try done.
      destruct Hraf as [-> | ->]; cbn; by right.
    + unfold draw. destruct (isDrawing c); cbn [negb]; [| done].
      unfold sendDrawMoveAdaptive. rewrite Hmove, Hbat. cbn [negb andb].
      unfold readLatency. rewrite Hlat.
      by destruct (Z.leb_spec 150 latency); [lia |].
  - unfold frame. destruct Hraf as [Hraf | Hraf]; rewrite Hraf.
    + cbn [fst snd]. split; [| split]; [by repeat split; try left | constructor | done].
    + destruct (pendingDrawData c) as [d |] eqn:Hpend.
      * destruct (elapsed now 32 c) eqn:Hel.
        -- rewrite Hmove. cbn [fst snd].
           split; [| split]; [by repeat split; try left | by repeat constructor | ].
           split; [| done]. by apply elapsed_spec in Hel.
        -- cbn [fst snd]. split; [| split]; [by repeat split; try left | constructor | done].
      * cbn [fst snd]. split; [| split]; [by repeat split; try left | constructor | done].
  - unfold stopDrawing. destruct (isDrawing c); cbn [negb fst snd].
    + cbn [moveBatch with_isDrawing]. rewrite Hbatch. cbn.
      split; [| split]; [by repeat split; try left | destruct (onDrawEnd c); by repeat constructor | done].
    + split; [| split]; [by repeat split | constructor | done].
Qed.

Lemma wired_individual_mode : individual_mode wired.
Proof. repeat split. by left. Qed.

Lemma latencies_within_cons lo hi e es :
  latencies_within lo hi (e :: es) ->
  latencies_within lo hi [e] /\ latencies_within lo hi es.
Proof.
  unfold latencies_within. intros H. apply Forall_cons_1 in H as [He Hes].
  split; [by repeat constructor | done].
Qed.

(** A whole run in individual mode: nothing is ever batched, and the
    frames that send are at least 32 ms apart. *)
Lemma run_individual es : forall c,
  individual_mode c ->
  latencies_within 100 149 es ->
  individual_mode (run es c).1
  /\ Forall (fun o => is_single o = true) (outputs (run es c).2)
  /\ spaced 32 (lastDrawEvent c) (send_times (run es c).2).
Proof.
  induction es as [| e rest IH]; intros c Hc Hes.
  - cbn. split; [done |]. split; [constructor | done].
  - apply latencies_within_cons in Hes as [He Hrest].
    destruct (step_individual e c Hc He) as (Hc1 & Hout & Htime).
    cbn [run]. destruct (step e c) as [c1 out].
    destruct (IH c1 Hc1 Hrest) as (Hc2 & Houts & Hsp).
    destruct (run rest c1) as [c2 outs]. cbn [fst snd] in *.
    split; [done |]. split.
    + unfold outputs. cbn. apply Forall_app. by split.
    + unfold send_times in *. cbn [omap list_omap fst snd].
      destruct (sent_at e out) as [now |].
      * destruct Htime as [Hgap Hnow]. cbn [spaced]. rewrite <- Hnow at 2.
        by split.
      * rewrite <- Htime. exact Hsp.
Qed.

Lemma batched_app l1 l2 : batched (l1 ++ l2) = batched l1 ++ batched l2.
Proof. unfold batched. apply flat_map_app. Qed.

Lemma step_batch e c :
  batch_mode c ->
  latencies_within 150 199 [e] ->
  batch_mode (step e c).1
  /\ Forall (fun o => is_bulk o = true) (step e c).2
  /\ match sent_at e (step e c).2 with
     | Some now =>
         (32 <= now - lastDrawEvent c)%Q
         /\ lastDrawEvent (step e c).1 = now
     | None => lastDrawEvent (step e c).1 = lastDrawEvent c
     end
  /\ batched (step e c).2 ++ moveBatch (step e c).1
     = moveBatch c ++ read e c.
Proof.
  intros Hmode He. pose proof Hmode as (Hlat & Hbat & Hraf).
  apply Forall_cons_1 in He as [He _].
  destruct e as [x y | latency x y | now |]; cbn [step read].
  - unfold startDrawing. cbn [fst snd].
    split; [| split; [| split]];
      [exact Hmode | destruct (onDrawStart c); repeat constructor | done |].
    rewrite app_nil_r. by destruct (onDrawStart c).
  - cbn [fst snd]. unfold draw.
    destruct (isDrawing c); cbn [negb];
      [| rewrite app_nil_r; split; [| split; [| split]];
         [exact Hmode | constructor | done | done]].
    unfold sendDrawMoveAdaptive. rewrite Hbat, andb_false_r.
    rewrite (throttle_fair_band latency c Hlat) by lia.
    unfold readLatency. rewrite Hlat.
    destruct (Z.leb_spec 150 latency); [| lia]. cbn [andb].
    split; [| split; [| split]]; [| constructor | done | done].
    repeat split; try done. cbn.
    destruct Hraf as [-> | ->]; cbn; by right.
  - unfold frame. destruct Hraf as [Hraf | Hraf]; rewrite Hraf.
    + cbn [fst snd]. rewrite app_nil_r.
      split; [| split; [| split]]; [by repeat split; try left | constructor | done | done].
    + destruct (elapsed now 32 c) eqn:Hel; cbn [andb].
      * destruct (0 <? Z.of_nat (length (moveBatch c))) eqn:Hlen;
          cbn [fst snd].
        -- split; [| split; [| split]];
             [by repeat split; try left | by repeat constructor | |].
           ++ split; [| done]. by apply elapsed_spec in Hel.
           ++ cbn. by rewrite !app_nil_r.
        -- rewrite app_nil_r.
           split; [| split; [| split]];
             [by repeat split; try left | constructor | done | done].
      * cbn [fst snd]. rewrite app_nil_r.
        split; [| split; [| split]];
          [by repeat split; try left | constructor | done | done].
  - unfold stopDrawing. destruct (isDrawing c); cbn [negb fst snd].
    + cbn [moveBatch with_isDrawing onDrawBatch onDrawEnd lastDrawEvent
           with_transmission rafId getLatency].
      rewrite Hbat, andb_true_r.
      split; [| split; [| split]];
        [split; [| split]; [done | done | by left] | | done |].
      * destruct (0 <? _); destruct (onDrawEnd c); by repeat constructor.
      * rewrite batched_app, app_nil_r.
        assert (Hend : batched (if onDrawEnd c then [DrawEnd] else []) = [])
          by (by destruct (onDrawEnd c)).
        rewrite Hend, app_nil_r.
        destruct (Z.ltb_spec 0 (Z.of_nat (length (moveBatch c))))
          as [Hpos | Hzero].
        -- cbn. by rewrite !app_nil_r.
        -- destruct (moveBatch c); [done | cbn in Hzero; lia].
    + rewrite app_nil_r.
      split; [| split; [| split]]; [by repeat split | constructor | done | done].
Qed.

Lemma run_batch es : forall c,
  batch_mode c ->
  latencies_within 150 199 es ->
  batch_mode (run es c).1
  /\ Forall (fun o => is_bulk o = true) (outputs (run es c).2)
  /\ spaced 32 (lastDrawEvent c) (send_times (run es c).2)
  /\ batched (outputs (run es c).2) ++ moveBatch (run es c).1
     = moveBatch c ++ reads es c.
Proof.
  induction es as [| e rest IH]; intros c Hc Hes.
  - cbn. split; [done |]. split; [constructor |]. split; [done |].
    by rewrite app_nil_r.
  - apply latencies_within_cons in Hes as [He Hrest].
    destruct (step_batch e c Hc He) as (Hc1 & Hout & Htime & Hkeep).
    cbn [run reads]. destruct (step e c) as [c1 out].
    destruct (IH c1 Hc1 Hrest) as (Hc2 & Houts & Hsp & Hkeeps).
    destruct (run rest c1) as [c2 outs]. cbn [fst snd] in *.
    split; [done |]. split; [| split].
    + unfold outputs. cbn. apply Forall_app. by split.
    + unfold send_times in *. cbn [omap list_omap fst snd].
      destruct (sent_at e out) as [now |].
      * destruct Htime as [Hgap Hnow]. cbn [spaced]. rewrite <- Hnow at 2.
        by split.
      * rewrite <- Htime. exact Hsp.
    + unfold outputs in *. cbn [fmap list_fmap concat snd].
      rewrite batched_app, <- app_assoc, Hkeeps, !app_assoc. by rewrite Hkeep.
Qed.

Lemma frame_individual now c :
  individual_mode c ->
  (frame now c).2
  = match rafId c, pendingDrawData c with
    | Some _, Some d => if elapsed now 32 c then [DrawMove d] else []
    | _, _ => []
    end.
Proof.
  intros (_ & _ & Hmove & _ & Hraf). unfold frame.
  destruct Hraf as [-> | ->]; [done |].
  destruct (pendingDrawData c); [| done].
  destruct (elapsed now 32 c); [| done]. by rewrite Hmove.
Qed.

Lemma pending_callback_keeps_its_throttle latency d c now throttleMs :
  getLatency c = true -> onDrawMove c = true ->
  100 <= latency <= 149 ->
  rafId c = Some (SendPending throttleMs) ->
  (frame now (sendDrawMoveAdaptive latency d c)).2
  = if elapsed now throttleMs c then [DrawMove d] else [].
Proof.
  intros Hlat Hmove Hl Hraf.
  unfold sendDrawMoveAdaptive. rewrite Hmove. cbn [negb andb].
  unfold readLatency. rewrite Hlat.
  destruct (Z.leb_spec 150 latency); [lia |]. cbn [andb].
  rewrite Hraf. unfold frame.
  cbn [schedule rafId pendingDrawData with_transmission onDrawMove].
  change (elapsed now throttleMs (with_transmission c (lastDrawEvent c)
            (Some d) (Some (SendPending throttleMs)) (moveBatch c)))
    with (elapsed now throttleMs c).
  destruct (elapsed now throttleMs c); [| done]. by rewrite Hmove.
Qed.

Lemma stopDrawing_flushes c :
  isDrawing c = true -> onDrawBatch c = true -> moveBatch c <> [] ->
  (stopDrawing c).2
  = DrawBatch (moveBatch c) :: (if onDrawEnd c then [DrawEnd] else [])
  /\ moveBatch (stopDrawing c).1 = []
  /\ rafId (stopDrawing c).1 = None.
Proof.
  intros Hdraw Hbat Hne. unfold stopDrawing. rewrite Hdraw. cbn [negb].
  cbn [moveBatch with_isDrawing onDrawBatch onDrawEnd fst snd].
  rewrite Hbat, andb_true_r.
  destruct (Z.ltb_spec 0 (Z.of_nat (length (moveBatch c)))) as [_ | Hzero].
  - done.
  - destruct (moveBatch c); [done | cbn in Hzero; lia].
Qed.

(** A move read in individual mode at 100 to 149 ms becomes the pending
    one and leaves the canvas in individual mode. *)
Lemma move_individual latency d c :
  100 <= latency <= 149 -> individual_mode c ->
  pendingDrawData (sendDrawMoveAdaptive latency d c) = Some d
  /\ individual_mode (sendDrawMoveAdaptive latency d c).
Proof.
  intros Hl (Hbatch & Hlat & Hmove & Hbat & Hraf).
  unfold sendDrawMoveAdaptive. rewrite Hmove, Hbat. cbn [negb andb].
  rewrite (throttle_fair_band latency c Hlat) by lia.
  unfold readLatency. rewrite Hlat.
  destruct (Z.leb_spec 150 latency); [lia |]. cbn [andb].
  split; [done |]. repeat split; cbn; try done.
  destruct Hraf as [-> | ->]; cbn; by right.
Qed.

(** C9, amended.  On a canvas whose callbacks are wired:
    - [individual_mode] is the state with an empty batch in which no
      frame callback is pending but, at most, one that sends a single move
      under the 32 ms throttle; a freshly wired canvas is in it.  From such
      a state, and while every latency read is between 100 and 149 ms,
      nothing handed to the network is a [draw-batch]; moves go out one per
      message, and two sending frames are at least 32 ms apart;
    - in that band a move with no frame pending is sent by the next frame
      as its own [draw-move] as soon as 32 ms have passed since the last
      send;
    - between 150 and 199 ms the throttle is still 32 ms, but a move is
      appended to the batch instead, and, no frame being pending, the frame
      it schedules flushes the whole batch as one [draw-batch] if 32 ms
      have passed since the last send and hands over nothing otherwise;
    - not every move is sent: in [individual_mode] each move read at 100
      to 149 ms replaces the pending one, and a frame hands over the
      pending move alone, and nothing before 32 ms have passed;
    - a single-move callback that is already pending keeps the throttle it
      was scheduled with: a move read at 100 to 149 ms is then sent as
      soon as that throttle, whatever it is, has passed;
    - [batch_mode] is the state in which no frame callback is pending but,
      at most, one that flushes the batch under the 32 ms throttle.  From
      such a state, and while every latency read is between 150 and
      199 ms, no [draw-move] is handed over, two flushing frames are at
      least 32 ms apart, and the moves of the batches handed over,
      followed by the moves still waiting, are the moves that waited at
      the start followed by the moves read, in order;
    - [stopDrawing], during a stroke, hands over a waiting batch as one
      [draw-batch],
      whatever the time since the last send, and leaves nothing waiting
      and no frame pending. *)
Theorem fair_band_sends_single_below_150_and_batches_from_150 :
  (forall es c,
     individual_mode c -> latencies_within 100 149 es ->
     Forall (fun o => is_single o = true) (outputs (run es c).2)
     /\ spaced 32 (lastDrawEvent c) (send_times (run es c).2))
  /\ (forall latency d c now,
        100 <= latency <= 149 ->
        individual_mode c -> rafId c = None ->
        (32 <= now - lastDrawEvent c)%Q ->
        (frame now (sendDrawMoveAdaptive latency d c)).2 = [DrawMove d])
  /\ (forall latency d c,
        150 <= latency <= 199 ->
        getLatency c = true -> onDrawBatch c = true -> rafId c = None ->
        getAdaptiveThrottle latency c = 32
        /\ moveBatch (sendDrawMoveAdaptive latency d c) = moveBatch c ++ [d]
        /\ rafId (sendDrawMoveAdaptive latency d c) = Some (FlushBatch 32)
        /\ forall now,
             (frame now (sendDrawMoveAdaptive latency d c)).2
             = if elapsed now 32 c then [DrawBatch (moveBatch c ++ [d])]
               else [])
  /\ (individual_mode wired
      /\ (forall latency d c,
            100 <= latency <= 149 -> individual_mode c ->
            pendingDrawData (sendDrawMoveAdaptive latency d c) = Some d
            /\ individual_mode (sendDrawMoveAdaptive latency d c))
      /\ (forall now c,
            individual_mode c ->
            (frame now c).2
            = match rafId c, pendingDrawData c with
              | Some _, Some d =>
                  if elapsed now 32 c then [DrawMove d] else []
              | _, _ => []
              end))
  /\ (forall latency d c now throttleMs,
        getLatency c = true -> onDrawMove c = true ->
        100 <= latency <= 149 ->
        rafId c = Some (SendPending throttleMs) ->
        (frame now (sendDrawMoveAdaptive latency d c)).2
        = if elapsed now throttleMs c then [DrawMove d] else [])
  /\ (forall es c,
        batch_mode c -> latencies_within 150 199 es ->
        Forall (fun o => is_bulk o = true) (outputs (run es c).2)
        /\ spaced 32 (lastDrawEvent c) (send_times (run es c).2)
        /\ batched (outputs (run es c).2) ++ moveBatch (run es c).1
           = moveBatch c ++ reads es c)
  /\ (forall c,
        isDrawing c = true -> onDrawBatch c = true -> moveBatch c <> [] ->
        (stopDrawing c).2
        = DrawBatch (moveBatch c) :: (if onDrawEnd c then [DrawEnd] else [])
        /\ moveBatch (stopDrawing c).1 = []
        /\ rafId (stopDrawing c).1 = None).
Proof.
  split; [| split; [| split; [| split; [| split; [| split]]]]].
  - intros es c Hc Hes. destruct (run_individual es c Hc Hes) as (_ & H1 & H2).
    by split.
  - intros latency d c now Hl (Hbatch & Hlat & Hmove & Hbat & _) Hraf Hgap.
    unfold sendDrawMoveAdaptive. rewrite Hmove, Hbat. cbn [negb andb].
    rewrite (throttle_fair_band latency c Hlat) by lia.
    unfold readLatency. rewrite Hlat.
    destruct (Z.leb_spec 150 latency); [lia |]. cbn [andb].
    rewrite Hraf. unfold frame.
    cbn [schedule rafId pendingDrawData with_transmission].
    assert (Hel : forall c', lastDrawEvent c' = lastDrawEvent c ->
                             elapsed now 32 c' = true).
    { intros c' Hc'. unfold elapsed. rewrite Hc'. by apply Qle_bool_iff. }
    rewrite Hel by done. cbn [onDrawMove with_transmission snd].
    by rewrite Hmove.
  - intros latency d c Hl Hlat Hbat Hraf.
    assert (Hth : getAdaptiveThrottle latency c = 32)
      by (apply throttle_fair_band; [done | lia]).
    assert (Hsend : sendDrawMoveAdaptive latency d c
                    = with_transmission c (lastDrawEvent c) (Some d)
                        (Some (FlushBatch 32)) (moveBatch c ++ [d])).
    { unfold sendDrawMoveAdaptive. rewrite Hbat, Hth, Hraf.
      rewrite andb_false_r. unfold readLatency. rewrite Hlat.
      by destruct (Z.leb_spec 150 latency); [| lia]. }
    rewrite Hsend. split_and!; [done | done | done |].
    intros now. unfold frame.
    cbn [rafId moveBatch pendingDrawData with_transmission].
    assert (Hlen : (0 <? Z.of_nat (length (moveBatch c ++ [d]))) = true).
    { rewrite length_app. cbn [length]. apply Z.ltb_lt. lia. }
    rewrite Hlen, andb_true_r.
    change (elapsed now 32 (with_transmission c (lastDrawEvent c) (Some d)
                              (Some (FlushBatch 32)) (moveBatch c ++ [d])))
      with (elapsed now 32 c).
    by destruct (elapsed now 32 c).
  - split; [apply wired_individual_mode | split].
    + intros latency d c Hl Hc. apply move_individual; done.
    + intros now c Hc. by apply frame_individual.
  - intros latency d c now throttleMs Hlat Hmove Hl Hraf.
    by apply pending_callback_keeps_its_throttle.
  - intros es c Hc Hes.
    destruct (run_batch es c Hc Hes) as (_ & H1 & H2 & H3). done.
  - intros c Hdraw Hbat Hne. by apply stopDrawing_flushes.
Qed.

Lemma fair_band_sends_single_below_150_and_batches_from_150_witness :
  (frame 40 (sendDrawMoveAdaptive 120 (Samples.brush_at 12 15)
               Samples.drawing)).2
    = [DrawMove (Samples.brush_at 12 15)]
  /\ moveBatch (sendDrawMoveAdaptive 180 (Samples.brush_at 12 15)
                  Samples.drawing)
     = moveBatch Samples.drawing ++ [Samples.brush_at 12 15].
Proof.
  destruct fair_band_sends_single_below_150_and_batches_from_150
    as (_ & Hsingle & Hbatch & _).
  split.
  - apply Hsingle; [lia | repeat split; by left | reflexivity | done].
  - apply (Hbatch 180 (Samples.brush_at 12 15) Samples.drawing);
      [lia | reflexivity..].
Defined.

End AdaptiveSender.

(** ** The action log under any sequence of operations *)

Section LogHistory.

Import DrawingState.

(** What a scan that flips a flag keeps. *)
Lemma flip_found_frame p b now s :
  History.erase_flags (actions (flip_found p b now s).1)
    = History.erase_flags (actions s)
  /\ length (actions (flip_found p b now s).1) = length (actions s)
  /\ actionIdCounter (flip_found p b now s).1 = actionIdCounter s
  /\ roomId (flip_found p b now s).1 = roomId s
  /\ createdAt (flip_found p b now s).1 = createdAt s.
Proof.
  destruct (scan p (actions s) (length (actions s))) as [i |] eqn:Hscan.
  - destruct (flip_found_Some p b now s i Hscan) as (a & Hi & _ & ->).
    cbn [fst actions actionIdCounter roomId createdAt].
    split_and!; [| by rewrite length_insert | done..].
    unfold History.erase_flags. rewrite list_fmap_insert.
    apply list_insert_id. rewrite list_lookup_fmap, Hi. by destruct a.
  - by rewrite (flip_found_None p b now s Hscan).
Qed.

(** X1.  The three scans never add, drop, reorder or renumber actions and
    never touch an author, type, payload or timestamp: with the flags
    ignored the log is the same before and after, and so is the id
    counter. *)
Theorem undo_redo_only_move_flags now uid s :
  (History.erase_flags (actions (undoGlobal now s).1)
     = History.erase_flags (actions s)
   /\ actionIdCounter (undoGlobal now s).1 = actionIdCounter s)
  /\ (History.erase_flags (actions (undoForUser now uid s).1)
        = History.erase_flags (actions s)
      /\ actionIdCounter (undoForUser now uid s).1 = actionIdCounter s)
  /\ (History.erase_flags (actions (redoGlobal now s).1)
        = History.erase_flags (actions s)
      /\ actionIdCounter (redoGlobal now s).1 = actionIdCounter s).
Proof.
  unfold undoGlobal, undoForUser, redoGlobal.
  split_and!; apply flip_found_frame.
Qed.

(** A scan that returns an action splits the log around it: the action
    satisfied the loop condition, nothing after it did, and the only change
    is its flag. *)
Lemma flip_found_split p b now s a' :
  (flip_found p b now s).2 = Some a' ->
  exists l1 a l2,
    actions s = l1 ++ a :: l2
    /\ a' = set_undone b a /\ p a = true
    /\ Forall (fun x => p x = false) l2
    /\ actions (flip_found p b now s).1 = l1 ++ a' :: l2.
Proof.
  destruct (scan p (actions s) (length (actions s))) as [i |] eqn:Hscan.
  - destruct (scan_Some _ _ _ _ Hscan) as (Hlt & a & Hi & Hp & Hafter).
    destruct (flip_found_Some p b now s i Hscan) as (a0 & Hi0 & _ & ->).
    assert (a0 = a) as -> by congruence.
    cbn [fst snd actions]. intros [= <-].
    exists (take i (actions s)), a, (drop (S i) (actions s)).
    split_and!; [by rewrite take_drop_middle | done | done | |].
    + apply Forall_lookup. intros j x Hx. rewrite lookup_drop in Hx.
      apply (Hafter (S i + j)%nat); [| done].
      apply lookup_lt_Some in Hx. lia.
    + by apply insert_take_drop.
  - by rewrite (flip_found_None p b now s Hscan).
Qed.

Lemma active_app l1 l2 :
  List.filter (fun a => negb (undone a)) (l1 ++ l2)
  = List.filter (fun a => negb (undone a)) l1
    ++ List.filter (fun a => negb (undone a)) l2.
Proof. apply List.filter_app. Qed.

Lemma Forall_active (P : Action -> Prop) l :
  Forall (fun x => undone x = false -> P x) l ->
  Forall P (List.filter (fun a => negb (undone a)) l).
Proof.
  induction 1 as [| x l Hx _ IH]; cbn; [constructor |].
  destruct (undone x); cbn; [done |]. constructor; [by apply Hx | done].
Qed.

(** X2.  A global undo that returns an action takes exactly that action
    out of [getActiveActions] and leaves the others in their order; the
    action taken is not a clear, it was the newest active action that is
    not a clear, and it is returned with its flag raised. *)
Theorem undoGlobal_removes_newest_active_stroke now s a :
  (undoGlobal now s).2 = Some a ->
  undone a = true /\ is_clear a = false
  /\ exists l1 l2,
       getActiveActions s = l1 ++ set_undone false a :: l2
       /\ getActiveActions (undoGlobal now s).1 = l1 ++ l2
       /\ Forall (fun x => is_clear x = true) l2.
Proof.
  unfold undoGlobal. intros H.
  destruct (flip_found_split _ _ _ _ _ H)
    as (l1 & a0 & l2 & Hs & -> & Hp & Hafter & Hs').
  apply andb_true_iff in Hp as [Hact Hnc].
  apply negb_true_iff in Hact, Hnc.
  split_and!; [done | done |].
  exists (List.filter (fun a => negb (undone a)) l1),
         (List.filter (fun a => negb (undone a)) l2).
  unfold getActiveActions. rewrite Hs, Hs', !active_app. cbn.
  rewrite Hact. cbn. split_and!.
  - do 2 f_equal. destruct a0; cbn in *. by subst.
  - done.
  - apply Forall_active. eapply Forall_impl; [exact Hafter |].
    intros x Hx Hux. unfold undoable in Hx. rewrite Hux in Hx. cbn in Hx.
    by apply negb_false_iff in Hx.
Qed.

Lemma undoGlobal_removes_newest_active_stroke_witness :
  exists l1 l2,
    getActiveActions Samples.three_strokes
      = l1 ++ mkAction 3 (Some "A") "draw-end"
                (mkPayload None None None (Some (JArr [])) None None) 3 false
              :: l2
    /\ getActiveActions (undoGlobal 4 Samples.three_strokes).1 = l1 ++ l2
    /\ Forall (fun x => is_clear x = true) l2.
Proof.
  apply (undoGlobal_removes_newest_active_stroke 4 Samples.three_strokes
           (mkAction 3 (Some "A") "draw-end"
              (mkPayload None None None (Some (JArr [])) None None) 3 true)).
  reflexivity.
Defined.

(** X3.  A personal undo that returns an action takes exactly that action
    out of [getActiveActions]; it is by the requester, not a clear, and no
    newer active action by the requester other than a clear existed.  Every
    other active action, whoever made it and however recent, stays. *)
Theorem undoForUser_removes_own_newest_active_stroke now uid s a :
  (undoForUser now uid s).2 = Some a ->
  undone a = true /\ is_clear a = false /\ userId a = Some uid
  /\ exists l1 l2,
       getActiveActions s = l1 ++ set_undone false a :: l2
       /\ getActiveActions (undoForUser now uid s).1 = l1 ++ l2
       /\ Forall (fun x => userId x = Some uid -> is_clear x = true) l2.
Proof.
  unfold undoForUser. intros H.
  destruct (flip_found_split _ _ _ _ _ H)
    as (l1 & a0 & l2 & Hs & -> & Hp & Hafter & Hs').
  unfold undoable_by in Hp.
  apply andb_true_iff in Hp as [Hp Hnc].
  apply andb_true_iff in Hp as [Hown Hact].
  apply bool_decide_eq_true in Hown.
  apply negb_true_iff in Hact, Hnc.
  split_and!; [done | done | done |].
  exists (List.filter (fun a => negb (undone a)) l1),
         (List.filter (fun a => negb (undone a)) l2).
  unfold getActiveActions. rewrite Hs, Hs', !active_app. cbn.
  rewrite Hact. cbn. split_and!.
  - do 2 f_equal. destruct a0; cbn in *. by subst.
  - done.
  - apply Forall_active. eapply Forall_impl; [exact Hafter |].
    intros x Hx Hux Hox. unfold undoable_by in Hx.
    rewrite Hux, (bool_decide_eq_true_2 _ Hox) in Hx. cbn in Hx.
    by apply negb_false_iff in Hx.
Qed.

Lemma undoForUser_removes_own_newest_active_stroke_witness :
  exists l1 l2,
    getActiveActions Samples.three_strokes
      = l1 ++ mkAction 2 (Some "B") "draw-end"
                (mkPayload None None None (Some (JArr [])) None None) 2 false
              :: l2
    /\ getActiveActions (undoForUser 4 "B" Samples.three_strokes).1 = l1 ++ l2
    /\ Forall (fun x => userId x = Some "B" -> is_clear x = true) l2.
Proof.
  apply (undoForUser_removes_own_newest_active_stroke 4 "B"
           Samples.three_strokes
           (mkAction 2 (Some "B") "draw-end"
              (mkPayload None None None (Some (JArr [])) None None) 2 true)).
  reflexivity.
Defined.

(** X4.  A redo that returns an action puts exactly that action back into
    [getActiveActions], at the place its position in the log gives it; it is
    not a clear, and every other undone action that is not a clear is older
    than it. *)
Theorem redoGlobal_restores_newest_undone_stroke now s a :
  (redoGlobal now s).2 = Some a ->
  undone a = false /\ is_clear a = false
  /\ exists l1 l2,
       actions s = l1 ++ set_undone true a :: l2
       /\ actions (redoGlobal now s).1 = l1 ++ a :: l2
       /\ Forall (fun x => undone x = true -> is_clear x = true) l2
       /\ getActiveActions (redoGlobal now s).1
          = List.filter (fun a => negb (undone a)) l1
            ++ a :: List.filter (fun a => negb (undone a)) l2
       /\ getActiveActions s
          = List.filter (fun a => negb (undone a)) l1
            ++ List.filter (fun a => negb (undone a)) l2.
Proof.
  unfold redoGlobal. intros H.
  destruct (flip_found_split _ _ _ _ _ H)
    as (l1 & a0 & l2 & Hs & -> & Hp & Hafter & Hs').
  apply andb_true_iff in Hp as [Hund Hnc]. apply negb_true_iff in Hnc.
  split_and!; [done | done |].
  exists l1, l2. unfold getActiveActions. rewrite Hs, Hs', !active_app.
  assert (Hback : set_undone true (set_undone false a0) = a0)
    by (destruct a0; cbn in *; by subst).
  rewrite Hback. cbn. rewrite Hund. cbn. split_and!; [done | done | | done | done].
  eapply Forall_impl; [exact Hafter |].
  intros x Hx Hux. unfold redoable in Hx. rewrite Hux in Hx. cbn in Hx.
  by apply negb_false_iff in Hx.
Qed.

Lemma redoGlobal_restores_newest_undone_stroke_witness :
  exists l1 l2,
    actions Samples.newest_undone
      = l1 ++ mkAction 2 (Some "B") "draw-end"
                (mkPayload None None None (Some (JArr [])) None None) 2 true
              :: l2
    /\ actions (redoGlobal 9 Samples.newest_undone).1
       = l1 ++ mkAction 2 (Some "B") "draw-end"
                 (mkPayload None None None (Some (JArr [])) None None) 2 false
               :: l2.
Proof.
  destruct (redoGlobal_restores_newest_undone_stroke 9 Samples.newest_undone
              (mkAction 2 (Some "B") "draw-end"
                 (mkPayload None None None (Some (JArr [])) None None) 2 false)
              eq_refl)
    as (_ & _ & l1 & l2 & H1 & H2 & _).
  exists l1, l2. by split.
Defined.

(** How many actions satisfy a loop condition. *)
Lemma flip_found_count p b now s :
  (forall a, p a = true -> p (set_undone b a) = false) ->
  match (flip_found p b now s).2 with
  | Some _ =>
      S (length (List.filter p (actions (flip_found p b now s).1)))
      = length (List.filter p (actions s))
  | None => Forall (fun a => p a = false) (actions s)
  end.
Proof.
  intros Hflip.
  destruct ((flip_found p b now s).2) as [a' |] eqn:Hres.
  - destruct (flip_found_split _ _ _ _ _ Hres)
      as (l1 & a & l2 & Hs & -> & Hp & _ & Hs').
    rewrite Hs, Hs', !List.filter_app. cbn.
    rewrite Hp, (Hflip a Hp), !length_app. cbn. lia.
  - destruct (scan p (actions s) (length (actions s))) as [i |] eqn:Hscan.
    + destruct (flip_found_Some p b now s i Hscan) as (a & _ & _ & Heq).
      rewrite Heq in Hres. discriminate.
    + apply Forall_lookup. intros j a Hj.
      apply (scan_None _ _ _ Hscan j); [| done]. by apply lookup_lt_Some in Hj.
Qed.

Lemma repeatedly_exhausts p b now n : forall s,
  (forall a, p a = true -> p (set_undone b a) = false) ->
  (length (List.filter p (actions s)) <= n)%nat ->
  Forall (fun a => p a = false)
    (actions (History.repeatedly n (flip_found p b now) s)).
Proof.
  induction n as [| n IH]; intros s Hflip Hn.
  - cbn. destruct (List.filter p (actions s)) as [| x l] eqn:Hf;
      [| cbn in Hn; lia].
    apply Forall_forall. intros a Ha. destruct (p a) eqn:Hpa; [| done].
    assert (Hin : In a (List.filter p (actions s))).
    { apply List.filter_In. split; [by apply list_elem_of_In | done]. }
    rewrite Hf in Hin. done.
  - unfold History.repeatedly in *.
    rewrite Nat.iter_succ_r. apply IH; [done |].
    pose proof (flip_found_count p b now s Hflip) as Hc.
    destruct ((flip_found p b now s).2).
    + lia.
    + assert (Hsame : (flip_found p b now s).1 = s).
      { destruct (scan p (actions s) (length (actions s))) as [i |] eqn:Hscan.
        - destruct (scan_Some _ _ _ _ Hscan) as (_ & a & Hi & Hp & _).
          rewrite Forall_lookup in Hc. rewrite (Hc i a Hi) in Hp. done.
        - by rewrite (flip_found_None p b now s Hscan). }
      rewrite Hsame.
      assert (Hnil : List.filter p (actions s) = []).
      { clear -Hc. induction Hc as [| x l Hx _ IHl]; cbn; [done |].
        by rewrite Hx. }
      rewrite Hnil. cbn. lia.
Qed.

(** X5.  Asking for a global undo as many times as the log has actions
    leaves no active action other than clears, whatever the log was, and
    one more request finds nothing. *)
Theorem undoGlobal_repeated_hides_every_stroke now s :
  Forall (fun a => is_clear a = true)
    (getActiveActions
       (History.repeatedly (length (actions s)) (undoGlobal now) s))
  /\ undoGlobal now
       (History.repeatedly (length (actions s)) (undoGlobal now) s)
     = (History.repeatedly (length (actions s)) (undoGlobal now) s, None).
Proof.
  assert (Hall : Forall (fun a => undoable a = false)
            (actions (History.repeatedly (length (actions s))
                        (undoGlobal now) s))).
  { apply repeatedly_exhausts.
    - intros a _. unfold undoable. by cbn.
    - apply List.filter_length_le. }
  split.
  - apply Forall_active. eapply Forall_impl; [exact Hall |].
    intros x Hx Hux. unfold undoable in Hx. rewrite Hux in Hx. cbn in Hx.
    by apply negb_false_iff in Hx.
  - apply flip_found_None.
    destruct (scan undoable _ _) as [i |] eqn:Hscan; [| done].
    destruct (scan_Some _ _ _ _ Hscan) as (_ & a & Hi & Hp & _).
    rewrite Forall_lookup in Hall. rewrite (Hall i a Hi) in Hp. done.
Qed.

(** X6.  Asking for a redo as many times as the log has actions leaves no
    action undone except clears, and one more request finds nothing. *)
Theorem redoGlobal_repeated_restores_every_stroke now s :
  Forall (fun a => undone a = true -> is_clear a = true)
    (actions (History.repeatedly (length (actions s)) (redoGlobal now) s))
  /\ redoGlobal now
       (History.repeatedly (length (actions s)) (redoGlobal now) s)
     = (History.repeatedly (length (actions s)) (redoGlobal now) s, None).
Proof.
  assert (Hall : Forall (fun a => redoable a = false)
            (actions (History.repeatedly (length (actions s))
                        (redoGlobal now) s))).
  { apply repeatedly_exhausts.
    - intros a _. unfold redoable. by cbn.
    - apply List.filter_length_le. }
  split.
  - eapply Forall_impl; [exact Hall |].
    intros x Hx Hux. unfold redoable in Hx. rewrite Hux in Hx. cbn in Hx.
    by apply negb_false_iff in Hx.
  - apply flip_found_None.
    destruct (scan redoable _ _) as [i |] eqn:Hscan; [| done].
    destruct (scan_Some _ _ _ _ Hscan) as (_ & a & Hi & Hp & _).
    rewrite Forall_lookup in Hall. rewrite (Hall i a Hi) in Hp. done.
Qed.

Lemma fmap_id_erase_flags l : id <$> History.erase_flags l = id <$> l.
Proof.
  unfold History.erase_flags. rewrite <- list_fmap_compose.
  by apply list_fmap_ext.
Qed.

Lemma flip_found_ids p b now s :
  id <$> actions (flip_found p b now s).1 = id <$> actions s.
Proof.
  destruct (flip_found_frame p b now s) as (He & _).
  by rewrite <- fmap_id_erase_flags, He, fmap_id_erase_flags.
Qed.

Lemma flip_found_well_formed p b now s :
  (forall a, p a = true -> is_clear a = false) ->
  History.well_formed s -> History.well_formed (flip_found p b now s).1.
Proof.
  intros Hp ((Hsorted & Hbound) & Hcnt & Hpos & Hcap & Hclear).
  destruct (flip_found_frame p b now s) as (_ & Hlen & Hc & _).
  pose proof (flip_found_ids p b now s) as Hids.
  unfold History.well_formed, ids_ordered. rewrite Hids, Hc, Hlen.
  split_and!; [done | | done | | done |].
  - apply (Forall_fmap id (fun x => x <= actionIdCounter s)).
    rewrite Hids. by apply Forall_fmap.
  - apply (Forall_fmap id (fun x => 0 < x)).
    rewrite Hids. by apply Forall_fmap.
  - destruct ((flip_found p b now s).2) as [a' |] eqn:Hres.
    + destruct (flip_found_split _ _ _ _ _ Hres)
        as (l1 & a & l2 & Hs & -> & Hpa & _ & ->).
      rewrite Hs in Hclear. apply Forall_app in Hclear as [H1 H2].
      apply Forall_cons in H2 as [_ H2].
      apply Forall_app. split; [done |]. constructor; [| done].
      intros Hcl. specialize (Hp a Hpa). destruct a; cbn in *. congruence.
    + destruct (scan p (actions s) (length (actions s))) as [i |] eqn:Hscan.
      * destruct (flip_found_Some p b now s i Hscan) as (a & _ & _ & Heq).
        rewrite Heq in Hres. discriminate.
      * by rewrite (flip_found_None p b now s Hscan).
Qed.

Lemma addAction_well_formed now action s :
  History.well_formed s -> History.well_formed (addAction now action s).1.
Proof.
  intros (Hord & Hcnt & Hpos & Hcap & Hclear).
  destruct action as [a |]; [| done].
  split; [by apply addAction_ids_ordered |].
  rewrite addAction_actions, addAction_counter.
  split_and!; [lia | | |].
  - apply Forall_drop, Forall_app. split; [done |].
    repeat constructor. cbn. lia.
  - rewrite length_drop, length_app. cbn [length].
    unfold maxActions. lia.
  - apply Forall_drop, Forall_app. split; [done |]. by repeat constructor.
Qed.

Lemma clearState_on_well_formed now s :
  History.well_formed (DrawingStateManager.clearState_on now s).
Proof.
  split_and!; cbn; repeat constructor; cbn; lia.
Qed.

Lemma apply_well_formed o s :
  History.well_formed s -> History.well_formed (History.apply o s).
Proof.
  intros Hs. destruct o; cbn [History.apply].
  - by apply addAction_well_formed.
  - apply flip_found_well_formed; [| done].
    intros a Ha. apply andb_true_iff in Ha as [_ Ha].
    by apply negb_true_iff in Ha.
  - apply flip_found_well_formed; [| done].
    intros a Ha. apply andb_true_iff in Ha as [_ Ha].
    by apply negb_true_iff in Ha.
  - apply flip_found_well_formed; [| done].
    intros a Ha. apply andb_true_iff in Ha as [_ Ha].
    by apply negb_true_iff in Ha.
  - apply clearState_on_well_formed.
Qed.

Lemma StronglySorted_lt_NoDup (l : list Z) : StronglySorted Z.lt l -> NoDup l.
Proof.
  induction 1 as [| x l _ IH Hx]; constructor; [| done].
  intros Hin. rewrite Forall_forall in Hx. specialize (Hx x Hin). lia.
Qed.

(** X7.  Whatever sequence of appends, undos, redos and clears a fresh log
    goes through, its ids stay strictly increasing from oldest to newest,
    hence pairwise distinct, all between 1 and the counter; it never holds
    more than 1000 actions; and no clear action is ever undone. *)
Theorem every_log_is_well_formed ops room t0 :
  History.well_formed (History.run ops (new room t0))
  /\ NoDup (id <$> actions (History.run ops (new room t0))).
Proof.
  assert (H : forall s, History.well_formed s ->
                        History.well_formed (History.run ops s)).
  { induction ops as [| o rest IH]; intros s Hs; [done |].
    cbn. apply IH. by apply apply_well_formed. }
  assert (Hnew : History.well_formed (new room t0)).
  { split; [apply new_ids_ordered |].
    split_and!; cbn; [lia | constructor | lia | constructor]. }
  split; [by apply H |].
  apply StronglySorted_lt_NoDup. by destruct (H _ Hnew) as ((? & _) & _).
Qed.

(** X8.  Clearing cannot be taken back: on the log [clearState] leaves, a
    global undo, a personal undo by anybody and a redo all find nothing and
    change nothing. *)
Theorem clearState_cannot_be_undone now s t uid :
  undoGlobal t (DrawingStateManager.clearState_on now s)
    = (DrawingStateManager.clearState_on now s, None)
  /\ undoForUser t uid (DrawingStateManager.clearState_on now s)
     = (DrawingStateManager.clearState_on now s, None)
  /\ redoGlobal t (DrawingStateManager.clearState_on now s)
     = (DrawingStateManager.clearState_on now s, None).
Proof.
  split_and!; apply flip_found_None; reflexivity.
Qed.

(** X9.  Two global undos in a row never take the same action: in a log
    with ordered ids the second one takes an action with a smaller id. *)
Theorem second_undoGlobal_takes_older_action t1 t2 s a1 a2 :
  ids_ordered s ->
  (undoGlobal t1 s).2 = Some a1 ->
  (undoGlobal t2 (undoGlobal t1 s).1).2 = Some a2 ->
  id a2 < id a1.
Proof.
  unfold undoGlobal. intros [Hsorted _] H1 H2.
  destruct (flip_found_split _ _ _ _ _ H1)
    as (l1 & b1 & l2 & Hs & -> & Hp1 & Hafter1 & Hs1).
  destruct (flip_found_split _ _ _ _ _ H2)
    as (m1 & b2 & m2 & Hs2 & -> & Hp2 & Hafter2 & _).
  rewrite Hs1 in Hs2.
  assert (Hin : b2 ∈ l1).
  { assert (Hb2 : b2 ∈ l1 ++ set_undone true b1 :: l2)
      by (rewrite Hs2; set_solver).
    apply elem_of_app in Hb2 as [? | Hb2]; [done |].
    apply elem_of_cons in Hb2 as [-> | Hb2].
    - unfold undoable in Hp2. cbn in Hp2. done.
    - rewrite Forall_forall in Hafter1. rewrite (Hafter1 _ Hb2) in Hp2. done. }
  rewrite Hs, fmap_app in Hsorted. cbn.
  apply (StronglySorted_app_1_elem_of _ _ _ (id b2) (id b1)) in Hsorted;
    [done | by apply list_elem_of_fmap_2 | cbn; set_solver].
Qed.

Lemma second_undoGlobal_takes_older_action_witness :
  ids_ordered Samples.three_strokes /\ 2 < 3.
Proof.
  assert (Hord : ids_ordered Samples.three_strokes).
  { split; cbn; repeat constructor; cbn; lia. }
  split; [exact Hord |].
  exact (second_undoGlobal_takes_older_action 4 5 Samples.three_strokes
           (mkAction 3 (Some "A") "draw-end"
              (mkPayload None None None (Some (JArr [])) None None) 3 true)
           (mkAction 2 (Some "B") "draw-end"
              (mkPayload None None None (Some (JArr [])) None None) 2 true)
           Hord eq_refl eq_refl).
Defined.

End LogHistory.

(** ** The state manager: rooms do not interfere *)

Section ManagerRooms.

Lemma on_state_other f room other (m : gmap string DrawingState.t) :
  room <> other ->
  (DrawingStateManager.on_state f room m).1 !! other = m !! other.
Proof.
  intros Hne. unfold DrawingStateManager.on_state.
  destruct (m !! room) as [s |]; [| done].
  destruct (f s) as [s' r]. cbn. by rewrite lookup_insert_ne.
Qed.

(** X10.  Every operation of the state manager on one room leaves the log
    of every other room exactly as it was: appending (which may create the
    room's log), clearing, the three undo and redo requests and loading
    from disk. *)
Theorem manager_operations_leave_other_rooms_alone
    now room other action uid file (m : gmap string DrawingState.t) :
  room <> other ->
  DrawingStateManager.addAction now room action m !! other = m !! other
  /\ DrawingStateManager.clearState now room m !! other = m !! other
  /\ (DrawingStateManager.undoGlobal now room m).1 !! other = m !! other
  /\ (DrawingStateManager.undoForUser now room uid m).1 !! other = m !! other
  /\ (DrawingStateManager.redoGlobal now room m).1 !! other = m !! other
  /\ (DrawingStateManager.loadState now room file m).1 !! other = m !! other
  /\ (DrawingStateManager.createState now room m).1 !! other = m !! other.
Proof.
  intros Hne.
  assert (Hcreate : (DrawingStateManager.createState now room m).1 !! other
                    = m !! other).
  { unfold DrawingStateManager.createState.
    destruct (m !! room); cbn; [done | by rewrite lookup_insert_ne]. }
  split_and!.
  - unfold DrawingStateManager.addAction.
    destruct (DrawingStateManager.createState now room m) as [m1 s].
    rewrite lookup_insert_ne by done. exact Hcreate.
  - unfold DrawingStateManager.clearState.
    destruct (m !! room); [by rewrite lookup_insert_ne | done].
  - by apply on_state_other.
  - by apply on_state_other.
  - by apply on_state_other.
  - unfold DrawingStateManager.loadState.
    destruct file; cbn; [by rewrite lookup_insert_ne | done].
  - exact Hcreate.
Qed.

Lemma manager_operations_leave_other_rooms_alone_witness :
  DrawingStateManager.clearState 5 "ROOM42"
    (<["OTHER" := Samples.two_strokes]> (Server.states Samples.room42))
    !! "OTHER"
  = (<["OTHER" := Samples.two_strokes]> (Server.states Samples.room42))
      !! "OTHER".
Proof.
  apply (manager_operations_leave_other_rooms_alone 5 "ROOM42" "OTHER" None
           "A" None).
  done.
Defined.

End ManagerRooms.

(** ** The handlers: who is told what, and what is kept *)

Section Handlers.

Import Server ServerSpec.

Lemma broadcast_filter room data ex w :
  broadcast room data ex w
  = (fun u => Send (u_id u) data)
      <$> List.filter (fun u => negb (bool_decide (Some (u_id u) = ex))
                                && ws_open (u_ws u))
            (getUsers room w).
Proof.
  unfold broadcast. induction (getUsers room w) as [| u l IH]; [done |].
  cbn. destruct (negb _ && _); cbn; by rewrite IH.
Qed.

(** X11.  [broadcast] writes to exactly the members of the room whose
    socket is open and whose id is not the excluded one, in the room's
    order, and always the same data; to a room that does not exist it
    writes nothing. *)
Theorem broadcast_reaches_open_members_except_excluded room data ex w :
  broadcast room data ex w
  = (fun u => Send (u_id u) data)
      <$> List.filter (fun u => negb (bool_decide (Some (u_id u) = ex))
                                && ws_open (u_ws u))
            (getUsers room w)
  /\ (rooms w !! room = None -> broadcast room data ex w = []).
Proof.
  split; [apply broadcast_filter |].
  intros Hnone. unfold broadcast, getUsers. by rewrite Hnone.
Qed.

Lemma broadcast_rooms room data ex w w' :
  rooms w = rooms w' -> broadcast room data ex w = broadcast room data ex w'.
Proof. unfold broadcast, getUsers. by intros ->. Qed.

Lemma broadcast_Forall (P : Effect -> Prop) room data ex w :
  (forall u, u ∈ getUsers room w -> Some (u_id u) <> ex ->
             ws_open (u_ws u) = true -> P (Send (u_id u) data)) ->
  Forall P (broadcast room data ex w).
Proof.
  intros H. unfold broadcast. apply Forall_forall. intros e He.
  apply list_elem_of_omap in He as (u & Hu & Heq).
  destruct (negb (bool_decide (Some (u_id u) = ex)) && ws_open (u_ws u))
    eqn:Hc; [| done].
  injection Heq as <-. apply andb_true_iff in Hc as [Hne Hopen].
  apply negb_true_iff, bool_decide_eq_false in Hne. by apply H.
Qed.

Lemma handleDrawEvent_cases now ws msg w :
  handleDrawEvent now ws msg w = done_with w ws []
  \/ exists room,
       truthy_str (ws_roomId ws) = Some room
       /\ isValidDrawData msg = true
       /\ ((type_is msg "draw-end" = false
            /\ handleDrawEvent now ws msg w
               = done_with w ws
                   (broadcast room (WObject (tagged ws msg))
                      (Some (ws_id ws)) w))
           \/ (type_is msg "draw-end" = true
               /\ exists w',
                    rooms w' = rooms w
                    /\ handleDrawEvent now ws msg w
                       = done_with w' ws
                           (saveState room w'
                            ++ broadcast room (WObject (tagged ws msg))
                                 (Some (ws_id ws)) w))).
Proof.
  unfold handleDrawEvent.
  destruct (truthy_str (ws_roomId ws)) as [room |]; [| by left].
  destruct (isValidDrawData msg) eqn:Hv; cbn [negb]; [| by left].
  right. exists room. split_and!; [done | done |].
  fold (tagged ws msg).
  assert (Ht : type_is (tagged ws msg) "draw-end" = type_is msg "draw-end").
  { unfold type_is, tagged. by rewrite !lookup_insert_ne. }
  rewrite Ht. destruct (type_is msg "draw-end"); [right | left]; split; try done.
  eexists. split; [| reflexivity]. done.
Qed.

(** X12.  Whatever a draw event forwards, it forwards under the sender's
    own identity: every message written to a socket goes to somebody other
    than the sender and carries the sender's connection id as [userId] and
    the sender's name as [username], replacing whatever the client had put
    there; every other property is the client's. *)
Theorem draw_event_is_forwarded_under_sender_identity now ws msg w :
  Forall (fun e =>
            match e with
            | Send to (WObject m) =>
                to <> ws_id ws
                /\ m !! "userId" = Some (JStr (ws_id ws))
                /\ m !! "username" = Some (js_of_str (ws_username ws))
                /\ forall k, k <> "userId" -> k <> "username" ->
                             m !! k = msg !! k
            | Send _ _ => False
            | WriteFile _ _ => True
            end)
    (effects (handleDrawEvent now ws msg w)).
Proof.
  assert (Hb : forall room,
    Forall (fun e =>
              match e with
              | Send to (WObject m) =>
                  to <> ws_id ws
                  /\ m !! "userId" = Some (JStr (ws_id ws))
                  /\ m !! "username" = Some (js_of_str (ws_username ws))
                  /\ forall k, k <> "userId" -> k <> "username" ->
                               m !! k = msg !! k
              | Send _ _ => False
              | WriteFile _ _ => True
              end)
      (broadcast room (WObject (tagged ws msg)) (Some (ws_id ws)) w)).
  { intros room. apply broadcast_Forall. intros u _ Hne _.
    unfold tagged. split_and!.
    - congruence.
    - by rewrite lookup_insert_ne, lookup_insert_eq.
    - by rewrite lookup_insert_eq.
    - intros k H1 H2. by rewrite !lookup_insert_ne. }
  destruct (handleDrawEvent_cases now ws msg w)
    as [-> | (room & _ & _ & [[_ ->] | [_ (w' & _ & ->)]])]; cbn [effects done_with].
  - constructor.
  - apply Hb.
  - apply Forall_app. split; [| apply Hb].
    unfold saveState. destruct (DrawingStateManager.saveState room _);
      by repeat constructor.
Qed.

(** X13.  A draw event whose type is not [draw-end] (a [draw-start] or a
    [draw-move]) leaves the world as it was, action logs included, and
    writes no file. *)
Theorem draw_start_and_move_leave_no_record now ws msg w :
  type_is msg "draw-end" = false ->
  world (handleDrawEvent now ws msg w) = w
  /\ Forall (fun e => match e with WriteFile _ _ => False | _ => True end)
       (effects (handleDrawEvent now ws msg w)).
Proof.
  intros Ht.
  destruct (handleDrawEvent_cases now ws msg w)
    as [-> | (room & _ & _ & [[_ ->] | [Hend _]])];
    [| | congruence]; cbn [effects world done_with].
  - by split.
  - split; [done |]. by apply broadcast_Forall.
Qed.

Lemma draw_start_and_move_leave_no_record_witness :
  world (handleDrawEvent 1 Samples.alice Samples.near_draw_move Samples.room42)
  = Samples.room42.
Proof.
  apply (draw_start_and_move_leave_no_record 1 Samples.alice
           Samples.near_draw_move Samples.room42).
  reflexivity.
Defined.

(** X14.  A [draw-start] or [draw-move] whose x or y is not a number or
    lies beyond 10000 in absolute value, and a [draw-end] whose path is not
    an array or has more than 10000 entries, is dropped: nothing is sent,
    nothing is written, the world is unchanged. *)
Theorem malformed_draw_event_is_dropped now ws msg w :
  ((type_is msg "draw-start" = true \/ type_is msg "draw-move" = true)
   /\ (is_number (msg !! "x") = false \/ is_number (msg !! "y") = false
       \/ abs_gt_10000 (msg !! "x") = true
       \/ abs_gt_10000 (msg !! "y") = true))
  \/ (type_is msg "draw-end" = true
      /\ (isArray (msg !! "path") = false
          \/ exists p, msg !! "path" = Some (JArr p)
                       /\ 10000 < Z.of_nat (length p))) ->
  handleDrawEvent now ws msg w = done_with w ws [].
Proof.
  intros Hbad.
  assert (Hv : isValidDrawData msg = false).
  { unfold isValidDrawData. destruct (msg !! "type") as [ty |] eqn:Hty; [| done].
    destruct (truthy ty); cbn [negb]; [| done].
    destruct Hbad as [[Hsm Hxy] | [Hend Hp]].
    - assert (Hsm' : type_is msg "draw-start" || type_is msg "draw-move" = true)
        by (destruct Hsm as [-> | ->]; [done | by rewrite orb_true_r]).
      rewrite Hsm'. cbn [andb].
      destruct (negb (is_number (msg !! "x")) || negb (is_number (msg !! "y")))
        eqn:Hn; [done |].
      apply orb_false_iff in Hn as [Hnx Hny].
      apply negb_false_iff in Hnx, Hny.
      destruct Hxy as [Hx | [Hy | [Hx | Hy]]]; try congruence.
      + by rewrite Hx.
      + by rewrite Hy, orb_true_r.
    - rewrite Hend. destruct (type_is msg "draw-start" || type_is msg "draw-move").
      + cbn [andb]. destruct (_ || _); [done |]. destruct (_ || _); [done |].
        cbn [andb]. destruct Hp as [Hp | (p & -> & Hp)].
        * destruct (msg !! "path") as [[] |]; try done.
        * by destruct (Z.ltb_spec 10000 (Z.of_nat (length p))); [| lia].
      + cbn [andb]. destruct Hp as [Hp | (p & -> & Hp)].
        * destruct (msg !! "path") as [[] |]; try done.
        * by destruct (Z.ltb_spec 10000 (Z.of_nat (length p))); [| lia]. }
  unfold handleDrawEvent. destruct (truthy_str (ws_roomId ws)); [| done].
  by rewrite Hv.
Qed.

Lemma malformed_draw_event_is_dropped_witness :
  handleDrawEvent 1 Samples.alice Samples.far_draw_move Samples.room42
  = done_with Samples.room42 Samples.alice [].
Proof.
  apply malformed_draw_event_is_dropped. left. split; [by right |].
  right. right. by left.
Defined.

(** X15.  A [draw-end] with a path of at most 10000 entries, from a joined
    connection, appends one action to the room's log (creating the log if
    the room had none): the action is authored by the connection, typed
    [draw-end], and carries the message's tool, color, size, path and
    anchor.  The file written holds the log with that action, and it is
    written before the event is forwarded to the other members. *)
Theorem draw_end_is_logged_saved_then_forwarded now ws room msg p w :
  truthy_str (ws_roomId ws) = Some room ->
  msg !! "type" = Some (JStr "draw-end") ->
  msg !! "path" = Some (JArr p) ->
  Z.of_nat (length p) <= 10000 ->
  let before := default (DrawingState.new room now) (states w !! room) in
  let after :=
    (DrawingState.addAction now
       (Some (DrawingState.mkInput (Some (ws_id ws)) "draw-end"
                (DrawingState.mkPayload (msg !! "tool") (msg !! "color")
                   (msg !! "size") (msg !! "path")
                   (msg !! "startX") (msg !! "startY"))))
       before).1 in
  handleDrawEvent now ws msg w
  = done_with {| rooms := rooms w; states := <[room := after]> (states w) |} ws
      (WriteFile room (DrawingState.toJSON after)
       :: broadcast room (WObject (tagged ws msg)) (Some (ws_id ws)) w).
Proof.
  intros Hroom Hty Hpath Hlen before after.
  unfold handleDrawEvent. rewrite Hroom.
  assert (Hv : isValidDrawData msg = true).
  { unfold isValidDrawData, type_is. rewrite Hty, Hpath. cbn.
    by destruct (Z.ltb_spec 10000 (Z.of_nat (length p))); [lia |]. }
  rewrite Hv. cbn [negb]. fold (tagged ws msg).
  assert (Ht : type_is (tagged ws msg) "draw-end" = true).
  { unfold type_is, tagged. by rewrite !lookup_insert_ne, Hty. }
  rewrite Ht.
  assert (Hk : forall k, k <> "userId" -> k <> "username" ->
                         tagged ws msg !! k = msg !! k).
  { intros k H1 H2. unfold tagged. by rewrite !lookup_insert_ne. }
  rewrite !Hk by done.
  assert (Hst : DrawingStateManager.addAction now room
                  (Some (DrawingState.mkInput (Some (ws_id ws)) "draw-end"
                           (DrawingState.mkPayload (msg !! "tool")
                              (msg !! "color") (msg !! "size") (msg !! "path")
                              (msg !! "startX") (msg !! "startY"))))
                  (states w)
                = <[room := after]> (states w)).
  { unfold DrawingStateManager.addAction, DrawingStateManager.createState.
    subst after before. destruct (states w !! room) as [s |]; cbn; [done |].
    by rewrite insert_insert_eq. }
  rewrite Hst. unfold done_with. f_equal.
  unfold saveState, DrawingStateManager.saveState. cbn [states].
  by rewrite lookup_insert_eq.
Qed.

Lemma draw_end_is_logged_saved_then_forwarded_witness :
  exists after,
    handleDrawEvent 9 Samples.alice Samples.stroke_end Samples.room42
    = done_with
        {| rooms := rooms Samples.room42;
           states := <["ROOM42" := after]> (states Samples.room42) |}
        Samples.alice
        (WriteFile "ROOM42" (DrawingState.toJSON after)
         :: broadcast "ROOM42"
              (WObject (ServerSpec.tagged Samples.alice Samples.stroke_end))
              (Some "alice-id") Samples.room42)
    /\ DrawingState.id <$> DrawingState.actions after = [1].
Proof.
  eexists. split.
  - apply (draw_end_is_logged_saved_then_forwarded 9 Samples.alice "ROOM42"
             Samples.stroke_end [JNum 1; JNum 2; JNum 3] Samples.room42);
      [reflexivity | reflexivity | reflexivity | cbn; lia].
  - reflexivity.
Defined.

(** X16.  A [canvas-clear] from a joined connection replaces the room's log
    by the clear marker alone, writes [canvas-clear] to every member of the
    room whose socket is open, the requester included, and then writes the
    cleared log to the room's file. *)
Theorem canvas_clear_resets_log_and_tells_everyone now ws room s w :
  truthy_str (ws_roomId ws) = Some room ->
  states w !! room = Some s ->
  handleCanvasClear now ws w
  = done_with
      {| rooms := rooms w;
         states := <[room := DrawingStateManager.clearState_on now s]>
                     (states w) |} ws
      (((fun u => Send (u_id u) (WCanvasClear (ws_id ws)))
          <$> List.filter (fun u => ws_open (u_ws u)) (getUsers room w))
       ++ [WriteFile room
             (DrawingState.toJSON (DrawingStateManager.clearState_on now s))]).
Proof.
  intros Hroom Hs. unfold handleCanvasClear. rewrite Hroom.
  unfold DrawingStateManager.clearState. rewrite Hs.
  unfold done_with. f_equal. f_equal.
  - by rewrite broadcast_filter.
  - unfold saveState, DrawingStateManager.saveState. cbn [states].
    by rewrite lookup_insert_eq.
Qed.

Lemma canvas_clear_resets_log_and_tells_everyone_witness :
  effects (handleCanvasClear 9 Samples.alice Samples.busy_room42)
  = [Send "alice-id" (WCanvasClear "alice-id");
     Send "bob-id" (WCanvasClear "alice-id");
     WriteFile "ROOM42"
       (DrawingState.toJSON
          (DrawingStateManager.clearState_on 9 Samples.three_strokes))].
Proof.
  rewrite (canvas_clear_resets_log_and_tells_everyone 9 Samples.alice "ROOM42"
             Samples.three_strokes Samples.busy_room42 eq_refl eq_refl).
  reflexivity.
Defined.





(** X17.  From a connection that has not joined a room, every typed
    message other than [join-room] and [ping] is ignored: nothing is sent,
    nothing is written, nothing changes. *)
Theorem unjoined_connection_is_ignored
    (handleJoinRoom : Z -> Conn -> gmap string JsVal -> World -> Outcome)
    now ws t m w :
  truthy_str (ws_roomId ws) = None ->
  m !! "type" = Some (JStr t) ->
  t <> "" -> t <> "join-room" -> t <> "ping" ->
  handleMessage handleJoinRoom now ws (JObj m) w = done_with w ws [].
Proof.
  intros Hroom Hty Hne Hj Hp. unfold handleMessage. rewrite Hty. cbn [truthy].
  apply String.eqb_neq in Hne, Hj, Hp. rewrite Hne. cbn [negb].
  unfold dispatch. rewrite Hj, Hp.
  unfold handleDrawEvent, handleDrawBatch, handleCursorMove, handleCanvasClear,
    handleUndoGlobal, handleUndoMy, handleRedoGlobal, rebuild_after.
  rewrite Hroom.
  repeat (match goal with
          | |- context [if ?c then _ else _] => destruct c
          end); reflexivity.
Qed.

Lemma unjoined_connection_is_ignored_witness :
  handleMessage (fun _ ws _ w => done_with w ws []) 1 Samples.stranger
    (JObj Samples.stroke_end) Samples.room42
  = done_with Samples.room42 Samples.stranger [].
Proof.
  apply (unjoined_connection_is_ignored _ 1 Samples.stranger "draw-end");
    done.
Defined.

Lemma batch_loop_app ws room w pre rest :
  Forall (fun v => v <> JNull) pre ->
  batch_loop ws room w (pre ++ rest)
  = ((batch_loop ws room w pre).1 ++ (batch_loop ws room w rest).1,
     (batch_loop ws room w rest).2).
Proof.
  induction 1 as [| v pre Hv _ IH]; cbn [app batch_loop].
  - by destruct (batch_loop ws room w rest).
  - destruct v as [| | | | |f]; try done.
    destruct (negb (is_number (f !! "x")) || negb (is_number (f !! "y")));
      [done |].
    rewrite IH. destruct (batch_loop ws room w pre) as [es ex].
    cbn. by rewrite app_assoc.
Qed.

Lemma batch_loop_numeric ws room w moves :
  Forall (fun v => v <> JNull) moves ->
  batch_loop ws room w moves
  = (concat ((fun f => broadcast room (WObject (batch_move_object ws f))
                         (Some (ws_id ws)) w) <$> numeric_moves moves),
     false).
Proof.
  induction 1 as [| v moves Hv _ IH]; [done |].
  cbn [batch_loop numeric_moves omap list_omap]. fold (numeric_moves moves).
  destruct v as [| | | | |f]; try done.
  destruct (is_number (f !! "x")), (is_number (f !! "y")); cbn; try done.
  by rewrite IH.
Qed.

(** X18.  A [null] among the moves of a batch stops the batch there: the
    numeric moves before it have been forwarded, the moves after it are
    never looked at, and the sender is sent the error [Invalid JSON]. *)
Theorem null_move_aborts_batch
    (handleJoinRoom : Z -> Conn -> gmap string JsVal -> World -> Outcome)
    now ws room pre post m w :
  truthy_str (ws_roomId ws) = Some room ->
  m !! "type" = Some (JStr "draw-batch") ->
  m !! "moves" = Some (JArr (pre ++ JNull :: post)) ->
  Forall (fun v => v <> JNull) pre ->
  onMessage handleJoinRoom now ws (JObj m) w
  = done_with w ws
      (concat ((fun f => broadcast room (WObject (batch_move_object ws f))
                           (Some (ws_id ws)) w) <$> numeric_moves pre)
       ++ send ws (WError "Invalid JSON")).
Proof.
  intros Hroom Hty Hmoves Hpre.
  unfold onMessage, handleMessage. rewrite Hty. cbn [truthy String.eqb negb].
  unfold dispatch. cbn.
  unfold handleDrawBatch. rewrite Hroom, Hmoves.
  rewrite bool_decide_eq_false_2
    by (rewrite length_app; cbn; lia).
  rewrite (batch_loop_app ws room w pre _ Hpre).
  rewrite (batch_loop_numeric ws room w pre Hpre).
  cbn. by rewrite app_nil_r.
Qed.

Lemma null_move_aborts_batch_witness :
  effects
    (onMessage (fun _ ws _ w => done_with w ws []) 1 Samples.alice
       (JObj (<["type" := JStr "draw-batch"]>
                (<["moves" := JArr [JObj Samples.far_move; JNull;
                                    JObj Samples.far_move]]> ∅)))
       Samples.room42)
  = [Send "bob-id"
       (WObject (batch_move_object Samples.alice Samples.far_move));
     Send "alice-id" (WError "Invalid JSON")].
Proof.
  rewrite (null_move_aborts_batch _ 1 Samples.alice "ROOM42"
             [JObj Samples.far_move] [JObj Samples.far_move]);
    [reflexivity | reflexivity | reflexivity | reflexivity |].
  by repeat constructor.
Defined.

(** X19.  A batch without [null] elements forwards each element that is
    an object with numeric x and y as one [draw-move] to every other open
    member, in order, and skips the rest; it changes nothing in the world
    and writes no file, and an empty batch does nothing at all. *)
Theorem batch_forwards_each_numeric_move
    (handleJoinRoom : Z -> Conn -> gmap string JsVal -> World -> Outcome)
    now ws room moves m w :
  truthy_str (ws_roomId ws) = Some room ->
  m !! "type" = Some (JStr "draw-batch") ->
  m !! "moves" = Some (JArr moves) ->
  Forall (fun v => v <> JNull) moves ->
  onMessage handleJoinRoom now ws (JObj m) w
  = done_with w ws
      (concat ((fun f => broadcast room (WObject (batch_move_object ws f))
                           (Some (ws_id ws)) w) <$> numeric_moves moves)).
Proof.
  intros Hroom Hty Hmoves Hall.
  unfold onMessage, handleMessage. rewrite Hty. cbn [truthy String.eqb negb].
  unfold dispatch. cbn.
  unfold handleDrawBatch. rewrite Hroom, Hmoves.
  case_bool_decide as Hlen.
  - destruct moves; [done | discriminate].
  - by rewrite (batch_loop_numeric ws room w moves Hall).
Qed.

Lemma batch_forwards_each_numeric_move_witness :
  effects
    (onMessage (fun _ ws _ w => done_with w ws []) 1 Samples.alice
       (JObj (<["type" := JStr "draw-batch"]>
                (<["moves" := JArr [JStr "x"; JObj Samples.far_move]]> ∅)))
       Samples.room42)
  = [Send "bob-id"
       (WObject (batch_move_object Samples.alice Samples.far_move))].
Proof.
  rewrite (batch_forwards_each_numeric_move _ 1 Samples.alice "ROOM42"
             [JStr "x"; JObj Samples.far_move]);
    [reflexivity | reflexivity | reflexivity | reflexivity |].
  by repeat constructor.
Defined.



(** X20.  An undo or redo request that finds an action flips it in the
    room's log, writes a [canvas-rebuild] carrying the whole log as it is
    after the flip and the id of the flipped action to every open member,
    the requester included, and then writes that same log to the room's
    file. *)
Theorem successful_request_rebuilds_everyone_then_saves r now ws room s w :
  truthy_str (ws_roomId ws) = Some room ->
  states w !! room = Some s ->
  nothing_eligible r ws w = false ->
  exists a,
    (log_operation r now ws s).2 = Some a
    /\ handleRequest r now ws w
       = done_with
           {| rooms := rooms w;
              states := <[room := (log_operation r now ws s).1]> (states w) |}
           ws
           (((fun u =>
                Send (u_id u)
                  (WCanvasRebuild
                     (Some (DrawingState.getState (log_operation r now ws s).1))
                     (undoType r) (DrawingState.id a) (ws_username ws)))
               <$> List.filter (fun u => ws_open (u_ws u)) (getUsers room w))
            ++ [WriteFile room
                  (DrawingState.toJSON (log_operation r now ws s).1)]).
Proof.
  intros Hroom Hs Hsome. unfold nothing_eligible in Hsome.
  rewrite Hroom, Hs in Hsome.
  destruct (DrawingState.scan (eligible r ws) (DrawingState.actions s)
              (length (DrawingState.actions s))) as [i |] eqn:Hscan; [| done].
  assert (Hop : exists a, (log_operation r now ws s).2 = Some a).
  { destruct r; cbn [log_operation eligible] in *;
      unfold DrawingState.undoGlobal, DrawingState.undoForUser,
        DrawingState.redoGlobal, DrawingState.flip_found;
      rewrite Hscan;
      destruct (scan_Some _ _ _ _ Hscan) as (_ & a & Hi & _);
      rewrite Hi; by eexists. }
  destruct Hop as [a Ha]. exists a. split; [done |].
  assert (Hrun : forall undoT,
    rebuild_after
      (fun room m => DrawingStateManager.on_state (log_operation r now ws) room m)
      undoT ws w
    = done_with
        {| rooms := rooms w;
           states := <[room := (log_operation r now ws s).1]> (states w) |}
        ws
        (((fun u =>
             Send (u_id u)
               (WCanvasRebuild
                  (Some (DrawingState.getState (log_operation r now ws s).1))
                  undoT (DrawingState.id a) (ws_username ws)))
            <$> List.filter (fun u => ws_open (u_ws u)) (getUsers room w))
         ++ [WriteFile room
               (DrawingState.toJSON (log_operation r now ws s).1)])).
  { intros undoT. unfold rebuild_after, DrawingStateManager.on_state.
    rewrite Hroom, Hs.
    destruct (log_operation r now ws s) as [s' res] eqn:Hres.
    cbn [fst snd] in *. subst res. unfold done_with. f_equal. f_equal.
    - unfold DrawingStateManager.getState. rewrite lookup_insert_eq. cbn.
      by rewrite broadcast_filter.
    - unfold saveState, DrawingStateManager.saveState. cbn [states].
      by rewrite lookup_insert_eq. }
  destruct r; apply Hrun.
Qed.

Lemma successful_request_rebuilds_everyone_then_saves_witness :
  exists a,
    (ServerSpec.log_operation UndoGlobal 9 Samples.alice Samples.three_strokes).2
      = Some a
    /\ DrawingState.id a = 3.
Proof.
  assert (Hsome : nothing_eligible UndoGlobal Samples.alice Samples.busy_room42
                  = false) by (vm_compute; reflexivity).
  destruct (successful_request_rebuilds_everyone_then_saves UndoGlobal 9
              Samples.alice "ROOM42" Samples.three_strokes Samples.busy_room42
              eq_refl eq_refl Hsome) as (a & Ha & _).
  exists a. split; [exact Ha |].
  cbn in Ha. injection Ha as <-. reflexivity.
Defined.

End Handlers.

(** ** Joining and leaving *)

Section JoinAndLeave.

Import Lifecycle LifecycleSpec.

Lemma length_string_of_list_ascii l :
  String.length (string_of_list_ascii l) = length l.
Proof. induction l as [| c l IH]; cbn; [done | by rewrite IH]. Qed.

Lemma trim_start_suffix s : trim_start s `suffix_of` s.
Proof.
  induction s as [| c s IH]; cbn; [done |].
  destruct (is_space c); [by apply suffix_cons_r | done].
Qed.

Lemma Forall_trim_start (P : ascii -> Prop) s :
  Forall P s -> Forall P (trim_start s).
Proof.
  intros H. destruct (trim_start_suffix s) as [k Hk].
  rewrite Hk in H. by apply Forall_app in H as [_ H].
Qed.

Lemma Forall_trim (P : ascii -> Prop) s : Forall P s -> Forall P (trim s).
Proof.
  intros H. unfold trim.
  apply Forall_rev, Forall_trim_start, Forall_rev, Forall_trim_start, H.
Qed.

Lemma trim_start_head s :
  match trim_start s with [] => True | c :: _ => is_space c = false end.
Proof.
  induction s as [| c s IH]; cbn; [done |].
  destruct (is_space c) eqn:Hc; [done | by cbn].
Qed.

Lemma trim_start_id s :
  match s with [] => True | c :: _ => is_space c = false end ->
  trim_start s = s.
Proof. destruct s as [| c s]; cbn; [done |]. by intros ->. Qed.

Lemma strip_tags_id s :
  Forall (fun c => is_char c "<" = false) s -> strip_tags false s = s.
Proof.
  induction 1 as [| c s Hc _ IH]; cbn; [done |]. by rewrite Hc, IH.
Qed.

Lemma filter_id {A} (f : A -> bool) l :
  Forall (fun x => f x = true) l -> List.filter f l = l.
Proof. induction 1 as [| x l Hx _ IH]; cbn; [done |]. by rewrite Hx, IH. Qed.

Lemma Forall_filter_neg {A} (f : A -> bool) l :
  Forall (fun x => f x = false) (List.filter (fun x => negb (f x)) l).
Proof.
  induction l as [| x l IH]; cbn; [constructor |].
  destruct (f x) eqn:Hx; cbn; [done | by constructor].
Qed.

Lemma sanitize_units_spec s maxLen :
  (length (sanitize_units s maxLen) <= maxLen)%nat
  /\ Forall (fun c => markup c = false) (sanitize_units s maxLen).
Proof.
  unfold sanitize_units. split.
  - rewrite length_take. lia.
  - apply Forall_take, Forall_trim, Forall_filter_neg.
Qed.

Lemma trim_head s :
  match trim s with [] => True | c :: _ => is_space c = false end.
Proof.
  unfold trim.
  pose proof (trim_start_head (rev (trim_start s))) as H1.
  pose proof (trim_start_head s) as H0.
  destruct (trim_start_suffix (rev (trim_start s))) as [k Hk].
  (* rev (trim_start s) = k ++ t, so trim_start s = rev t ++ rev k *)
  set (t := trim_start (rev (trim_start s))) in *.
  assert (Hs : trim_start s = rev t ++ rev k).
  { rewrite <- (rev_involutive (trim_start s)), Hk, rev_app_distr. done. }
  destruct (rev t) as [| c r] eqn:Hr; [done |].
  rewrite Hs in H0. exact H0.
Qed.

(** X21.  [sanitize] never returns more than [maxLen] units, never returns
    a less-than, greater-than, quotation mark, apostrophe or ampersand, and
    never starts with white space; and a string that is already short
    enough, free of those five units and of white space at either end comes
    back unchanged. *)
Theorem sanitize_output_is_short_and_free_of_markup str maxLen :
  (String.length (sanitize str maxLen) <= maxLen)%nat
  /\ Forall (fun c => markup c = false)
       (list_ascii_of_string (sanitize str maxLen))
  /\ match list_ascii_of_string (sanitize str maxLen) with
     | [] => True
     | c :: _ => is_space c = false
     end
  /\ (forall s,
        str = Some (JStr s) ->
        (String.length s <= maxLen)%nat ->
        Forall (fun c => markup c = false) (list_ascii_of_string s) ->
        match list_ascii_of_string s with
        | [] => True
        | c :: _ => is_space c = false
        end ->
        match rev (list_ascii_of_string s) with
        | [] => True
        | c :: _ => is_space c = false
        end ->
        sanitize str maxLen = s).
Proof.
  assert (Hunits : forall s,
    sanitize (Some (JStr s)) maxLen
    = string_of_list_ascii (sanitize_units (list_ascii_of_string s) maxLen)).
  { intros s. unfold sanitize. destruct (String.eqb_spec s "") as [-> | _];
      [| done].
    cbn. unfold sanitize_units. cbn. by destruct maxLen. }
  split_and!.
  - destruct str as [[| | | s | |] |]; try (cbn; lia).
    rewrite Hunits, length_string_of_list_ascii.
    apply sanitize_units_spec.
  - destruct str as [[| | | s | |] |]; try (cbn; constructor).
    rewrite Hunits, list_ascii_of_string_of_list_ascii.
    apply sanitize_units_spec.
  - destruct str as [[| | | s | |] |]; try (cbn; done).
    rewrite Hunits, list_ascii_of_string_of_list_ascii.
    unfold sanitize_units.
    pose proof (trim_head (List.filter (fun c => negb (markup c))
                             (strip_tags false (list_ascii_of_string s)))) as H.
    destruct (trim _) as [| c r]; [by rewrite take_nil |].
    destruct maxLen; cbn; done.
  - intros s -> Hlen Hclean Hhead Hlast. rewrite Hunits.
    rewrite <- (string_of_list_ascii_of_string s) at 2. f_equal.
    assert (Hl : String.length s = length (list_ascii_of_string s)).
    { rewrite <- (string_of_list_ascii_of_string s) at 1.
      apply length_string_of_list_ascii. }
    set (l := list_ascii_of_string s) in *.
    unfold sanitize_units.
    rewrite strip_tags_id.
    2:{ eapply Forall_impl; [exact Hclean |]. intros c Hc. unfold markup in Hc.
        by destruct (is_char c "<"). }
    rewrite filter_id.
    2:{ eapply Forall_impl; [exact Hclean |]. by intros c ->. }
    unfold trim. rewrite (trim_start_id l Hhead), (trim_start_id _ Hlast).
    rewrite rev_involutive. apply take_ge. lia.
Qed.

Example sanitize_examples :
  sanitize (Some (JStr "  <b>Ann</b> & co  ")) 20 = "Ann  co"
  /\ sanitize (Some (JStr "a<b")) 20 = "ab"
  /\ sanitize (Some (JStr "x<y>z<")) 20 = "xz"
  /\ sanitize (Some (JStr "<<>>")) 20 = ""
  /\ sanitize (Some (JStr "abcdefghij          klm")) 12 = "abcdefghij  "
  /\ sanitize (Some (JNum 5)) 20 = ""
  /\ sanitize None 20 = "".
Proof. repeat split. Qed.

Lemma upper_alnum_alnum c : Forall (fun d => alnum d = true) (upper_alnum c).
Proof.
  assert (H : forallb (fun n => forallb alnum (upper_alnum (ascii_of_nat n)))
                (seq 0 256) = true) by (vm_compute; reflexivity).
  rewrite forallb_forall in H.
  specialize (H (nat_of_ascii c)). rewrite ascii_nat_embedding in H.
  apply Forall_forall. intros d Hd.
  assert (Hc : forallb alnum (upper_alnum c) = true).
  { apply H, in_seq. pose proof (nat_ascii_bounded c). lia. }
  rewrite forallb_forall in Hc. apply Hc. by apply list_elem_of_In.
Qed.

Lemma upper_alnum_id c : alnum c = true -> upper_alnum c = [c].
Proof.
  assert (H : forallb (fun n => implb (alnum (ascii_of_nat n))
                                  (bool_decide (upper_alnum (ascii_of_nat n)
                                                = [ascii_of_nat n])))
                (seq 0 256) = true) by (vm_compute; reflexivity).
  rewrite forallb_forall in H.
  assert (Hin : In (nat_of_ascii c) (seq 0 256)).
  { apply in_seq. pose proof (nat_ascii_bounded c). lia. }
  specialize (H _ Hin). rewrite ascii_nat_embedding in H.
  intros Hc. rewrite Hc in H. cbn [implb] in H.
  by apply bool_decide_eq_true in H.
Qed.

(** X22.  The room id that [handleJoinRoom] makes of a requested string has
    at most ten units, all of them capital letters A-Z or digits; a string
    that already is like that is kept as it is. *)
Theorem clean_room_id_is_short_upper_alnum s :
  (String.length (clean_room_id s) <= 10)%nat
  /\ Forall (fun c => alnum c = true) (list_ascii_of_string (clean_room_id s))
  /\ ((String.length s <= 10)%nat ->
      Forall (fun c => alnum c = true) (list_ascii_of_string s) ->
      clean_room_id s = s).
Proof.
  unfold clean_room_id. split_and!.
  - rewrite length_string_of_list_ascii, length_take. lia.
  - rewrite list_ascii_of_string_of_list_ascii. apply Forall_take.
    induction (list_ascii_of_string s) as [| c l IH]; cbn; [constructor |].
    apply Forall_app. split; [apply upper_alnum_alnum | done].
  - intros Hlen Hall.
    rewrite <- (string_of_list_ascii_of_string s) at 2. f_equal.
    assert (Hl : String.length s = length (list_ascii_of_string s)).
    { rewrite <- (string_of_list_ascii_of_string s) at 1.
      apply length_string_of_list_ascii. }
    assert (Hid : flat_map upper_alnum (list_ascii_of_string s)
                  = list_ascii_of_string s).
    { clear Hlen Hl. induction Hall as [| c l Hc _ IH]; cbn; [done |].
      by rewrite (upper_alnum_id c Hc), IH. }
    rewrite Hid. apply take_ge. lia.
Qed.

Example clean_room_id_examples :
  clean_room_id "room-42" = "ROOM42"
  /\ clean_room_id "abcdefghijklmnop" = "ABCDEFGHIJ"
  /\ clean_room_id "!!!" = ""
  /\ clean_room_id (String (ascii_of_nat 223) "x") = "SSX".
Proof. repeat split. Qed.

Lemma requested_name_nonempty msg : String.eqb (requested_name msg) "" = false.
Proof.
  unfold requested_name.
  destruct (String.eqb (sanitize (msg !! "username") 20) "") eqn:H; done.
Qed.

Lemma truthy_str_Some r : r <> "" -> Server.truthy_str (Some r) = Some r.
Proof. intros H. cbn. by apply String.eqb_neq in H as ->. Qed.

(** X23.  Joining with a requested room id that cleans to a non-empty id
    nobody has opened creates the room under exactly that id, with the
    joiner as its only member.  The room's log is the one read from the
    room's file if there is one, else the log already in memory, else an
    empty one.  The connection takes the room id and the sanitised name;
    the joiner, its socket being open, is sent [room-joined] and then, if
    the log is not empty, [state-sync]; nobody else is told anything. *)
Theorem join_unknown_room_creates_it now rnd disk ws msg s r w :
  msg !! "roomId" = Some (JStr s) ->
  clean_room_id s = r -> r <> "" ->
  rooms w !! r = None ->
  Server.ws_id ws <> "" ->
  let log := match disk r with
             | Some file => DrawingState.fromJSON now file
             | None => default (DrawingState.new r now) (states w !! r)
             end in
  handleJoinRoom now rnd disk ws msg w
  = {| world :=
         {| rooms := <[r := Rooms.mkRoom r [joiner now ws msg r] now now]>
                       (rooms w);
            states := <[r := log]> (states w) |};
       conn := Rooms.m_ws (joiner now ws msg r);
       effects :=
         (if Server.ws_open ws
          then [Core (Server.Send (Server.ws_id ws)
                        (room_joined ws r [joiner now ws msg r]))]
          else [])
         ++ state_sync ws (Some log);
       thrown := false |}.
Proof.
  intros Hmsg Hclean Hr Hnew Hid log.
  assert (Hs : s <> "").
  { intros ->. apply Hr. by rewrite <- Hclean. }
  unfold handleJoinRoom, requested_room. rewrite Hmsg. cbn [Server.truthy].
  apply String.eqb_neq in Hs. rewrite Hs. cbn [negb]. rewrite Hclean.
  rewrite (truthy_str_Some r Hr), Hnew.
  unfold open_room, RoomManager.createRoom.
  rewrite (truthy_str_Some r Hr), Hnew.
  unfold Rooms.new. rewrite (truthy_str_Some r Hr).
  cbn [default from_option Rooms.id]. unfold id.
  assert (Hstates :
    (let '(states1, loaded) :=
       DrawingStateManager.loadState now r (disk r) (states w) in
     if loaded then states1
     else (DrawingStateManager.createState now r states1).1)
    = <[r := log]> (states w)).
  { subst log. unfold DrawingStateManager.loadState.
    destruct (disk r) as [file |]; [done |].
    unfold DrawingStateManager.createState.
    destruct (states w !! r) as [s0 |] eqn:Hs0; cbn; [| done].
    by rewrite insert_id. }
  destruct (DrawingStateManager.loadState now r (disk r) (states w))
    as [states1 loaded].
  cbn [rooms states]. rewrite Hstates.
  unfold RoomManager.addUser. rewrite lookup_insert_eq.
  unfold Rooms.addUser. apply String.eqb_neq in Hid. rewrite Hid.
  rewrite requested_name_nonempty. cbn [Rooms.users Rooms.users_set Rooms.id
    Rooms.createdAt].
  rewrite insert_insert_eq.
  unfold RoomManager.getUsers. rewrite lookup_insert_eq. cbn [Rooms.users].
  fold (joiner now ws msg r).
  f_equal.
  unfold send, Server.send, broadcast, Server.broadcast, Server.getUsers, view.
  cbn [Server.rooms rooms Server.ws_open Server.ws_id].
  rewrite fmap_insert, lookup_insert_eq.
  cbn [view_room Rooms.users Server.users fmap list_fmap omap list_omap
       view_member Server.u_id Rooms.m_id joiner].
  rewrite bool_decide_eq_true_2 by done. cbn [negb andb].
  rewrite app_nil_r.
  unfold DrawingStateManager.getState. rewrite lookup_insert_eq.
  cbn [fmap option_fmap option_map DrawingState.getState
       DrawingState.v_actionCount state_sync].
  unfold room_joined.
  destruct (Server.ws_open ws); cbn; [| by destruct (0 <? _)].
  by destruct (0 <? _).
Qed.

Lemma lifecycle_broadcast_filter room data ex w :
  broadcast room data ex w
  = (fun u => Core (Server.Send (Rooms.m_id u) data))
      <$> List.filter
            (fun u => negb (bool_decide (Some (Rooms.m_id u) = ex))
                      && Server.ws_open (Rooms.m_ws u))
            (RoomManager.getUsers room (rooms w)).
Proof.
  unfold broadcast, Server.broadcast, Server.getUsers, RoomManager.getUsers,
    view.
  cbn [Server.rooms]. rewrite lookup_fmap.
  destruct (rooms w !! room) as [rm |]; cbn; [| done].
  induction (Rooms.users rm) as [| u l IH]; cbn; [done |].
  destruct (negb _ && _); cbn; by rewrite IH.
Qed.

(** X24.  Joining a room that is open leaves every action log and the disk
    alone.  The joiner is entered in the room (in place, if the connection
    id was there already) and, its socket being open, is sent [room-joined]
    with the roster and then, if the room's log is not empty, [state-sync];
    after that every other member with an open socket is sent [user-joined]
    with the new count. *)
Theorem join_existing_room_keeps_its_log now rnd disk ws msg s r room w :
  msg !! "roomId" = Some (JStr s) ->
  clean_room_id s = r -> r <> "" ->
  rooms w !! r = Some room -> Rooms.id room = r ->
  Server.ws_id ws <> "" ->
  let users := Rooms.users_set (joiner now ws msg r) (Rooms.users room) in
  handleJoinRoom now rnd disk ws msg w
  = {| world :=
         {| rooms := <[r := Rooms.mkRoom r users (Rooms.createdAt room) now]>
                       (rooms w);
            states := states w |};
       conn := Rooms.m_ws (joiner now ws msg r);
       effects :=
         (if Server.ws_open ws
          then [Core (Server.Send (Server.ws_id ws) (room_joined ws r users))]
          else [])
         ++ state_sync ws (states w !! r)
         ++ ((fun u => Core (Server.Send (Rooms.m_id u)
                               (user_joined ws (requested_name msg)
                                  (length users))))
               <$> List.filter
                     (fun u => negb (bool_decide (Some (Rooms.m_id u)
                                                  = Some (Server.ws_id ws)))
                               && Server.ws_open (Rooms.m_ws u))
                     users);
       thrown := false |}.
Proof.
  intros Hmsg Hclean Hr Hroom Hrid Hid users.
  assert (Hs : s <> "").
  { intros ->. apply Hr. by rewrite <- Hclean. }
  unfold handleJoinRoom, requested_room. rewrite Hmsg. cbn [Server.truthy].
  apply String.eqb_neq in Hs. rewrite Hs. cbn [negb]. rewrite Hclean.
  rewrite (truthy_str_Some r Hr), Hroom, Hrid.
  rewrite lifecycle_broadcast_filter. cbn [rooms states].
  unfold RoomManager.addUser. rewrite Hroom.
  unfold Rooms.addUser. apply String.eqb_neq in Hid. rewrite Hid.
  rewrite requested_name_nonempty, Hrid. fold (joiner now ws msg r).
  fold users.
  unfold RoomManager.getUsers. rewrite lookup_insert_eq. cbn [Rooms.users].
  f_equal. f_equal; [| f_equal].
  - unfold send, Server.send. cbn [Server.ws_open Server.ws_id].
    unfold room_joined. by destruct (Server.ws_open ws).
  - unfold DrawingStateManager.getState, state_sync.
    destruct (states w !! r) as [s0 |]; cbn; [| done].
    destruct (0 <? _); cbn; [| done]. by destruct (Server.ws_open ws).
Qed.

(** X25.  When a connection that leaves was the last member of its room,
    the room's log, if there is one in memory, is written to its file, both
    the room and the log are dropped from memory, and nobody is sent
    anything.  Otherwise the
    connection is taken out of the room, the log stays, nothing is written,
    and every remaining member with an open socket is sent [user-left] with
    the new count. *)
Theorem disconnect_evicts_an_emptied_room now ws r room w :
  Server.truthy_str (Server.ws_roomId ws) = Some r ->
  rooms w !! r = Some room ->
  let rest := Rooms.users_delete (Server.ws_id ws) (Rooms.users room) in
  handleDisconnect now ws w
  = if bool_decide (length rest = 0%nat) then
      {| world := {| rooms := delete r (rooms w);
                     states := delete r (states w) |};
         conn := ws;
         effects := match states w !! r with
                    | Some log =>
                        [Core (Server.WriteFile r (DrawingState.toJSON log))]
                    | None => []
                    end;
         thrown := false |}
    else
      {| world :=
           {| rooms := <[r := Rooms.removeUser now (Server.ws_id ws) room]>
                         (rooms w);
              states := states w |};
         conn := ws;
         effects :=
           (fun u => Core (Server.Send (Rooms.m_id u)
                             (user_left ws (length rest))))
             <$> List.filter (fun u => Server.ws_open (Rooms.m_ws u)) rest;
         thrown := false |}.
Proof.
  intros Hr Hroom rest.
  unfold handleDisconnect. rewrite Hr, Hroom.
  rewrite lifecycle_broadcast_filter. cbn [rooms states].
  unfold RoomManager.removeUser. rewrite Hroom.
  unfold RoomManager.getUsers. rewrite lookup_insert_eq.
  cbn [Rooms.removeUser Rooms.users]. fold rest.
  case_bool_decide as Hlen.
  - destruct rest; [| discriminate]. cbn [List.filter fmap list_fmap app].
    unfold RoomManager.deleteRoom. rewrite lookup_insert_eq. cbn [fst].
    rewrite delete_insert_eq. f_equal.
    unfold Server.saveState, DrawingStateManager.saveState, view.
    cbn [Server.states states]. by destruct (states w !! r).
  - done.
Qed.

(** X26.  [cleanupRooms] keeps a room exactly when the room has a member
    or was active within the last 30 minutes; the rooms it keeps are
    unchanged. *)
Theorem cleanupRooms_removes_only_idle_empty_rooms now
    (m : gmap string Rooms.Room) r room :
  RoomManager.cleanupRooms now m !! r = Some room
  <-> m !! r = Some room
      /\ (Rooms.users room <> [] \/ now - Rooms.lastActivity room <= 1800000).
Proof.
  unfold RoomManager.cleanupRooms. rewrite map_lookup_filter_Some. cbn.
  unfold RoomManager.stale, Rooms.isEmpty, RoomManager.maxIdle.
  split; intros [Hm H]; (split; [done |]).
  - apply andb_false_iff in H as [H | H].
    + left. apply bool_decide_eq_false in H. by destruct (Rooms.users room).
    + right. apply Z.ltb_ge in H. lia.
  - apply andb_false_iff. destruct H as [H | H].
    + left. apply bool_decide_eq_false. by destruct (Rooms.users room).
    + right. apply Z.ltb_ge. lia.
Qed.

Lemma join_unknown_room_creates_it_witness :
  Server.ws_roomId
    (conn (handleJoinRoom 7 (fun _ => 0%Q) Samples.empty_disk Samples.stranger
             Samples.join_new Samples.lobby))
  = Some "NEWROOM".
Proof.
  rewrite (join_unknown_room_creates_it 7 (fun _ => 0%Q) Samples.empty_disk
             Samples.stranger Samples.join_new "new-room" "NEWROOM"
             Samples.lobby);
    [reflexivity | reflexivity | reflexivity | done
    | vm_compute; reflexivity | done].
Defined.

Lemma join_existing_room_keeps_its_log_witness :
  states
    (world (handleJoinRoom 7 (fun _ => 0%Q) Samples.empty_disk Samples.stranger
              Samples.join_room42 Samples.lobby))
  = states Samples.lobby.
Proof.
  rewrite (join_existing_room_keeps_its_log 7 (fun _ => 0%Q)
             Samples.empty_disk Samples.stranger Samples.join_room42 "room42"
             "ROOM42"
             (Rooms.mkRoom "ROOM42"
                [Rooms.mkMember "alice-id" "Alice" Samples.alice 0;
                 Rooms.mkMember "bob-id" "Bob" Samples.bob 0] 0 0)
             Samples.lobby);
    [reflexivity | reflexivity | reflexivity | done
    | vm_compute; reflexivity | reflexivity | done].
Defined.

Lemma disconnect_evicts_an_emptied_room_witness :
  effects (handleDisconnect 8 Samples.alice Samples.lobby)
  = [Core (Server.Send "bob-id" (user_left Samples.alice 1))].
Proof.
  rewrite (disconnect_evicts_an_emptied_room 8 Samples.alice "ROOM42"
             (Rooms.mkRoom "ROOM42"
                [Rooms.mkMember "alice-id" "Alice" Samples.alice 0;
                 Rooms.mkMember "bob-id" "Bob" Samples.bob 0] 0 0)
             Samples.lobby);
    [reflexivity | reflexivity | vm_compute; reflexivity].
Defined.

End JoinAndLeave.

(** ** The client: latency, reconnection, paths and rebuilds *)

Section ClientSocket.

Import WebSocketClient.

Context {Num : Type} (number : Z -> Num) (plus divide : Num -> Num -> Num)
  (round : Num -> Num).

Lemma updateLatency_history rtt (c : t Num) :
  (length (latencyHistory c) <= 5)%nat ->
  latencyHistory (updateLatency Num number plus divide round rtt c)
  = drop (S (length (latencyHistory c)) - 5) (latencyHistory c ++ [rtt])
  /\ (length (latencyHistory
                (updateLatency Num number plus divide round rtt c)) <= 5)%nat.
Proof.
  intros Hlen. unfold updateLatency. cbn [latencyHistory].
  set (pushed := latencyHistory c ++ [rtt]).
  assert (Hp : length pushed = S (length (latencyHistory c))).
  { unfold pushed. rewrite length_app. cbn. lia. }
  unfold maxLatencyHistory.
  destruct (Z.ltb_spec 5 (Z.of_nat (length pushed))) as [Hgt | Hle].
  - replace (S (length (latencyHistory c)) - 5)%nat with 1%nat by lia.
    split; [by destruct pushed |].
    destruct pushed; cbn in *; lia.
  - replace (S (length (latencyHistory c)) - 5)%nat with 0%nat by lia.
    split; [done | lia].
Qed.

Lemma keep_last_app (p rest : list Num) n :
  drop (length (drop (length p - n) p ++ rest) - n)
    (drop (length p - n) p ++ rest)
  = drop (length (p ++ rest) - n) (p ++ rest).
Proof.
  rewrite !drop_app, drop_drop, !length_app, !length_drop.
  f_equal; f_equal; lia.
Qed.

Lemma measure_history rtts : forall c : t Num,
  (length (latencyHistory c) <= 5)%nat ->
  latencyHistory (measure Num number plus divide round rtts c)
  = drop (length (latencyHistory c ++ rtts) - 5) (latencyHistory c ++ rtts).
Proof.
  induction rtts as [| rtt rest IH]; intros c Hlen.
  - cbn. rewrite app_nil_r.
    by replace (length (latencyHistory c) - 5)%nat with 0%nat by lia.
  - cbn [measure foldl].
    fold (measure Num number plus divide round rest
            (updateLatency Num number plus divide round rtt c)).
    destruct (updateLatency_history rtt c Hlen) as [Hh Hl].
    rewrite (IH _ Hl), Hh.
    replace (S (length (latencyHistory c)))
      with (length (latencyHistory c ++ [rtt]))
      by (rewrite length_app; cbn; lia).
    rewrite keep_last_app. by rewrite <- app_assoc.
Qed.

(** After a pong the latency is the mean of the history as it then is. *)
Lemma measure_latency rtts : forall c : t Num,
  rtts <> [] ->
  getLatency (measure Num number plus divide round rtts c)
  = mean Num number plus divide round
      (latencyHistory (measure Num number plus divide round rtts c)).
Proof.
  induction rtts as [| rtt rest IH] using rev_ind; intros c Hne; [done |].
  unfold measure. rewrite foldl_app. done.
Qed.

(** X27.  After any number of pongs since the client was created, the
    history holds the last five round-trip times, oldest first, and nothing
    else.  The latency reported is 50 before the first pong; after it, it
    is [Math.round(sum / count)] of exactly those last five (or fewer),
    summed from 0 in their order, whatever numbers the floating-point
    operations give.  So what was measured before the last five pongs has
    no influence on the latency. *)
Theorem latency_is_the_rounded_mean_of_the_last_five rtts :
  let last5 := drop (length rtts - 5) rtts in
  latencyHistory (measure Num number plus divide round rtts
                    (init Num number)) = last5
  /\ length last5 = Nat.min 5 (length rtts)
  /\ getLatency (measure Num number plus divide round rtts (init Num number))
     = match rtts with
       | [] => number 50
       | _ :: _ =>
           round (divide (foldl plus (number 0) last5)
                    (number (Z.of_nat (length last5))))
       end
  /\ (forall older,
        length rtts = 5%nat ->
        getLatency (measure Num number plus divide round (older ++ rtts)
                      (init Num number))
        = getLatency (measure Num number plus divide round rtts
                        (init Num number))).
Proof.
  intros last5. subst last5.
  assert (Hh : forall l,
    latencyHistory (measure Num number plus divide round l (init Num number))
    = drop (length l - 5) l).
  { intros l. rewrite measure_history by (cbn; lia). done. }
  assert (Hl : forall l,
    l <> [] ->
    getLatency (measure Num number plus divide round l (init Num number))
    = mean Num number plus divide round (drop (length l - 5) l)).
  { intros l Hne. by rewrite measure_latency, Hh. }
  split_and!.
  - apply Hh.
  - rewrite length_drop. lia.
  - destruct rtts as [| rtt rest]; [done |]. by rewrite Hl.
  - intros older Hfive.
    assert (Hne : rtts <> []) by (by destruct rtts).
    rewrite !Hl by (by destruct older, rtts).
    rewrite length_app, Hfive.
    replace (length older + 5 - 5)%nat with (length older) by lia.
    by rewrite drop_app_length.
Qed.

Lemma closes_attempts n : forall c : t Num,
  0 <= reconnectAttempts c <= 5 ->
  reconnectAttempts (closes n c)
  = Z.min 5 (reconnectAttempts c + Z.of_nat n).
Proof.
  induction n as [| n IH]; intros c Hc.
  - cbn. lia.
  - unfold closes in *. rewrite Nat.iter_succ_r.
    unfold tryReconnect at 2. unfold maxReconnectAttempts.
    destruct (Z.leb_spec 5 (reconnectAttempts c)).
    + cbn [fst]. rewrite IH by lia. lia.
    + cbn [fst]. rewrite IH by (cbn; lia). cbn. lia.
Qed.

(** X28.  After a connection has opened, the first five closes in a row
    schedule a reconnection after 1, 2, 4, 8 and 16 seconds; every close
    after that schedules nothing. *)
Theorem reconnect_backs_off_five_times_then_gives_up n (c : t Num) :
  (tryReconnect (closes n (onopen c))).2
  = if (Z.of_nat n <? 5) then Some (1000 * 2 ^ Z.of_nat n) else None.
Proof.
  assert (Hc : reconnectAttempts (onopen c) = 0) by done.
  unfold tryReconnect, maxReconnectAttempts.
  rewrite closes_attempts by lia. rewrite Hc.
  destruct (Z.ltb_spec (Z.of_nat n) 5).
  - destruct (Z.leb_spec 5 (Z.min 5 (0 + Z.of_nat n))); [lia |].
    cbn [snd]. do 3 f_equal. lia.
  - by destruct (Z.leb_spec 5 (Z.min 5 (0 + Z.of_nat n))); [| lia].
Qed.

End ClientSocket.

Section PathProperties.

Import PathOps.

Context {Point : Type} (far : Point -> Point -> bool).

Lemma thin_sublist prev middle : thin Point far prev middle `sublist_of` middle.
Proof.
  revert prev. induction middle as [| c rest IH]; intros prev; cbn; [done |].
  destruct (far prev c); [by apply sublist_skip | by apply sublist_cons].
Qed.

Lemma thin_spread prev middle : spread Point far prev (thin Point far prev middle).
Proof.
  revert prev. induction middle as [| c rest IH]; intros prev; cbn; [done |].
  destruct (far prev c) eqn:Hc; [| done]. cbn. by split.
Qed.

(** X29.  [optimizePath] returns a path of fewer than three points as it
    is.  A longer path keeps its first and its last point; what is returned
    is a subsequence of the path, in order; and every point kept between
    the two ends passed the distance test against the point kept just
    before it. *)
Theorem optimizePath_keeps_the_ends_and_thins_the_middle path :
  ((length path < 3)%nat -> optimizePath Point far path = path)
  /\ optimizePath Point far path `sublist_of` path
  /\ head (optimizePath Point far path) = head path
  /\ last (optimizePath Point far path) = last path
  /\ ((3 <= length path)%nat ->
      exists first kept final,
        optimizePath Point far path = first :: kept ++ [final]
        /\ head path = Some first /\ last path = Some final
        /\ spread Point far first kept).
Proof.
  unfold optimizePath.
  destruct (Nat.ltb_spec (length path) 3) as [Hshort | Hlong].
  - split_and!; [done | done | done | done | lia].
  - destruct path as [| first rest]; [cbn in Hlong; lia |].
    assert (Hrest : rest <> []) by (destruct rest; [cbn in Hlong; lia | done]).
    assert (Hsplit : rest = removelast rest ++ [List.last rest first])
      by (by apply app_removelast_last).
    assert (Hlast : last (first :: rest) = Some (List.last rest first)).
    { rewrite Hsplit at 1. by rewrite app_comm_cons, last_snoc. }
    split_and!.
    + lia.
    + apply sublist_skip. rewrite Hsplit at 3.
      apply sublist_app; [apply thin_sublist | done].
    + done.
    + by rewrite app_comm_cons, last_snoc, Hlast.
    + intros _. eexists first, _, _. split_and!; [done | done | done |].
      apply thin_spread.
Qed.

End PathProperties.

Section RendererProperties.

Import Renderer.

Context {Image : Type} (blank : Image)
        (paint : DrawingState.Action -> Image -> Image).

Abbreviation T := (Renderer.t Image).

Lemma replay_image i todo (c : T) :
  image Image (replay Image blank paint i todo c)
  = render Image blank paint todo (image Image c).
Proof.
  revert i c. induction todo as [| a rest IH]; intros i c; [done |].
  cbn [replay render foldl]. rewrite IH. fold (render Image blank paint rest).
  f_equal. unfold applyAction, clearCanvas.
  destruct (DrawingState.is_clear a); by destruct (_ && _).
Qed.

Lemma evict_image (c : T) : image Image (evict Image c) = image Image c.
Proof.
  unfold evict. destruct (_ <? _)%nat; [| done].
  by destruct (oldest_key Image _).
Qed.

Lemma newest_snapshot_Some cache n k snapshot :
  newest_snapshot Image cache n = Some (k, snapshot) ->
  (k <= n)%nat /\ cache !! k = Some snapshot
  /\ forall j, (k < j <= n)%nat -> cache !! j = None.
Proof.
  induction n as [| n IH]; cbn.
  - destruct (cache !! 0%nat) eqn:H0; [| done].
    intros [= <- <-]. split_and!; [lia | done | intros; lia].
  - destruct (cache !! S n) eqn:HS.
    + intros [= <- <-]. split_and!; [lia | done | intros; lia].
    + intros H. destruct (IH H) as (Hle & Hk & Hrest).
      split_and!; [lia | done |].
      intros j Hj. destruct (decide (j = S n)) as [-> | ?]; [done |].
      apply Hrest. lia.
Qed.

Lemma render_app l1 l2 img :
  render Image blank paint (l1 ++ l2) img
  = render Image blank paint l2 (render Image blank paint l1 img).
Proof. unfold render. by rewrite foldl_app. Qed.

Lemma render_snoc l a img :
  render Image blank paint (l ++ [a]) img
  = if DrawingState.is_clear a then blank
    else paint a (render Image blank paint l img).
Proof. by rewrite render_app. Qed.

Lemma replay_coherent active todo : forall i (c : T),
  drop i active = todo ->
  image Image c = render Image blank paint (take i active) blank ->
  coherent Image blank paint (snapshotCache Image c) active ->
  coherent Image blank paint
    (snapshotCache Image (replay Image blank paint i todo c)) active.
Proof.
  induction todo as [| a rest IH]; intros i c Hdrop Himg Hcoh; [done |].
  cbn [replay].
  assert (Hi : active !! i = Some a).
  { rewrite <- (Nat.add_0_r i), <- lookup_drop, Hdrop. done. }
  assert (Hlt : (S i <= length active)%nat) by (by apply lookup_lt_Some in Hi).
  assert (Htake : take (S i) active = take i active ++ [a])
    by (by apply take_S_r).
  assert (Himg1 : image Image (applyAction Image blank paint a c)
                  = render Image blank paint (take (S i) active) blank).
  { rewrite Htake, render_snoc. unfold applyAction, clearCanvas.
    destruct (DrawingState.is_clear a); cbn; [done | by rewrite Himg]. }
  assert (Hcoh1 : coherent Image blank paint
                    (snapshotCache Image (applyAction Image blank paint a c))
                    active).
  { unfold applyAction, clearCanvas.
    destruct (DrawingState.is_clear a); cbn; [| done].
    intros k snapshot Hk. by rewrite lookup_empty in Hk. }
  apply IH.
  - replace (S i) with (i + 1)%nat by lia.
    rewrite <- (drop_drop active 1 i), Hdrop. done.
  - by destruct (_ && _).
  - destruct (_ && _); [| done]. cbn [snapshotCache].
    intros k snapshot Hk. destruct (decide (k = S i)) as [-> | Hne].
    + rewrite lookup_insert_eq in Hk. injection Hk as <-. by split.
    + rewrite lookup_insert_ne in Hk by done. by apply Hcoh1.
Qed.

Lemma evict_coherent (c : T) active :
  coherent Image blank paint (snapshotCache Image c) active ->
  coherent Image blank paint (snapshotCache Image (evict Image c)) active.
Proof.
  intros Hcoh. unfold evict. destruct (_ <? _)%nat; [| done].
  destruct (oldest_key Image _) as [k0 |]; [| done]. cbn [snapshotCache].
  intros k snapshot Hk. apply lookup_delete_Some in Hk as [_ Hk].
  by apply Hcoh.
Qed.

(** X30.  [rebuild] with at least one active action paints, on top of the
    cached snapshot with the largest key not above the number of active
    actions, the active actions from that key on, and from a white canvas
    all of them when no such snapshot exists; with no active action it
    leaves the canvas white.  When every cached snapshot shows the first
    actions of this very list, as many as its key says, the result is the
    active actions painted in order on white, and the cache is again such a
    cache afterwards. *)
Theorem rebuild_draws_from_the_newest_snapshot st (c : T) :
  let active := List.filter (fun a => negb (DrawingState.undone a))
                  (DrawingState.v_actions st) in
  image Image (rebuild Image blank paint (Some st) c)
  = (if bool_decide (length active = 0%nat) then blank
     else match newest_snapshot Image (snapshotCache Image c)
                  (length active) with
          | Some (key, snapshot) =>
              render Image blank paint (drop key active) snapshot
          | None => render Image blank paint active blank
          end)
  /\ (coherent Image blank paint (snapshotCache Image c) active ->
      image Image (rebuild Image blank paint (Some st) c)
      = render Image blank paint active blank
      /\ coherent Image blank paint
           (snapshotCache Image (rebuild Image blank paint (Some st) c))
           active).
Proof.
  intros active.
  assert (Hmain :
    image Image (rebuild Image blank paint (Some st) c)
    = (if bool_decide (length active = 0%nat) then blank
       else match newest_snapshot Image (snapshotCache Image c)
                    (length active) with
            | Some (key, snapshot) =>
                render Image blank paint (drop key active) snapshot
            | None => render Image blank paint active blank
            end)).
  { unfold rebuild. fold active. case_bool_decide as Hlen; [done |].
    destruct (newest_snapshot Image _ _) as [[key snapshot] |];
      by rewrite evict_image, replay_image. }
  split; [exact Hmain |].
  intros Hcoh. split.
  - rewrite Hmain. case_bool_decide as Hlen; [by destruct active |].
    destruct (newest_snapshot Image _ _) as [[key snapshot] |] eqn:Hn; [| done].
    destruct (newest_snapshot_Some _ _ _ _ Hn) as (_ & Hk & _).
    destruct (Hcoh key snapshot Hk) as [Hle ->].
    rewrite <- render_app. by rewrite take_drop.
  - unfold rebuild. fold active. case_bool_decide as Hlen; [done |].
    destruct (newest_snapshot Image _ _) as [[key snapshot] |] eqn:Hn.
    + destruct (newest_snapshot_Some _ _ _ _ Hn) as (_ & Hk & _).
      destruct (Hcoh key snapshot Hk) as [Hle ->].
      apply evict_coherent, replay_coherent; done.
    + apply evict_coherent, replay_coherent; done.
Qed.

End RendererProperties.
